(** * DataUnifier: a shallow embedding of [main.py] and its verification

    The program reads JSON records of two shapes, classifies each record by
    the type of its timestamp field, normalizes it to one schema and sorts
    the result by timestamp.

    - Python values are the inductive type [value]; a [dict] with string
      keys is a [gmap string value]; a [str] is a string of bytes, its
      UTF-8 encoding, on which [endswith], slicing off a final [Z], the
      test for an ASCII character and the order by code point agree with
      Python's.
    - A raised exception is the [Raise] branch of [result]; the methods that
      only read their argument are functions into [result].
    - [unify_data], which appends to a list and sorts it in place, runs in a
      state monad over the objects it can reach: the instance, the argument
      list, the local result list and the standard output.  What the
      standard output does with a line of the handler, take it or raise,
      is a parameter: an exception of [print] leaves the handler.
    - [datetime.fromisoformat] and the time zone of the host are parameters
      of the pipeline; [float] is IEEE binary64 as specified by the Standard
      Library's [SpecFloat]. *)

From Stdlib Require Import ZArith String Ascii List Sorted Permutation Lia.
From Stdlib Require Import Floats.SpecFloat.
From stdpp Require Import base option gmap strings list fin_maps sorting.

Set Warnings "-register-all,-clear-no-such-hyp".
Local Open Scope string_scope.
Local Open Scope Z_scope.
Local Open Scope list_scope.

(** ** Python values and exceptions *)

(** The values [json.load] produces.  [VFloat] carries an IEEE binary64
    number in the Standard Library's specification format. *)
Inductive value : Type :=
| VNone
| VBool (b : bool)
| VInt (z : Z)
| VFloat (f : spec_float)
| VStr (s : string)
| VList (l : list value)
| VDict (d : gmap string value).

(** The exception classes the program can meet.  [ValueError] carries its
    message because [iso_to_milliseconds] builds one. *)
Inductive exn : Type :=
| ValueError (msg : string)
| AttributeError
| TypeError
| KeyError
| OverflowError
| OSError.

Inductive result (A : Type) : Type :=
| Ok (a : A)
| Raise (e : exn).
Arguments Ok {A} a.
Arguments Raise {A} e.

Definition rbind {A B} (m : result A) (k : A -> result B) : result B :=
  match m with
  | Ok a => k a
  | Raise e => Raise e
  end.

Declare Scope result_scope.
Delimit Scope result_scope with result.
Notation "x <- m ;; k" := (rbind m (fun x => k))
  (at level 100, m at next level, right associativity) : result_scope.
Local Open Scope result_scope.

Definition is_ok {A} (m : result A) : bool :=
  match m with Ok _ => true | Raise _ => false end.

Definition is_ValueError (e : exn) : bool :=
  match e with ValueError _ => true | _ => false end.

(** [try: body / except ValueError as e: handler e]; other exceptions
    propagate. *)
Definition try_except_ValueError {A} (body : result A)
    (handler : exn -> result A) : result A :=
  match body with
  | Raise e => if is_ValueError e then handler e else Raise e
  | r => r
  end.

(** ** Built-in operations used by the program *)

(** [isinstance(v, (int, float))]; [bool] is a subclass of [int]. *)
Definition isinstance_int_float (v : value) : bool :=
  match v with
  | VBool _ | VInt _ | VFloat _ => true
  | _ => false
  end.

(** [isinstance(v, str)]. *)
Definition isinstance_str (v : value) : bool :=
  match v with VStr _ => true | _ => false end.

(** [sub in s] on strings. *)
Fixpoint str_in (sub s : string) : bool :=
  String.prefix sub s ||
  match s with
  | EmptyString => false
  | String _ s' => str_in sub s'
  end.

(** [s.endswith(c)] for a one-character suffix. *)
Fixpoint endswith (s : string) (c : ascii) : bool :=
  match s with
  | EmptyString => false
  | String a EmptyString => Ascii.eqb a c
  | String _ s' => endswith s' c
  end.

(** [s[:-1]]. *)
Fixpoint str_init (s : string) : string :=
  match s with
  | EmptyString => EmptyString
  | String _ EmptyString => EmptyString
  | String a s' => String a (str_init s')
  end.

(** [if s.endswith('Z'): s = s[:-1]]. *)
Definition strip_Z (s : string) : string :=
  if endswith s "Z" then str_init s else s.

(** [data.get(key, default)]: [AttributeError] when [data] is not a dict. *)
Definition dict_get (data : value) (key : string) (dflt : value)
    : result value :=
  match data with
  | VDict d => Ok (default dflt (d !! key))
  | _ => Raise AttributeError
  end.

(** [data[key]]. *)
Definition getitem (data : value) (key : string) : result value :=
  match data with
  | VDict d =>
      match d !! key with
      | Some v => Ok v
      | None => Raise KeyError
      end
  | _ => Raise TypeError
  end.

(** ** Comparison of Python values: [==] and [<] *)

(** Numbers compare by value across [bool], [int] and [float]; a finite
    number is kept as mantissa and binary exponent. *)
Inductive number : Type :=
| NaN
| NegInf
| PosInf
| Fin (m e : Z).

Definition as_number (v : value) : option number :=
  match v with
  | VBool b => Some (Fin (if b then 1 else 0) 0)
  | VInt z => Some (Fin z 0)
  | VFloat (S754_zero _) => Some (Fin 0 0)
  | VFloat (S754_infinity s) => Some (if s then NegInf else PosInf)
  | VFloat S754_nan => Some NaN
  | VFloat (S754_finite s m e) => Some (Fin (cond_Zopp s (Zpos m)) e)
  | _ => None
  end.

Definition align (m e e' : Z) : Z := m * 2 ^ (e - Z.min e e').

Definition number_ltb (a b : number) : bool :=
  match a, b with
  | NaN, _ | _, NaN => false
  | NegInf, NegInf => false
  | NegInf, _ => true
  | _, NegInf => false
  | PosInf, _ => false
  | _, PosInf => true
  | Fin m e, Fin m' e' => align m e e' <? align m' e' e
  end.

Definition number_eqb (a b : number) : bool :=
  match a, b with
  | NegInf, NegInf | PosInf, PosInf => true
  | Fin m e, Fin m' e' => align m e e' =? align m' e' e
  | _, _ => false
  end.

(** [a == b]; never raises on JSON values. *)
Fixpoint py_eq (a b : value) {struct a} : bool :=
  match a, b with
  | VNone, VNone => true
  | VStr s, VStr t => String.eqb s t
  | VList l, VList k =>
      (fix go (l k : list value) {struct l} : bool :=
         match l, k with
         | [], [] => true
         | x :: l', y :: k' => py_eq x y && go l' k'
         | _, _ => false
         end) l k
  | VDict d, VDict d' =>
      (Nat.eqb (size d) (size d')) &&
      map_fold (fun key x acc =>
                  acc && match d' !! key with
                         | Some y => py_eq x y
                         | None => false
                         end) true d
  | _, _ =>
      match as_number a, as_number b with
      | Some x, Some y => number_eqb x y
      | _, _ => false
      end
  end.

(** [a < b]: defined between numbers, between strings and between lists
    (lexicographically); every other pair raises [TypeError]. *)
Fixpoint py_lt (a b : value) {struct a} : result bool :=
  match a, b with
  | VStr s, VStr t => Ok (String.ltb s t)
  | VList l, VList k =>
      (fix go (l k : list value) {struct l} : result bool :=
         match l, k with
         | [], [] => Ok false
         | [], _ :: _ => Ok true
         | _ :: _, [] => Ok false
         | x :: l', y :: k' => if py_eq x y then go l' k' else py_lt x y
         end) l k
  | _, _ =>
      match as_number a, as_number b with
      | Some x, Some y => Ok (number_ltb x y)
      | _, _ => Raise TypeError
      end
  end.

(** ** [list.sort(key=...)]

    The sort computes every key first, then orders the elements with [<] on
    the keys only, stably; an exception of the key function or of a
    comparison aborts it.  The model inserts the elements from left to right
    into the sorted prefix, each one behind the elements that are not
    greater, asking [pivot < p] for a later [pivot] and an earlier [p] as
    CPython does.  Where [<] is a total preorder on the keys the result is
    the one stable arrangement, whatever the order of the comparisons; on
    two elements the single comparison is CPython's. *)

Fixpoint mapM {A B} (f : A -> result B) (l : list A) : result (list B) :=
  match l with
  | [] => Ok []
  | x :: l' => y <- f x ;; ys <- mapM f l' ;; Ok (y :: ys)
  end.

Fixpoint insert_keyed (pivot : value * value) (l : list (value * value))
    : result (list (value * value)) :=
  match l with
  | [] => Ok [pivot]
  | p :: l' =>
      lt <- py_lt (fst pivot) (fst p) ;;
      if (lt : bool) then Ok (pivot :: p :: l')
      else (r <- insert_keyed pivot l' ;; Ok (p :: r))
  end.

Fixpoint sort_keyed (sorted todo : list (value * value))
    : result (list (value * value)) :=
  match todo with
  | [] => Ok sorted
  | pivot :: todo' =>
      sorted' <- insert_keyed pivot sorted ;;
      sort_keyed sorted' todo'
  end.

Definition list_sort (key : value -> result value) (l : list value)
    : result (list value) :=
  keys <- mapM key l ;;
  r <- sort_keyed [] (combine keys l) ;;
  Ok (map snd r).

(** ** Binary64 arithmetic of Python's [float] *)

Definition prec : Z := 53.
Definition emax : Z := 1024.

(** An integer as an unrounded floating-point datum. *)
Definition exact_int (z : Z) : spec_float :=
  match z with
  | Z0 => S754_zero false
  | Zpos p => S754_finite false p 0
  | Zneg p => S754_finite true p 0
  end.

(** [float(z)], correctly rounded. *)
Definition float_of_int (z : Z) : spec_float :=
  binary_normalize prec emax z 0 false.

(** [a / b] on two [int]s: the correctly rounded quotient. *)
Definition int_truediv (a b : Z) : spec_float :=
  SFdiv prec emax (exact_int a) (exact_int b).

Definition float_div (x y : spec_float) : spec_float := SFdiv prec emax x y.
Definition float_mul (x y : spec_float) : spec_float := SFmul prec emax x y.
Definition float_add (x y : spec_float) : spec_float := SFadd prec emax x y.

(** [int(x)]: truncation toward zero. *)
Definition int_of_float (x : spec_float) : result Z :=
  match x with
  | S754_zero _ => Ok 0
  | S754_finite s m e => Ok (cond_Zopp s (Z.shiftl (Zpos m) e))
  | S754_infinity _ => Raise OverflowError
  | S754_nan => Raise (ValueError "cannot convert float NaN to integer")
  end.

(** ** The [datetime] class, as far as the program uses it *)

(** [tzinfo] holds the UTC offset in microseconds of an aware instance and
    is [None] for a naive one. *)
Record datetime : Type := {
  year : Z; month : Z; day : Z;
  hour : Z; minute : Z; second : Z; microsecond : Z;
  tzinfo : option Z
}.

Definition is_leap (y : Z) : bool :=
  (y mod 4 =? 0) && (negb (y mod 100 =? 0) || (y mod 400 =? 0)).

Definition days_before_year (y : Z) : Z :=
  let y := y - 1 in y * 365 + y / 4 - y / 100 + y / 400.

Definition days_in_month (y m : Z) : Z :=
  if m =? 2 then (if is_leap y then 29 else 28)
  else if (m =? 4) || (m =? 6) || (m =? 9) || (m =? 11) then 30
  else 31.

Definition days_before_month (y m : Z) : Z :=
  fold_right Z.add 0
    (map (days_in_month y) (map Z.of_nat (seq 1 (Z.to_nat (m - 1))))).

(** [date.toordinal()]: day 1 is 0001-01-01. *)
Definition ymd2ord (y m d : Z) : Z :=
  days_before_year y + days_before_month y m + d.

Definition EPOCH_ORDINAL : Z := ymd2ord 1970 1 1.

(** Seconds and microseconds between 1970-01-01T00:00:00 and the wall clock
    the fields spell, the offset not applied. *)
Definition wall_seconds (dt : datetime) : Z :=
  (ymd2ord (year dt) (month dt) (day dt) - EPOCH_ORDINAL) * 86400
  + hour dt * 3600 + minute dt * 60 + second dt.

Definition wall_microseconds (dt : datetime) : Z :=
  wall_seconds dt * 1000000 + microsecond dt.

(** * The [DataUnifier] class *)

Section Pipeline.

(** [datetime.fromisoformat] on a [str]: the accepted grammar differs
    between interpreter versions, so the parser is a parameter. *)
Variable fromisoformat : string -> result datetime.

(** The host's time zone: the epoch second at which the local wall clock
    shows the given wall-clock second (the platform [mktime]). *)
Variable local_to_seconds : Z -> result Z.

(** [dt.timestamp()].  An aware instance is subtracted from the epoch and
    [total_seconds()] divides the microseconds by [10**6]; a naive instance
    goes through the host's time zone. *)
Definition timestamp (dt : datetime) : result spec_float :=
  match tzinfo dt with
  | Some utcoffset =>
      Ok (int_truediv (wall_microseconds dt - utcoffset) 1000000)
  | None =>
      seconds <- local_to_seconds (wall_seconds dt) ;;
      Ok (float_add (float_of_int seconds)
            (float_div (float_of_int (microsecond dt))
               (float_of_int 1000000)))
  end.

(** ** [DataUnifier.iso_to_milliseconds] *)

Definition iso_to_milliseconds (iso_timestamp : value) : result value :=
  match iso_timestamp with
  | VStr s =>
      let s := strip_Z s in
      try_except_ValueError
        (dt <- fromisoformat s ;;
         t <- timestamp dt ;;
         milliseconds <- int_of_float (float_mul t (float_of_int 1000)) ;;
         Ok (VInt milliseconds))
        (fun _ =>
           Raise (ValueError ("Invalid ISO timestamp format: " ++ s)%string))
  | _ => Raise AttributeError
  end.

(** ** [DataUnifier.normalize_data_format_1] *)

Definition normalize_data_format_1 (data : value) : result value :=
  timestamp <- dict_get data "timestamp" VNone ;;
  message <- dict_get data "message" (VStr "") ;;
  val <- dict_get data "value" (VInt 0) ;;
  metadata <- dict_get data "metadata" (VDict ∅) ;;
  Ok (VDict (<["timestamp" := timestamp]>
            (<["message" := message]>
            (<["value" := val]>
            (<["source" := VStr "format_1"]>
            (<["metadata" := metadata]> ∅)))))).

(** ** [DataUnifier.normalize_data_format_2] *)

Definition normalize_data_format_2 (data : value) : result value :=
  time <- dict_get data "time" (VStr "") ;;
  iso_timestamp <- dict_get data "timestamp" time ;;
  millisecond_timestamp <- iso_to_milliseconds iso_timestamp ;;
  msg <- dict_get data "msg" (VStr "") ;;
  message <- dict_get data "message" msg ;;
  val <- dict_get data "val" (VInt 0) ;;
  val <- dict_get data "value" val ;;
  meta <- dict_get data "meta" (VDict ∅) ;;
  metadata <- dict_get data "metadata" meta ;;
  Ok (VDict (<["timestamp" := millisecond_timestamp]>
            (<["message" := message]>
            (<["value" := val]>
            (<["source" := VStr "format_2"]>
            (<["metadata" := metadata]> ∅)))))).

(** ** [DataUnifier.detect_data_format] *)

Definition detect_data_format (data : value) : result string :=
  dflt <- dict_get data "time" (VStr "") ;;
  timestamp <- dict_get data "timestamp" dflt ;;
  if isinstance_int_float timestamp then Ok "format_1"
  else if isinstance_str timestamp &&
          (match timestamp with
           | VStr s => str_in "T" s || str_in "Z" s
           | _ => false
           end)
  then Ok "format_2"
  else Ok "format_1".

(** ** The objects a call of [unify_data] can reach *)

(** The instance: [__init__] sets its one attribute. *)
Record DataUnifier : Type := { unified_data : list value }.

Definition __init__ : DataUnifier := {| unified_data := [] |}.

(** A line written by [print] in the handler of [unify_data]. *)
Inductive line : Type :=
| ErrorProcessing (data_entry : value)
| Error (e : exn).

(** Python passes the instance and the argument list by reference: they
    live in the store, where the method could update them, next to the
    list it builds. *)
Record store : Type := {
  self : DataUnifier;              (* the instance *)
  data_list : list value;          (* the argument, a list object *)
  unified_results : list value;    (* the local list object *)
  stdout : list line
}.

Definition M (A : Type) : Type := store -> result A * store.

Definition mret {A} (a : A) : M A := fun st => (Ok a, st).

Definition mbind {A B} (m : M A) (k : A -> M B) : M B :=
  fun st =>
    match m st with
    | (Ok a, st') => k a st'
    | (Raise e, st') => (Raise e, st')
    end.

Definition lift {A} (r : result A) : M A := fun st => (r, st).

Declare Scope M_scope.
Delimit Scope M_scope with M.
Notation "x <- m ;; k" := (mbind m (fun x => k))
  (at level 100, m at next level, right associativity) : M_scope.

(** [try: body / except Exception as e: handler e]. *)
Definition try_except {A} (body : M A) (handler : exn -> M A) : M A :=
  fun st =>
    match body st with
    | (Raise e, st') => handler e st'
    | r => r
    end.

Definition set_unified_results (l : list value) (st : store) : store :=
  {| self := self st; data_list := data_list st;
     unified_results := l; stdout := stdout st |}.

Definition set_stdout (out : list line) (st : store) : store :=
  {| self := self st; data_list := data_list st;
     unified_results := unified_results st; stdout := out |}.

(** The standard output as [print] meets it: what becomes of a line.  A
    stream that cannot encode the text of the line raises
    [UnicodeEncodeError], which is a [ValueError]; a closed stream raises
    too. *)
Variable stdout_write : line -> result unit.

(** [print(...)]: the line reaches the standard output, or the stream
    raises and nothing of the line is written. *)
Definition print (l : line) : M unit :=
  fun st =>
    match stdout_write l with
    | Ok _ => (Ok tt, set_stdout (stdout st ++ [l]) st)
    | Raise e => (Raise e, st)
    end.

Definition read_data_list : M (list value) :=
  fun st => (Ok (data_list st), st).

Definition read_unified_results : M (list value) :=
  fun st => (Ok (unified_results st), st).

Definition write_unified_results (l : list value) : M unit :=
  fun st => (Ok tt, set_unified_results l st).

(** [unified_results.append(x)]. *)
Definition unified_results_append (x : value) : M unit :=
  (l <- read_unified_results ;; write_unified_results (l ++ [x]))%M.

(** [unified_results.sort(key=key)], in place. *)
Definition unified_results_sort (key : value -> result value) : M unit :=
  (l <- read_unified_results ;;
   sorted <- lift (list_sort key l) ;;
   write_unified_results sorted)%M.

(** [for x in l: body x]. *)
Fixpoint for_each {A} (l : list A) (body : A -> M unit) : M unit :=
  match l with
  | [] => mret tt
  | x :: l' => (_ <- body x ;; for_each l' body)%M
  end.

(** ** [DataUnifier.unify_data] *)

(** The body of the [for] loop. *)
Definition unify_data_body (data_entry : value) : M unit :=
  (try_except
     (format_type <- lift (detect_data_format data_entry) ;;
      normalized <-
        lift (if String.eqb format_type "format_1"
              then normalize_data_format_1 data_entry
              else normalize_data_format_2 data_entry) ;;
      unified_results_append normalized)
     (fun e =>
        _ <- print (ErrorProcessing data_entry) ;;
        print (Error e)))%M.

Definition unify_data : M (list value) :=
  (_ <- write_unified_results [] ;;
   entries <- read_data_list ;;
   _ <- for_each entries unify_data_body ;;
   _ <- unified_results_sort (fun x => getitem x "timestamp") ;;
   read_unified_results)%M.

(** A call [self.unify_data(data_list)] from a state where nothing was
    printed yet. *)
Definition call (slf : DataUnifier) (input : list value) : store :=
  {| self := slf; data_list := input; unified_results := [];
     stdout := [] |}.

(** The value returned (or the exception raised) by
    [DataUnifier().unify_data(input)]. *)
Definition unify (input : list value) : result (list value) :=
  fst (unify_data (call __init__ input)).

End Pipeline.

(** * Files and the entry point *)

(** ** The file system and the console *)

(** What [with open(path, 'r') as f: data = json.load(f)] comes to. *)
Inductive read_outcome : Type :=
| Content (data : value)      (* the file holds the JSON text of [data] *)
| NotFound                    (* [open] raises [FileNotFoundError] *)
| Malformed (msg : string)    (* [json.load] raises [JSONDecodeError] *)
| ReadFails (e : exn).        (* any other exception, [PermissionError] say *)

(** The lines the program writes to the standard output. *)
Inductive console_line : Type :=
| Starting
| Loaded (n : nat) (path : string)
| FileNotFound (path : string)
| JSONDecodeError (path : string) (msg : string)
| Unifier (l : line)                     (* a line of [unify_data] *)
| Saved (path : string)
| TotalEntries (n : nat)
| ErrorSaving (e : exn)
| Complete
| SampleHeader
| SampleEntry (entry : value).           (* [json.dumps(entry, indent=2)] *)

(** The console and the files written so far.  The lines of the loader,
    of [save_unified_data] and of [main] are fixed messages around a path,
    a count or the text of an error, and the output of [json.dumps], which
    is ASCII: the console is taken to accept them.  The lines of
    [unify_data], which carry the text of a rejected record, go through
    [stdout_write]. *)
Record world : Type := {
  console : list console_line;
  written : list (string * list value)
}.

Definition W (A : Type) : Type := world -> result A * world.

Definition wret {A} (a : A) : W A := fun w => (Ok a, w).

Definition wbind {A B} (m : W A) (k : A -> W B) : W B :=
  fun w =>
    match m w with
    | (Ok a, w') => k a w'
    | (Raise e, w') => (Raise e, w')
    end.

Definition wraise {A} (e : exn) : W A := fun w => (Raise e, w).

Declare Scope W_scope.
Delimit Scope W_scope with W.
Notation "x <- m ;; k" := (wbind m (fun x => k))
  (at level 100, m at next level, right associativity) : W_scope.

Definition wprint (l : console_line) : W unit :=
  fun w => (Ok tt, {| console := console w ++ [l]; written := written w |}).

Definition wprint_all (ls : list console_line) : W unit :=
  fun w => (Ok tt, {| console := console w ++ ls; written := written w |}).

Definition record_write (path : string) (data : list value) : W unit :=
  fun w =>
    (Ok tt, {| console := console w;
               written := written w ++ [(path, data)] |}).

Section Files.

Variable fromisoformat : string -> result datetime.
Variable local_to_seconds : Z -> result Z.

(** The standard output as the handler of [unify_data] meets it. *)
Variable stdout_write : line -> result unit.

(** The files as the run finds them. *)
Variable read_json : string -> read_outcome.

(** [with open(path, 'w') as f: json.dump(data, f, indent=2)]: whether the
    destination accepts the text. *)
Variable write_json : string -> list value -> result unit.

(** ** [DataUnifier.load_and_unify_from_files] *)

(** One of the two [try] blocks, which differ in the path only: the
    entries of the file are added to [all_data]. *)
Definition load_file (path : string) (all_data : list value)
    : W (list value) :=
  (match read_json path with
   | Content data =>
       let all_data :=
         match data with
         | VList entries => all_data ++ entries     (* [extend] *)
         | _ => all_data ++ [data]                  (* [append] *)
         end in
       _ <- wprint (Loaded (match data with
                            | VList entries => length entries
                            | _ => 1
                            end) path) ;;
       wret all_data
   | NotFound => _ <- wprint (FileNotFound path) ;; wret all_data
   | Malformed msg => _ <- wprint (JSONDecodeError path msg) ;; wret all_data
   | ReadFails e => wraise e
   end)%W.

(** [self.unify_data(all_data)] seen from the caller: the lines it prints
    go to the console. *)
Definition call_unify_data (slf : DataUnifier) (all_data : list value)
    : W (list value) :=
  fun w =>
    let '(r, st) := unify_data fromisoformat local_to_seconds stdout_write
                      (call slf all_data) in
    (r, {| console := console w ++ map Unifier (stdout st);
           written := written w |}).

Definition load_and_unify_from_files (slf : DataUnifier)
    (file1_path file2_path : string) : W (list value) :=
  (all_data <- load_file file1_path [] ;;
   all_data <- load_file file2_path all_data ;;
   call_unify_data slf all_data)%W.

(** ** [DataUnifier.save_unified_data] *)

Definition save_unified_data (slf : DataUnifier)
    (unified_data : list value) (output_path : string) : W unit :=
  (match write_json output_path unified_data with
   | Ok _ =>
       _ <- record_write output_path unified_data ;;
       _ <- wprint (Saved output_path) ;;
       wprint (TotalEntries (length unified_data))
   | Raise e => wprint (ErrorSaving e)
   end)%W.

(** ** [main] *)

Definition main : W unit :=
  (_ <- wprint Starting ;;
   let unifier := __init__ in
   unified_result <-
     load_and_unify_from_files unifier "data-1.json" "data-2.json" ;;
   _ <- save_unified_data unifier unified_result "data-result.json" ;;
   _ <- wprint Complete ;;
   match unified_result with
   | first :: _ => _ <- wprint SampleHeader ;; wprint (SampleEntry first)
   | [] => wret tt
   end)%W.

End Files.

(** * A concrete interpreter and host

    [fromisoformat_v37] accepts the grammar documented for Python 3.7 to
    3.10, [YYYY-MM-DD[*HH[:MM[:SS[.fff[fff]]]][+HH:MM[:SS[.ffffff]]]]], and
    applies the range checks of the [datetime] constructor.  Later
    interpreters accept more strings. *)

Definition digit (c : ascii) : option Z :=
  let n := Z.of_nat (nat_of_ascii c) in
  if (48 <=? n) && (n <=? 57) then Some (n - 48) else None.

(** Exactly [n] decimal digits. *)
Fixpoint digits (n : nat) (acc : Z) (l : list ascii)
    : option (Z * list ascii) :=
  match n with
  | O => Some (acc, l)
  | S n' =>
      match l with
      | c :: l' => d ← digit c; digits n' (acc * 10 + d) l'
      | [] => None
      end
  end.

Definition expect (c : ascii) (l : list ascii) : option (list ascii) :=
  match l with
  | a :: l' => if Ascii.eqb a c then Some l' else None
  | [] => None
  end.

(** [.fff] or [.ffffff], up to the end of the input. *)
Definition parse_fraction (l : list ascii) : option Z :=
  l ← expect "." l;
  match length l with
  | 3%nat => '(f, _) ← digits 3 0 l; Some (f * 1000)
  | 6%nat => '(f, _) ← digits 6 0 l; Some f
  | _ => None
  end.

(** [HH[:MM[:SS[.fff[fff]]]]], the whole input. *)
Definition parse_hh_mm_ss_ff (l : list ascii) : option (Z * Z * Z * Z) :=
  '(hh, l) ← digits 2 0 l;
  match l with
  | [] => Some (hh, 0, 0, 0)
  | _ =>
      l ← expect ":" l;
      '(mm, l) ← digits 2 0 l;
      match l with
      | [] => Some (hh, mm, 0, 0)
      | _ =>
          l ← expect ":" l;
          '(ss, l) ← digits 2 0 l;
          match l with
          | [] => Some (hh, mm, ss, 0)
          | _ => ff ← parse_fraction l; Some (hh, mm, ss, ff)
          end
      end
  end.

Definition is_sign (c : ascii) : bool :=
  Ascii.eqb c "+" || Ascii.eqb c "-".

(** The input up to the first sign, the sign and what follows it. *)
Fixpoint split_sign (l : list ascii)
    : list ascii * option (ascii * list ascii) :=
  match l with
  | [] => ([], None)
  | c :: l' =>
      if is_sign c then ([], Some (c, l'))
      else let '(before, after) := split_sign l' in (c :: before, after)
  end.

(** The offset [+HH:MM[:SS[.ffffff]]] in microseconds. *)
Definition parse_utcoffset (sign : ascii) (l : list ascii) : option Z :=
  if bool_decide (length l ∈ [5; 8; 15]%nat) then
    '(hh, mm, ss, ff) ← parse_hh_mm_ss_ff l;
    let off := ((hh * 3600 + mm * 60 + ss) * 1000000 + ff) in
    if off <? 86400 * 1000000
    then Some (if Ascii.eqb sign "-" then - off else off)
    else None
  else None.

Definition parse_isoformat (l : list ascii) : option datetime :=
  '(y, l) ← digits 4 0 l;
  l ← expect "-" l;
  '(m, l) ← digits 2 0 l;
  l ← expect "-" l;
  '(d, l) ← digits 2 0 l;
  '(hh, mm, ss, ff, tz) ←
    match l with
    | [] => Some (0, 0, 0, 0, None)
    | _ :: l =>
        let '(time, zone) := split_sign l in
        '(hh, mm, ss, ff) ← parse_hh_mm_ss_ff time;
        match zone with
        | None => Some (hh, mm, ss, ff, None)
        | Some (sign, l) =>
            off ← parse_utcoffset sign l; Some (hh, mm, ss, ff, Some off)
        end
    end;
  if (1 <=? y) && (1 <=? m) && (m <=? 12)
     && (1 <=? d) && (d <=? days_in_month y m)
     && (hh <=? 23) && (mm <=? 59) && (ss <=? 59)
  then Some {| year := y; month := m; day := d;
               hour := hh; minute := mm; second := ss; microsecond := ff;
               tzinfo := tz |}
  else None.

Definition fromisoformat_v37 (s : string) : result datetime :=
  match parse_isoformat (list_ascii_of_string s) with
  | Some dt => Ok dt
  | None => Raise (ValueError ("Invalid isoformat string: " ++ s)%string)
  end.

(** A host whose local time is UTC shifted by [offset] seconds. *)
Definition fixed_zone (offset : Z) (wall : Z) : result Z :=
  Ok (wall - offset).

Definition utc_zone : Z -> result Z := fixed_zone 0.

(** * The vocabulary of the properties *)

(** ** Timestamps and sort keys *)

(** The sort key of [unify_data]: [lambda x: x["timestamp"]]. *)
Definition timestamp_key (x : value) : result value := getitem x "timestamp".

(** The timestamp of a record when it is an [int] (and not a [bool]). *)
Definition int_timestamp (x : value) : option Z :=
  match timestamp_key x with
  | Ok (VInt z) => Some z
  | _ => None
  end.

Definition has_int_timestamp (x : value) : Prop := is_Some (int_timestamp x).

Definition timestamp_le (x y : value) : Prop :=
  match int_timestamp x, int_timestamp y with
  | Some a, Some b => a <= b
  | _, _ => False
  end.

Definition timestamp_is (t : Z) (x : value) : bool :=
  match int_timestamp x with
  | Some z => z =? t
  | None => false
  end.

(** The integer a keyed element is ordered by. *)
Definition zkey (p : value * value) : Z :=
  match fst p with VInt z => z | _ => 0 end.

Definition int_keyed (p : value * value) : Prop := exists z, fst p = VInt z.

Definition zkey_le (p q : value * value) : Prop := zkey p <= zkey q.

Definition zkey_is (t : Z) (p : value * value) : bool := zkey p =? t.

(** A keyed element as [list.sort] builds it for such a record. *)
Definition keyed_ok (p : value * value) : Prop :=
  exists z, fst p = VInt z /\ int_timestamp (snd p) = Some z.

(** ** What one iteration contributes *)

Section Entries.

Variable fromisoformat : string -> result datetime.
Variable local_to_seconds : Z -> result Z.

(** Classification followed by the normalizer it selects: the two steps
    the loop body guards. *)
Definition normalize_entry (data_entry : value) : result value :=
  format_type <- detect_data_format data_entry ;;
  if String.eqb format_type "format_1"
  then normalize_data_format_1 data_entry
  else normalize_data_format_2 fromisoformat local_to_seconds data_entry.

(** The records that normalize, in their order of appearance. *)
Definition collected (l : list value) : list value :=
  omap (fun x => match normalize_entry x with
                 | Ok v => Some v
                 | Raise _ => None
                 end) l.

(** The lines the handler prints for the records that do not. *)
Definition printed (l : list value) : list line :=
  flat_map (fun x => match normalize_entry x with
                     | Ok _ => []
                     | Raise e => [ErrorProcessing x; Error e]
                     end) l.

End Entries.

(** ** What the console lets through *)

Section Console.

Variable stdout_write : line -> result unit.

(** The console accepts each of the lines. *)
Definition accepted (ls : list line) : Prop :=
  Forall (fun l => stdout_write l = Ok tt) ls.

(** The exception of the first line the console refuses, when it refuses
    one. *)
Fixpoint refused (ls : list line) : option exn :=
  match ls with
  | [] => None
  | l :: ls' =>
      match stdout_write l with
      | Ok _ => refused ls'
      | Raise e => Some e
      end
  end.

(** The lines that reach the console: those before the first one it
    refuses. *)
Fixpoint shown (ls : list line) : list line :=
  match ls with
  | [] => []
  | l :: ls' =>
      match stdout_write l with
      | Ok _ => l :: shown ls'
      | Raise _ => []
      end
  end.

(** How a sequence of [print]s ends. *)
Definition print_outcome (ls : list line) : result unit :=
  match refused ls with
  | Some e => Raise e
  | None => Ok tt
  end.

End Console.

(** ** Timestamps the sort can compare *)

(** [x < y] on the sort keys of two records is defined. *)
Definition comparable (x y : value) : Prop :=
  exists a b, timestamp_key x = Ok a /\ timestamp_key y = Ok b
              /\ is_ok (py_lt a b) = true.

(** Each two records of the list are comparable, in both orders. *)
Fixpoint pairwise_comparable (l : list value) : Prop :=
  match l with
  | [] => True
  | x :: l' =>
      Forall (fun y => comparable x y /\ comparable y x) l'
      /\ pairwise_comparable l'
  end.

(** ** Shapes of records, ranges of instances *)

(** From the specification: the value of the first of [keys] present in the
    mapping, [dflt] when none is. *)
Fixpoint first_present (m : gmap string value) (keys : list string)
    (dflt : value) : value :=
  match keys with
  | [] => dflt
  | k :: keys' =>
      match m !! k with
      | Some v => v
      | None => first_present m keys' dflt
      end
  end.

(** From the specification: the timestamp-bearing field of a record. *)
Definition timestamp_field (d : gmap string value) : value :=
  first_present d ["timestamp"; "time"] (VStr "").

(** The character [c] occurs in [s]. *)
Definition has_char (c : ascii) (s : string) : Prop :=
  In c (list_ascii_of_string s).

(** The canonical record [normalize_data_format_1] builds from a dict. *)
Definition canonical_1 (d : gmap string value) : gmap string value :=
  <["timestamp" := default VNone (d !! "timestamp")]>
  (<["message" := default (VStr "") (d !! "message")]>
  (<["value" := default (VInt 0) (d !! "value")]>
  (<["source" := VStr "format_1"]>
  (<["metadata" := default (VDict ∅) (d !! "metadata")]> ∅)))).

(** A record whose canonical timestamp, if it normalizes, is an [int]:
    it holds one under key [timestamp], or it is classified [format_2]. *)
Definition integer_stamped (r : value) : Prop :=
  match r with
  | VDict d =>
      (exists z, d !! "timestamp" = Some (VInt z))
      \/ detect_data_format r = Ok "format_2"
  | _ => True
  end.

(** The key set of a canonical record. *)
Definition canonical_keys : gset string :=
  {[ "timestamp"; "message"; "value"; "source"; "metadata" ]}.

(** A record of the canonical shape: exactly the five fields, the
    timestamp an integer. *)
Definition canonical_shaped (r : value) : Prop :=
  exists d z, r = VDict d /\ dom d = canonical_keys
              /\ d !! "timestamp" = Some (VInt z).

(** The record with its [source] field set to the tag of format 1. *)
Definition retag (r : value) : value :=
  match r with
  | VDict d => VDict (<["source" := VStr "format_1"]> d)
  | _ => r
  end.

(** A zero, or a finite number of mantissa at most [M] and exponent at most
    [E]. *)
Definition finite_below (M E : Z) (x : spec_float) : Prop :=
  match x with
  | S754_zero _ => True
  | S754_finite _ m e => Zpos m <= M /\ e <= E
  | _ => False
  end.

(** The field ranges the [datetime] constructor enforces; an offset is
    strictly within a day. *)
Definition valid_datetime (dt : datetime) : bool :=
  (1 <=? year dt) && (year dt <=? 9999)
  && (1 <=? month dt) && (month dt <=? 12)
  && (1 <=? day dt) && (day dt <=? days_in_month (year dt) (month dt))
  && (0 <=? hour dt) && (hour dt <=? 23)
  && (0 <=? minute dt) && (minute dt <=? 59)
  && (0 <=? second dt) && (second dt <=? 59)
  && (0 <=? microsecond dt) && (microsecond dt <=? 999999)
  && match tzinfo dt with
     | Some utcoffset =>
         (-86400000000 <? utcoffset) && (utcoffset <? 86400000000)
     | None => true
     end.

(** The milliseconds of an aware instance: the value
    [int((dt - epoch).total_seconds() * 1000)]. *)
Definition aware_milliseconds (dt : datetime) (utcoffset : Z) : result Z :=
  int_of_float
    (float_mul (int_truediv (wall_microseconds dt - utcoffset) 1000000)
       (float_of_int 1000)).

(** A record in the canonical schema: a dict of exactly the five fields,
    its [source] one of the two tags. *)
Definition canonical_record (r : value) : Prop :=
  exists d, r = VDict d /\ dom d = canonical_keys
            /\ (d !! "source" = Some (VStr "format_1")
                \/ d !! "source" = Some (VStr "format_2")).

(** The entries a file contributes to [all_data]: the elements of a JSON
    array, any other JSON value as one entry, nothing when the file is
    missing or is not JSON. *)
Definition entries_of (o : read_outcome) : list value :=
  match o with
  | Content (VList entries) => entries
  | Content data => [data]
  | _ => []
  end.

(** The line the loader prints for a file. *)
Definition load_line (path : string) (o : read_outcome) : list console_line :=
  match o with
  | Content data => [Loaded (length (entries_of o)) path]
  | NotFound => [FileNotFound path]
  | Malformed msg => [JSONDecodeError path msg]
  | ReadFails _ => []
  end.

(** The read is one the loader recovers from. *)
Definition readable (o : read_outcome) : bool :=
  match o with ReadFails _ => false | _ => true end.

(** The canonical record [normalize_data_format_2] builds from a dict once
    its timestamp is converted. *)
Definition canonical_2 (millisecond_timestamp : value)
    (d : gmap string value) : gmap string value :=
  <["timestamp" := millisecond_timestamp]>
  (<["message" := default (default (VStr "") (d !! "msg")) (d !! "message")]>
  (<["value" := default (default (VInt 0) (d !! "val")) (d !! "value")]>
  (<["source" := VStr "format_2"]>
  (<["metadata" :=
       default (default (VDict ∅) (d !! "meta")) (d !! "metadata")]> ∅)))).

(** The alternative names format 2 accepts, each with the field it
    stands for. *)
Definition alias_pairs : list (string * string) :=
  [("msg", "message"); ("val", "value"); ("meta", "metadata")].

(** The world after more lines were printed. *)
Definition add_console (ls : list console_line) (w : world) : world :=
  {| console := console w ++ ls; written := written w |}.


(** What [save_unified_data] prints for the outcome of the write. *)
Definition save_report (path : string) (data : list value)
    (r : result unit) : list console_line :=
  match r with
  | Ok _ => [Saved path; TotalEntries (length data)]
  | Raise e => [ErrorSaving e]
  end.

(** What [main] prints about the first entry. *)
Definition sample_report (unified_result : list value) : list console_line :=
  match unified_result with
  | first :: _ => [SampleHeader; SampleEntry first]
  | [] => []
  end.

(** The keys of a raw record that the normalizers and the classifier
    read. *)
Definition read_keys : list string :=
  ["timestamp"; "time"; "message"; "msg"; "value"; "val"; "metadata"; "meta"].

(** The timestamp of a record when it is a number other than NaN, an
    [int], a [bool] or a [float]. *)
Definition number_timestamp (x : value) : option number :=
  match timestamp_key x with
  | Ok v =>
      match as_number v with
      | Some NaN => None
      | o => o
      end
  | Raise _ => None
  end.

Definition has_number_timestamp (x : value) : Prop :=
  is_Some (number_timestamp x).

(** [a <= b] on numbers, as [not (b < a)]. *)
Definition number_le (a b : number) : Prop := number_ltb b a = false.

Definition timestamp_number_le (x y : value) : Prop :=
  match number_timestamp x, number_timestamp y with
  | Some a, Some b => number_le a b
  | _, _ => False
  end.

(** The timestamp of the record equals the number [t]. *)
Definition timestamp_equals (t : number) (x : value) : bool :=
  match number_timestamp x with
  | Some a => negb (number_ltb a t) && negb (number_ltb t a)
  | None => false
  end.

(** A record whose canonical timestamp, if it normalizes, is a number
    other than NaN. *)
Definition number_stamped (r : value) : Prop :=
  match r with
  | VDict d =>
      (exists t n, d !! "timestamp" = Some t /\ as_number t = Some n
                   /\ n <> NaN)
      \/ detect_data_format r = Ok "format_2"
  | _ => True
  end.

(** The same on keyed elements of the sort. *)
Definition number_key (p : value * value) : option number :=
  match as_number (fst p) with
  | Some NaN => None
  | o => o
  end.

Definition number_keyed (p : value * value) : Prop :=
  is_Some (number_key p) /\ number_key p = number_timestamp (snd p).

Definition key_le (p q : value * value) : Prop :=
  match number_key p, number_key q with
  | Some a, Some b => number_le a b
  | _, _ => False
  end.

Definition key_equals (t : number) (p : value * value) : bool :=
  match number_key p with
  | Some a => negb (number_ltb a t) && negb (number_ltb t a)
  | None => false
  end.

(** ** Sample records *)

Module Sample.

Definition iso (zone : Z -> result Z) : value -> result value :=
  iso_to_milliseconds fromisoformat_v37 zone.

(** A terminal that shows every line. *)
Definition terminal (l : line) : result unit := Ok tt.

Definition is_ascii (s : string) : bool :=
  forallb (fun c => (nat_of_ascii c <? 128)%nat) (list_ascii_of_string s).

(** A terminal whose encoding is ASCII, as far as the sample records go:
    it refuses the line of a record whose timestamp text holds another
    character, and the message that quotes such a text, with
    [UnicodeEncodeError], a [ValueError]. *)
Definition ascii_terminal (l : line) : result unit :=
  match l with
  | ErrorProcessing (VDict d) =>
      match d !! "timestamp" with
      | Some (VStr s) =>
          if is_ascii s then Ok tt
          else Raise (ValueError "'ascii' codec can't encode character")
      | _ => Ok tt
      end
  | Error (ValueError msg) =>
      if is_ascii msg then Ok tt
      else Raise (ValueError "'ascii' codec can't encode character")
  | _ => Ok tt
  end.

Definition unify_utc : list value -> result (list value) :=
  unify fromisoformat_v37 utc_zone terminal.

(** A record whose timestamp is the text [T] followed by the two bytes
    of a letter outside ASCII; the parser rejects it. *)
Definition accented : value :=
  VDict {[ "timestamp" :=
             VStr (String "T"
                     (String "195" (String "177" EmptyString))) ]}.

Definition normalize_utc : value -> result value :=
  normalize_entry fromisoformat_v37 utc_zone.

(** The two records of the example in the specification. *)
Definition textual : value :=
  VDict (<["timestamp" := VStr "2023-10-15T14:30:45.123Z"]>
        (<["msg" := VStr "b"]> {[ "val" := VInt 2 ]})).

Definition numeric : value :=
  VDict (<["timestamp" := VInt 500]>
        (<["message" := VStr "a"]> {[ "value" := VInt 1 ]})).

Definition not_a_date : gmap string value :=
  {[ "timestamp" := VStr "not-a-date" ]}.

Definition bad_grammar : gmap string value :=
  {[ "timestamp" := VStr "2023-10-15Tbad" ]}.

Definition canonical (t : Z) (msg : string) : gmap string value :=
  <["timestamp" := VInt t]>
  (<["message" := VStr msg]>
  (<["value" := VInt 0]>
  (<["source" := VStr "format_2"]>
  (<["metadata" := VDict ∅]> ∅)))).

Definition with_offset : datetime :=
  {| year := 2023; month := 10; day := 15;
     hour := 14; minute := 30; second := 45; microsecond := 123000;
     tzinfo := Some 7200000000 |}.

(** A state in which a former call left a result and printed lines. *)
Definition later : store :=
  {| self := __init__; data_list := [textual; VInt 3; numeric];
     unified_results := [numeric]; stdout := [Error KeyError] |}.

(** The files of a sample run: an array in [data-1.json], a single object
    in [data-2.json], an unreadable and a broken file beside them. *)
Definition files (path : string) : read_outcome :=
  if String.eqb path "data-1.json" then Content (VList [numeric; VInt 3])
  else if String.eqb path "data-2.json" then Content textual
  else if String.eqb path "locked.json" then ReadFails OSError
  else if String.eqb path "broken.json" then Malformed "Expecting value"
  else NotFound.

(** The same files, [data-2.json] holding the array of its object. *)
Definition files_array (path : string) : read_outcome :=
  if String.eqb path "data-2.json" then Content (VList [textual])
  else files path.

(** A destination that accepts every write, and one that accepts none. *)
Definition disk (path : string) (data : list value) : result unit := Ok tt.

Definition disk_full (path : string) (data : list value) : result unit :=
  Raise OSError.

Definition blank : world := {| console := []; written := [] |}.

(** A numeric record that spells its fields with the alternative names. *)
Definition numeric_alias : gmap string value :=
  <["timestamp" := VInt 500]> (<["msg" := VStr "a"]> {[ "val" := VInt 1 ]}).

Definition textual_bare : gmap string value :=
  {[ "timestamp" := VStr "2023-10-15T14:30:45.123Z" ]}.

(** Records with a boolean, a float and an integer timestamp. *)
Definition stamped (t : value) : value := VDict {[ "timestamp" := t ]}.

Definition half : value := VFloat (int_truediv 1 2).

(** Parsed timestamps: [1970-01-01T00:00:01.001] with the offset [+00:00]
    and without offset, and [2023-10-15T14:30:45] with the offset [+05:30]
    and without offset. *)
Definition second_and_a_millisecond : datetime :=
  {| year := 1970; month := 1; day := 1; hour := 0; minute := 0;
     second := 1; microsecond := 1000; tzinfo := Some 0 |}.

Definition afternoon_in_india : datetime :=
  {| year := 2023; month := 10; day := 15; hour := 14; minute := 30;
     second := 45; microsecond := 0; tzinfo := Some 19800000000 |}.

Definition second_and_a_millisecond_local : datetime :=
  {| year := 1970; month := 1; day := 1; hour := 0; minute := 0;
     second := 1; microsecond := 1000; tzinfo := None |}.

Definition afternoon : datetime :=
  {| year := 2023; month := 10; day := 15; hour := 14; minute := 30;
     second := 45; microsecond := 0; tzinfo := None |}.

End Sample.

(** * Verification *)

(** ** Sorting records whose keys are integers *)

Lemma py_lt_int (a b : Z) : py_lt (VInt a) (VInt b) = Ok (a <? b).
Proof.
  cbn. unfold align. rewrite Z.min_id, Z.sub_diag, !Z.mul_1_r. reflexivity.
Qed.

Lemma insert_keyed_int pivot l :
  int_keyed pivot -> Forall int_keyed l -> StronglySorted zkey_le l ->
  exists r, insert_keyed pivot l = Ok r
    /\ Permutation (l ++ [pivot]) r
    /\ StronglySorted zkey_le r
    /\ forall t, List.filter (zkey_is t) r = List.filter (zkey_is t) (l ++ [pivot]).
Proof.
  intros [z Hz] Hl Hs. induction l as [|p l IH].
  - exists [pivot]. repeat split; auto. repeat constructor.
  - apply Forall_cons_1 in Hl as [[zp Hp] Hl].
    apply StronglySorted_inv in Hs as [Hs Hle].
    cbn [insert_keyed]. rewrite Hz, Hp, py_lt_int. cbn [rbind].
    destruct (z <? zp) eqn:E.
    + exists (pivot :: p :: l). split; [reflexivity|]. split.
      { rewrite <- Permutation_cons_append. reflexivity. }
      split.
      { constructor; [constructor; assumption|].
        apply Z.ltb_lt in E.
        assert (Hzp : zkey_le pivot p).
        { unfold zkey_le, zkey. rewrite Hz, Hp. lia. }
        constructor; [exact Hzp|].
        eapply Forall_impl; [exact Hle|].
        intros q Hq. unfold zkey_le in *. lia. }
      intros t. apply Z.ltb_lt in E.
      assert (Hnone : forall q, In q (p :: l) -> zkey pivot < zkey q).
      { intros q [<-|Hq].
        - unfold zkey. rewrite Hz, Hp. exact E.
        - rewrite Forall_forall in Hle. apply list_elem_of_In in Hq.
          specialize (Hle q Hq). unfold zkey_le, zkey in *.
          rewrite Hz. rewrite Hp in Hle. lia. }
      rewrite List.filter_app.
      change (List.filter (zkey_is t) (pivot :: p :: l))
        with (if zkey_is t pivot
              then pivot :: List.filter (zkey_is t) (p :: l)
              else List.filter (zkey_is t) (p :: l)).
      change (List.filter (zkey_is t) [pivot])
        with (if zkey_is t pivot then [pivot] else []).
      destruct (zkey_is t pivot) eqn:Et; [|rewrite app_nil_r; reflexivity].
      apply Z.eqb_eq in Et.
      replace (List.filter (zkey_is t) (p :: l)) with (@nil (value * value));
        [reflexivity|].
      symmetry. clear -Hnone Et.
      induction (p :: l) as [|q k IHk]; [reflexivity|].
      cbn. unfold zkey_is at 1.
      pose proof (Hnone q (or_introl eq_refl)).
      destruct (zkey q =? t) eqn:Eq; [apply Z.eqb_eq in Eq; lia|].
      apply IHk. intros q' Hq'. apply Hnone. right. exact Hq'.
    + destruct (IH Hl Hs) as (r & -> & Hperm & Hsort & Hfilt).
      exists (p :: r). split; [reflexivity|]. split.
      { cbn. constructor. exact Hperm. }
      split.
      { constructor; [exact Hsort|].
        eapply Permutation_Forall; [exact Hperm|].
        apply Forall_app. split; [exact Hle|].
        constructor; [|constructor].
        apply Z.ltb_ge in E. unfold zkey_le, zkey. rewrite Hz, Hp. lia. }
      intros t. cbn. rewrite Hfilt. reflexivity.
Qed.

Lemma sort_keyed_int todo : forall sorted,
  Forall int_keyed sorted -> Forall int_keyed todo ->
  StronglySorted zkey_le sorted ->
  exists r, sort_keyed sorted todo = Ok r
    /\ Permutation (sorted ++ todo) r
    /\ StronglySorted zkey_le r
    /\ forall t, List.filter (zkey_is t) r
                 = List.filter (zkey_is t) (sorted ++ todo).
Proof.
  induction todo as [|pivot todo IH]; intros sorted Hs Ht Hsort.
  - exists sorted. rewrite app_nil_r. auto.
  - apply Forall_cons_1 in Ht as [Hp Ht].
    destruct (insert_keyed_int pivot sorted Hp Hs Hsort)
      as (s' & Hins & Hperm & Hsort' & Hfilt).
    assert (Hs' : Forall int_keyed s').
    { eapply Permutation_Forall; [exact Hperm|].
      apply Forall_app. split; [exact Hs|]. constructor; [exact Hp|constructor]. }
    destruct (IH s' Hs' Ht Hsort') as (r & Hr & Hperm' & Hsort'' & Hfilt').
    exists r. cbn [sort_keyed]. rewrite Hins. cbn [rbind].
    split; [exact Hr|]. split.
    { rewrite <- Hperm', <- Hperm, <- app_assoc. reflexivity. }
    split; [exact Hsort''|].
    intros t. rewrite Hfilt', !List.filter_app, Hfilt, List.filter_app.
    rewrite <- app_assoc.
    change (pivot :: todo) with ([pivot] ++ todo)%list.
    rewrite List.filter_app. reflexivity.
Qed.

Lemma mapM_timestamp_key l :
  Forall has_int_timestamp l ->
  exists keys, mapM timestamp_key l = Ok keys
    /\ Forall keyed_ok (combine keys l)
    /\ map snd (combine keys l) = l.
Proof.
  induction 1 as [|x l [z Hx] _ (keys & Hk & Hall & Hsnd)].
  - exists []. repeat split; constructor.
  - unfold int_timestamp in Hx.
    destruct (timestamp_key x) as [[]|] eqn:Ex; try discriminate.
    injection Hx as ->.
    exists (VInt z :: keys). cbn [mapM]. rewrite Ex, Hk. cbn.
    split; [reflexivity|]. split; [|rewrite Hsnd; reflexivity].
    constructor; [|exact Hall].
    exists z. cbn. unfold int_timestamp. rewrite Ex. auto.
Qed.

Lemma keyed_ok_sorted r :
  Forall keyed_ok r -> StronglySorted zkey_le r ->
  StronglySorted timestamp_le (map snd r).
Proof.
  intros Hall Hs. induction Hs as [|p r Hs IH Hle]; [constructor|].
  apply Forall_cons_1 in Hall as [(z & Hz & Hp) Hall].
  cbn. constructor; [apply IH, Hall|].
  apply Forall_map. rewrite Forall_forall in *.
  intros q Hq. destruct (Hall q Hq) as (zq & Hzq & Hq').
  specialize (Hle q Hq). unfold zkey_le, zkey, timestamp_le in *.
  cbn. rewrite Hp, Hq'. rewrite Hz, Hzq in Hle. exact Hle.
Qed.

Lemma keyed_ok_filter t r :
  Forall keyed_ok r ->
  List.filter (timestamp_is t) (map snd r)
  = map snd (List.filter (zkey_is t) r).
Proof.
  induction 1 as [|p r (z & Hz & Hp) _ IH]; [reflexivity|].
  cbn. unfold timestamp_is at 1, zkey_is at 1, zkey.
  rewrite Hp, Hz. destruct (z =? t); cbn; rewrite IH; reflexivity.
Qed.

(** On records with integer timestamps the sort returns, and returns the
    stable arrangement in non-decreasing order. *)
Lemma list_sort_int l :
  Forall has_int_timestamp l ->
  exists out, list_sort timestamp_key l = Ok out
    /\ Permutation l out
    /\ StronglySorted timestamp_le out
    /\ forall t, List.filter (timestamp_is t) out
                 = List.filter (timestamp_is t) l.
Proof.
  intros Hl. destruct (mapM_timestamp_key l Hl) as (keys & Hk & Hall & Hsnd).
  assert (Hint : Forall int_keyed (combine keys l)).
  { eapply Forall_impl; [exact Hall|]. intros p (z & Hz & _). exists z. exact Hz. }
  destruct (sort_keyed_int (combine keys l) [] (List.Forall_nil _) Hint
              (SSorted_nil _)) as (r & Hr & Hperm & Hsort & Hfilt).
  cbn [app] in Hperm, Hfilt.
  assert (Hall' : Forall keyed_ok r)
    by (eapply Permutation_Forall; [exact Hperm|exact Hall]).
  exists (map snd r). unfold list_sort. rewrite Hk. cbn [rbind].
  rewrite Hr. cbn [rbind]. split; [reflexivity|]. split.
  { rewrite <- Hsnd at 1. apply Permutation_map, Hperm. }
  split; [apply keyed_ok_sorted; assumption|].
  intros t. rewrite keyed_ok_filter by exact Hall'.
  rewrite Hfilt, <- keyed_ok_filter by exact Hall. rewrite Hsnd. reflexivity.
Qed.

(** ** What a call of [unify_data] computes *)

Section Unify.

Variable fromisoformat : string -> result datetime.
Variable local_to_seconds : Z -> result Z.
Variable stdout_write : line -> result unit.

Local Abbreviation normalize_entry :=
  (normalize_entry fromisoformat local_to_seconds).
Local Abbreviation collected := (collected fromisoformat local_to_seconds).
Local Abbreviation printed := (printed fromisoformat local_to_seconds).
Local Abbreviation accepted := (accepted stdout_write).
Local Abbreviation refused := (refused stdout_write).
Local Abbreviation shown := (shown stdout_write).
Local Abbreviation print_outcome := (print_outcome stdout_write).
Local Abbreviation print := (print stdout_write).
Local Abbreviation unify_data_body :=
  (unify_data_body fromisoformat local_to_seconds stdout_write).
Local Abbreviation unify_data :=
  (unify_data fromisoformat local_to_seconds stdout_write).
Local Abbreviation unify :=
  (unify fromisoformat local_to_seconds stdout_write).

Lemma accepted_refused ls : accepted ls -> refused ls = None.
Proof.
  induction 1 as [|l ls Hl _ IH]; [reflexivity|].
  cbn [refused]. rewrite Hl. exact IH.
Qed.

Lemma refused_accepted ls : refused ls = None -> accepted ls.
Proof.
  induction ls as [|l ls IH]; cbn [refused]; [constructor|].
  destruct (stdout_write l) as [[]|e] eqn:E; [|discriminate].
  intros H. constructor; [exact E|exact (IH H)].
Qed.

Lemma accepted_shown ls : accepted ls -> shown ls = ls.
Proof.
  induction 1 as [|l ls Hl _ IH]; [reflexivity|].
  cbn [shown]. rewrite Hl, IH. reflexivity.
Qed.

Lemma refused_app ls ks :
  refused (ls ++ ks)
  = match refused ls with Some e => Some e | None => refused ks end.
Proof.
  induction ls as [|l ls IH]; [reflexivity|]. cbn [app refused].
  destruct (stdout_write l); [exact IH|reflexivity].
Qed.

Lemma shown_app ls ks :
  shown (ls ++ ks)
  = match refused ls with
    | Some _ => shown ls
    | None => ls ++ shown ks
    end.
Proof.
  induction ls as [|l ls IH]; [reflexivity|]. cbn [app refused shown].
  destruct (stdout_write l); [|reflexivity].
  rewrite IH. destruct (refused ls); reflexivity.
Qed.

Lemma refused_in ls e :
  refused ls = Some e -> exists l, l ∈ ls /\ stdout_write l = Raise e.
Proof.
  induction ls as [|l ls IH]; cbn [refused]; [discriminate|].
  destruct (stdout_write l) as [u|e'] eqn:E.
  - intros H. destruct (IH H) as (l' & Hin & Hl').
    exists l'. split; [right; exact Hin|exact Hl'].
  - intros [= <-]. exists l. split; [left|exact E].
Qed.

(** A sequence of [print]s stops at the first refused line. *)
Lemma print_two a b st :
  mbind (print a) (fun _ => print b) st
  = (print_outcome [a; b], set_stdout (stdout st ++ shown [a; b]) st).
Proof.
  unfold mbind, print, print_outcome. cbn [refused shown].
  destruct (stdout_write a) as [u|e]; cbn.
  - destruct (stdout_write b) as [u'|e]; unfold set_stdout; cbn;
      rewrite <- ?app_assoc; reflexivity.
  - unfold set_stdout. rewrite app_nil_r. destruct st; reflexivity.
Qed.

Lemma unify_data_body_run data_entry st :
  unify_data_body data_entry st =
  match normalize_entry data_entry with
  | Ok v => (Ok tt, set_unified_results (unified_results st ++ [v]) st)
  | Raise e =>
      (print_outcome [ErrorProcessing data_entry; Error e],
       set_stdout
         (stdout st ++ shown [ErrorProcessing data_entry; Error e]) st)
  end.
Proof.
  unfold unify_data_body, normalize_entry, try_except, lift.
  unfold unified_results_append, read_unified_results, write_unified_results.
  unfold mbind at 1 2 3.
  destruct (detect_data_format data_entry) as [format_type|e]; cbn.
  - destruct (if String.eqb format_type "format_1" then _ else _); cbn.
    + reflexivity.
    + apply print_two.
  - apply print_two.
Qed.

Lemma printed_cons x l :
  printed (x :: l)
  = (match normalize_entry x with
     | Ok _ => []
     | Raise e => [ErrorProcessing x; Error e]
     end ++ printed l)%list.
Proof. reflexivity. Qed.

Lemma printed_app l k : printed (l ++ k) = (printed l ++ printed k)%list.
Proof. unfold printed. apply flat_map_app. Qed.

(** The loop: it ends at the first refused line with the exception of the
    console; the lines before that one were printed. *)
Lemma for_each_run l : forall st,
  exists results,
    for_each l unify_data_body st =
    (print_outcome (printed l),
     set_stdout (stdout st ++ shown (printed l))
       (set_unified_results results st))
    /\ (refused (printed l) = None ->
        results = (unified_results st ++ collected l)%list).
Proof.
  induction l as [|x l IH]; intros st.
  - exists (unified_results st). split; [|rewrite app_nil_r; reflexivity].
    cbn. unfold mret, print_outcome, set_stdout, set_unified_results; cbn.
    rewrite !app_nil_r. destruct st; reflexivity.
  - cbn [for_each]. unfold mbind at 1. rewrite unify_data_body_run.
    assert (Hc : collected (x :: l) =
                 match normalize_entry x with
                 | Ok v => v :: collected l
                 | Raise _ => collected l
                 end).
    { unfold collected. cbn. destruct (normalize_entry x); reflexivity. }
    rewrite Hc, printed_cons.
    destruct (normalize_entry x) as [v|e].
    + destruct (IH (set_unified_results (unified_results st ++ [v]) st))
        as (results & -> & Hres).
      exists results. cbn [app]. split; [reflexivity|].
      intros H. rewrite (Hres H). cbn. rewrite <- app_assoc. reflexivity.
    + unfold print_outcome. rewrite shown_app, refused_app.
      destruct (refused [ErrorProcessing x; Error e]) as [e'|] eqn:Er.
      * exists (unified_results st). split; [reflexivity|discriminate].
      * destruct (IH (set_stdout
                        (stdout st ++ [ErrorProcessing x; Error e]) st))
          as (results & Hrun & Hres).
        exists results.
        rewrite (accepted_shown _ (refused_accepted _ Er)).
        rewrite Hrun. split; [|exact Hres].
        unfold set_stdout, set_unified_results; cbn.
        rewrite <- app_assoc. reflexivity.
Qed.

(** The whole call: the loop, then the sort of what it collected. *)
Lemma unify_data_run st :
  exists results,
    unify_data st =
    (match refused (printed (data_list st)) with
     | Some e => Raise e
     | None => list_sort timestamp_key (collected (data_list st))
     end,
     set_stdout (stdout st ++ shown (printed (data_list st)))
       (set_unified_results results st))
    /\ (refused (printed (data_list st)) = None ->
        results = match list_sort timestamp_key (collected (data_list st)) with
                  | Ok out => out
                  | Raise _ => collected (data_list st)
                  end).
Proof.
  unfold unify_data, write_unified_results, read_data_list.
  unfold mbind at 1 2. cbn [fst snd].
  unfold mbind at 1.
  destruct (for_each_run (data_list st) (set_unified_results [] st))
    as (results & Hrun & Hres).
  change (data_list (set_unified_results [] st)) with (data_list st).
  rewrite Hrun. unfold print_outcome.
  destruct (refused (printed (data_list st))) as [e|] eqn:Er.
  - exists results. split; [|discriminate].
    unfold set_stdout, set_unified_results; cbn. reflexivity.
  - rewrite (Hres eq_refl). cbn [app].
    unfold unified_results_sort, mbind, read_unified_results, lift,
      write_unified_results. cbn.
    fold timestamp_key.
    destruct (list_sort timestamp_key (collected (data_list st))) as [out|e];
      [exists out|exists (collected (data_list st))];
      (split; [reflexivity|intros _; reflexivity]).
Qed.

Lemma unify_eq input :
  unify input
  = match refused (printed input) with
    | Some e => Raise e
    | None => list_sort timestamp_key (collected input)
    end.
Proof.
  unfold unify.
  destruct (unify_data_run (call __init__ input)) as (results & -> & _).
  reflexivity.
Qed.

(** Nothing is printed when every record normalizes. *)
Lemma printed_none l :
  Forall (fun r => is_ok (normalize_entry r) = true) l -> printed l = [].
Proof.
  induction 1 as [|r l Hr _ IH]; [reflexivity|].
  rewrite printed_cons, IH. destruct (normalize_entry r); [reflexivity|].
  discriminate.
Qed.

Lemma unify_accepted input :
  accepted (printed input) ->
  unify input = list_sort timestamp_key (collected input).
Proof. intros H. rewrite unify_eq, (accepted_refused _ H). reflexivity. Qed.

End Unify.

(** ** Classification *)

Lemma str_in_char c s : str_in (String c "") s = true <-> has_char c s.
Proof.
  unfold has_char. induction s as [|a s IH]; cbn.
  - split; [discriminate|tauto].
  - destruct (ascii_dec c a) as [->|Hne].
    + assert (String.prefix "" s = true) as -> by (destruct s; reflexivity).
      cbn. tauto.
    + cbn. rewrite IH. split; [tauto|]. intros [Heq|H]; [congruence|exact H].
Qed.

Lemma detect_data_format_field d :
  detect_data_format (VDict d) =
  let timestamp := timestamp_field d in
  if isinstance_int_float timestamp then Ok "format_1"
  else match timestamp with
       | VStr s => if str_in "T" s || str_in "Z" s
                   then Ok "format_2" else Ok "format_1"
       | _ => Ok "format_1"
       end.
Proof.
  unfold detect_data_format, timestamp_field, first_present, dict_get.
  cbn. destruct (d !! "timestamp") as [v|]; cbn.
  - destruct v; reflexivity.
  - destruct (d !! "time") as [v|]; cbn; [destruct v|]; reflexivity.
Qed.

(** C4: on every mapping, the empty one included, [detect_data_format]
    returns without raising one of the two tags; the value it inspects is
    the one at key [timestamp], else at key [time], else the empty string;
    the tag is [format_2] exactly when that value is a string that contains
    [T] or [Z], and [format_1] for numbers and in every other case. *)
Theorem detect_data_format_total (d : gmap string value) :
  exists tag,
    detect_data_format (VDict d) = Ok tag
    /\ (tag = "format_1" \/ tag = "format_2")
    /\ (isinstance_int_float (timestamp_field d) = true -> tag = "format_1")
    /\ (tag = "format_2" <->
        exists s, timestamp_field d = VStr s
                  /\ (has_char "T" s \/ has_char "Z" s)).
Proof.
  rewrite detect_data_format_field. cbv zeta.
  destruct (timestamp_field d) as [| | | |s| |] eqn:E; cbn;
    try (exists "format_1"; repeat split; auto;
         [discriminate | intros (s' & Hs & _); discriminate]).
  destruct (str_in "T" s || str_in "Z" s) eqn:Es.
  - exists "format_2". repeat split; auto; [discriminate|].
    intros _. exists s. split; [reflexivity|].
    apply orb_true_iff in Es as [H|H]; [left|right]; apply str_in_char, H.
  - exists "format_1". repeat split; auto; [discriminate|].
    intros (s' & [= <-] & Hc). apply orb_false_iff in Es as [HT HZ].
    destruct Hc as [H|H]; apply str_in_char in H; congruence.
Qed.

Example detect_data_format_empty : detect_data_format (VDict ∅) = Ok "format_1".
Proof. reflexivity. Qed.

(** ** The format-1 normalizer *)

Lemma normalize_data_format_1_dict d :
  normalize_data_format_1 (VDict d) = Ok (VDict (canonical_1 d)).
Proof. reflexivity. Qed.

Lemma canonical_1_timestamp d :
  canonical_1 d !! "timestamp" = Some (default VNone (d !! "timestamp")).
Proof. unfold canonical_1. apply lookup_insert_eq. Qed.

Lemma canonical_1_keys d k :
  k ∉ ["timestamp"; "message"; "value"; "source"; "metadata"] ->
  canonical_1 d !! k = None.
Proof.
  intros Hk. unfold canonical_1.
  rewrite !lookup_insert_ne, lookup_empty; [reflexivity|..];
    intros <-; apply Hk; rewrite !elem_of_cons; tauto.
Qed.

Section Normalizer.

Variable fromisoformat : string -> result datetime.
Variable local_to_seconds : Z -> result Z.

Local Abbreviation normalize_entry :=
  (normalize_entry fromisoformat local_to_seconds).
Local Abbreviation iso_to_milliseconds :=
  (iso_to_milliseconds fromisoformat local_to_seconds).

(** A record that is not classified [format_2] goes through the format-1
    normalizer. *)
Lemma normalize_entry_format_1 d :
  detect_data_format (VDict d) = Ok "format_1" ->
  normalize_entry (VDict d) = Ok (VDict (canonical_1 d)).
Proof. intros H. unfold normalize_entry. rewrite H. reflexivity. Qed.

(** C9: a record with a number under [time] and no key [timestamp] is
    classified [format_1] through the [time] fallback, yet the format-1
    normalizer reads key [timestamp] only: the canonical record has a null
    timestamp and the number is dropped (the record without its [time] key
    normalizes to the same result). *)
Theorem time_only_record_loses_timestamp (d : gmap string value) (t : value) :
  d !! "timestamp" = None ->
  d !! "time" = Some t ->
  isinstance_int_float t = true ->
  detect_data_format (VDict d) = Ok "format_1"
  /\ normalize_entry (VDict d) = Ok (VDict (canonical_1 d))
  /\ canonical_1 d !! "timestamp" = Some VNone
  /\ canonical_1 d !! "time" = None
  /\ normalize_data_format_1 (VDict (delete "time" d))
     = normalize_data_format_1 (VDict d).
Proof.
  intros Hts Htime Hnum.
  assert (Hdet : detect_data_format (VDict d) = Ok "format_1").
  { rewrite detect_data_format_field. unfold timestamp_field. cbn.
    rewrite Hts, Htime, Hnum. reflexivity. }
  split; [exact Hdet|]. split; [apply normalize_entry_format_1, Hdet|].
  split; [rewrite canonical_1_timestamp, Hts; reflexivity|].
  split.
  { apply canonical_1_keys. rewrite !elem_of_cons, elem_of_nil.
    intuition discriminate. }
  rewrite !normalize_data_format_1_dict. unfold canonical_1.
  rewrite !lookup_delete_ne by discriminate. reflexivity.
Qed.

(** C10: a boolean timestamp passes the numeric test of the classifier,
    and the format-1 normalizer copies it verbatim into the canonical
    record. *)
Theorem boolean_timestamp_passes_through (d : gmap string value) (b : bool) :
  d !! "timestamp" = Some (VBool b) ->
  isinstance_int_float (VBool b) = true
  /\ detect_data_format (VDict d) = Ok "format_1"
  /\ normalize_entry (VDict d) = Ok (VDict (canonical_1 d))
  /\ canonical_1 d !! "timestamp" = Some (VBool b).
Proof.
  intros Hts.
  assert (Hdet : detect_data_format (VDict d) = Ok "format_1").
  { rewrite detect_data_format_field. unfold timestamp_field. cbn.
    rewrite Hts. reflexivity. }
  split; [reflexivity|]. split; [exact Hdet|].
  split; [apply normalize_entry_format_1, Hdet|].
  rewrite canonical_1_timestamp, Hts. reflexivity.
Qed.

(** [iso_to_milliseconds] is a method on strings: on any other value the
    call of [endswith] raises. *)
Lemma iso_to_milliseconds_not_str v :
  isinstance_str v = false -> iso_to_milliseconds v = Raise AttributeError.
Proof. destruct v; cbn; congruence. Qed.

(** C3, amended: [iso_to_milliseconds] does not accept a number; a numeric
    timestamp [t] stored under key [timestamp] never reaches it: the record
    is classified [format_1] and [normalize_data_format_1] returns [t]
    unchanged, without scaling and without raising. *)
Theorem numeric_timestamp_unchanged (d : gmap string value) (t : value) :
  d !! "timestamp" = Some t ->
  isinstance_int_float t = true ->
  iso_to_milliseconds t = Raise AttributeError
  /\ detect_data_format (VDict d) = Ok "format_1"
  /\ normalize_entry (VDict d) = normalize_data_format_1 (VDict d)
  /\ exists out, normalize_data_format_1 (VDict d) = Ok (VDict out)
                 /\ out !! "timestamp" = Some t.
Proof.
  intros Hts Hnum.
  assert (Hdet : detect_data_format (VDict d) = Ok "format_1").
  { rewrite detect_data_format_field. unfold timestamp_field. cbn.
    rewrite Hts, Hnum. reflexivity. }
  split; [apply iso_to_milliseconds_not_str; destruct t; cbn in *; congruence|].
  split; [exact Hdet|].
  split; [rewrite normalize_entry_format_1 by exact Hdet; reflexivity|].
  exists (canonical_1 d). split; [reflexivity|].
  rewrite canonical_1_timestamp, Hts. reflexivity.
Qed.

End Normalizer.

(** ** The unification pipeline *)

Section Properties.

Variable fromisoformat : string -> result datetime.
Variable local_to_seconds : Z -> result Z.
Variable stdout_write : line -> result unit.

Local Abbreviation normalize_entry :=
  (normalize_entry fromisoformat local_to_seconds).
Local Abbreviation collected := (collected fromisoformat local_to_seconds).
Local Abbreviation printed := (printed fromisoformat local_to_seconds).
Local Abbreviation accepted := (accepted stdout_write).
Local Abbreviation refused := (refused stdout_write).
Local Abbreviation iso_to_milliseconds :=
  (iso_to_milliseconds fromisoformat local_to_seconds).
Local Abbreviation normalize_data_format_2 :=
  (normalize_data_format_2 fromisoformat local_to_seconds).
Local Abbreviation unify_data_body :=
  (unify_data_body fromisoformat local_to_seconds stdout_write).
Local Abbreviation unify_data :=
  (unify_data fromisoformat local_to_seconds stdout_write).
Local Abbreviation unify :=
  (unify fromisoformat local_to_seconds stdout_write).

Lemma iso_to_milliseconds_int x v :
  iso_to_milliseconds x = Ok v -> exists n, v = VInt n.
Proof.
  destruct x; cbn; try discriminate.
  destruct (fromisoformat _) as [dt|e]; cbn.
  - destruct (timestamp local_to_seconds dt) as [t|e]; cbn.
    + destruct (int_of_float _) as [n|e]; cbn.
      * intros [= <-]. eauto.
      * destruct (is_ValueError e); discriminate.
    + destruct (is_ValueError e); discriminate.
  - destruct (is_ValueError e); discriminate.
Qed.

Lemma normalize_data_format_2_int d v :
  normalize_data_format_2 (VDict d) = Ok v -> has_int_timestamp v.
Proof.
  unfold normalize_data_format_2. cbn [dict_get rbind].
  destruct (iso_to_milliseconds _) as [ms|e] eqn:E; cbn; [|discriminate].
  destruct (iso_to_milliseconds_int _ _ E) as [n ->].
  intros [= <-]. exists n. unfold int_timestamp, timestamp_key, getitem.
  rewrite lookup_insert_eq. reflexivity.
Qed.

Lemma normalize_entry_int r v :
  integer_stamped r -> normalize_entry r = Ok v -> has_int_timestamp v.
Proof.
  destruct r as [| | | | | |d]; try discriminate.
  intros [[z Hz]|Hdet].
  - assert (Hdet : detect_data_format (VDict d) = Ok "format_1").
    { rewrite detect_data_format_field. unfold timestamp_field. cbn.
      rewrite Hz. reflexivity. }
    rewrite normalize_entry_format_1 by exact Hdet. intros [= <-].
    exists z. unfold int_timestamp, timestamp_key, getitem.
    rewrite canonical_1_timestamp, Hz. reflexivity.
  - unfold normalize_entry. rewrite Hdet. cbn.
    apply normalize_data_format_2_int.
Qed.

Lemma collected_cons x l :
  collected (x :: l) =
  match normalize_entry x with
  | Ok v => v :: collected l
  | Raise _ => collected l
  end.
Proof.
  unfold collected. cbn. destruct (normalize_entry x); reflexivity.
Qed.

Lemma collected_app l k : collected (l ++ k) = (collected l ++ collected k)%list.
Proof.
  induction l as [|x l IH]; [reflexivity|].
  cbn [app]. rewrite !collected_cons, IH.
  destruct (normalize_entry x); reflexivity.
Qed.

Lemma collected_int input :
  Forall integer_stamped input -> Forall has_int_timestamp (collected input).
Proof.
  induction 1 as [|r l Hr _ IH]; [constructor|].
  rewrite collected_cons. destruct (normalize_entry r) as [v|e] eqn:E.
  - constructor; [eapply normalize_entry_int; eassumption|exact IH].
  - exact IH.
Qed.

Lemma collected_length l :
  Forall (fun r => is_ok (normalize_entry r) = true) l ->
  length (collected l) = length l.
Proof.
  induction 1 as [|r l Hr _ IH]; [reflexivity|].
  rewrite collected_cons. destruct (normalize_entry r); [|discriminate].
  cbn. rewrite IH. reflexivity.
Qed.

(** With integer timestamps throughout, and a console that accepts the
    lines of the skipped records, the sort returns the stable arrangement
    of what the loop collected. *)
Lemma unify_of_integer_stamped input :
  accepted (printed input) ->
  Forall integer_stamped input ->
  exists out,
    unify input = Ok out
    /\ Permutation (collected input) out
    /\ StronglySorted timestamp_le out
    /\ forall t, List.filter (timestamp_is t) out
                 = List.filter (timestamp_is t) (collected input).
Proof.
  intros Hacc Hin. rewrite unify_accepted by exact Hacc.
  apply list_sort_int, collected_int, Hin.
Qed.

(** C2, amended: when the console accepts the lines the handler prints
    for the skipped records and every record classified [format_1] holds
    an integer under key [timestamp], [unify] returns; every record of the
    output has an integer timestamp; the output is sorted non-decreasing by
    timestamp; it is a rearrangement of the successfully normalized records
    in which records of equal timestamp keep their order of appearance. *)
Theorem unify_sorted_stable (input : list value) :
  accepted (printed input) ->
  Forall integer_stamped input ->
  exists out,
    unify input = Ok out
    /\ Forall has_int_timestamp out
    /\ StronglySorted timestamp_le out
    /\ Permutation (collected input) out
    /\ forall t, List.filter (timestamp_is t) out
                 = List.filter (timestamp_is t) (collected input).
Proof.
  intros Hacc Hin.
  destruct (unify_of_integer_stamped input Hacc Hin)
    as (out & Hout & Hperm & Hsort & Hstab).
  exists out. split; [exact Hout|]. split; [|auto].
  eapply Permutation_Forall; [exact Hperm|]. apply collected_int, Hin.
Qed.

(** A textual timestamp that contains [T] and that the parser rejects makes
    the normalization of its record raise. *)
Lemma normalize_entry_rejected d s :
  timestamp_field d = VStr s ->
  str_in "T" s = true ->
  is_ok (fromisoformat (strip_Z s)) = false ->
  is_ok (normalize_entry (VDict d)) = false.
Proof.
  intros Hf HT Hbad. unfold normalize_entry.
  rewrite detect_data_format_field, Hf. cbn. rewrite HT. cbn.
  unfold normalize_data_format_2.
  assert (Hget : (time <- dict_get (VDict d) "time" (VStr "") ;;
                  dict_get (VDict d) "timestamp" time) = Ok (VStr s)).
  { revert Hf. unfold timestamp_field. cbn.
    destruct (d !! "timestamp"); cbn; [congruence|].
    destruct (d !! "time"); cbn; congruence. }
  cbn [dict_get rbind] in Hget |- *. injection Hget as ->.
  cbn. destruct (fromisoformat (strip_Z s)) as [dt|e]; [discriminate|].
  cbn. destruct (is_ValueError e); reflexivity.
Qed.

Lemma list_sort_singleton x k :
  timestamp_key x = Ok k -> list_sort timestamp_key [x] = Ok [x].
Proof. intros H. unfold list_sort. cbn. rewrite H. reflexivity. Qed.

Lemma collected_all_raise l :
  Forall (fun r => is_ok (normalize_entry r) = false) l -> collected l = [].
Proof.
  induction 1 as [|r l Hr _ IH]; [reflexivity|].
  rewrite collected_cons. destruct (normalize_entry r); [discriminate|exact IH].
Qed.

(** C8: a call of [unify_data] leaves the instance and the argument list,
    with the records in it, as they were; its result is determined by the
    argument list alone, so a second call, and a call from any other state
    with an equal argument, returns the same. *)
Theorem unify_data_frame (st : store) :
  self (snd (unify_data st)) = self st
  /\ data_list (snd (unify_data st)) = data_list st
  /\ fst (unify_data (snd (unify_data st))) = fst (unify_data st)
  /\ forall st2, data_list st2 = data_list st ->
                 fst (unify_data st2) = fst (unify_data st).
Proof.
  assert (Hres : forall s1,
            fst (unify_data s1)
            = match refused (printed (data_list s1)) with
              | Some e => Raise e
              | None => list_sort timestamp_key (collected (data_list s1))
              end).
  { intros s1. destruct (unify_data_run fromisoformat local_to_seconds
                           stdout_write s1) as (results & -> & _).
    reflexivity. }
  assert (Hself : self (snd (unify_data st)) = self st
                  /\ data_list (snd (unify_data st)) = data_list st).
  { destruct (unify_data_run fromisoformat local_to_seconds stdout_write st)
      as (results & -> & _).
    split; reflexivity. }
  destruct Hself as [Hs Hd]. split; [exact Hs|]. split; [exact Hd|].
  split; [rewrite !Hres, Hd|intros st2 H2; rewrite !Hres, H2]; reflexivity.
Qed.

End Properties.

(** ** Idempotence on canonical input *)

Lemma insert_keyed_last pivot l :
  int_keyed pivot -> Forall int_keyed l ->
  Forall (fun p => zkey_le p pivot) l ->
  insert_keyed pivot l = Ok (l ++ [pivot]).
Proof.
  intros [z Hz]. induction l as [|p l IH]; intros Hint Hle; [reflexivity|].
  apply Forall_cons_1 in Hint as [[zp Hp] Hint].
  apply Forall_cons_1 in Hle as [Hple Hle].
  cbn [insert_keyed]. rewrite Hz, Hp, py_lt_int. cbn [rbind].
  unfold zkey_le, zkey in Hple. rewrite Hz, Hp in Hple.
  assert (Hlt : (z <? zp) = false) by (apply Z.ltb_ge; exact Hple).
  rewrite Hlt.
  rewrite IH by assumption. reflexivity.
Qed.

Lemma sort_keyed_sorted todo : forall sorted,
  Forall int_keyed (sorted ++ todo) ->
  StronglySorted zkey_le (sorted ++ todo) ->
  sort_keyed sorted todo = Ok (sorted ++ todo).
Proof.
  induction todo as [|pivot todo IH]; intros sorted Hint Hsort.
  - rewrite app_nil_r. reflexivity.
  - cbn [sort_keyed].
    pose proof Hint as Hint'. apply Forall_app in Hint' as [Hs Ht].
    apply Forall_cons_1 in Ht as [Hp Ht].
    assert (Hins : insert_keyed pivot sorted = Ok (sorted ++ [pivot])).
    { apply insert_keyed_last; [assumption..|].
      apply Forall_forall. intros q Hq.
      apply (StronglySorted_app_1_elem_of _ _ _ _ _ Hsort Hq). left. }
    rewrite Hins. cbn [rbind].
    rewrite IH; rewrite <- app_assoc; [reflexivity|assumption..].
Qed.

Lemma keyed_ok_sorted_inv r :
  Forall keyed_ok r -> StronglySorted timestamp_le (map snd r) ->
  StronglySorted zkey_le r.
Proof.
  induction 1 as [|p r (z & Hz & Hp) Hall IH]; [constructor|].
  cbn. intros Hs. apply StronglySorted_inv in Hs as [Hs Hle].
  constructor; [apply IH, Hs|].
  rewrite Forall_map in Hle. rewrite Forall_forall in *.
  intros q Hq. destruct (Hall q Hq) as (zq & Hzq & Hq').
  specialize (Hle q Hq). unfold zkey_le, zkey, timestamp_le in *.
  cbn in Hle. rewrite Hp, Hq' in Hle. rewrite Hz, Hzq. exact Hle.
Qed.

(** The sort leaves a list that is in order as it is. *)
Lemma list_sort_sorted l :
  Forall has_int_timestamp l -> StronglySorted timestamp_le l ->
  list_sort timestamp_key l = Ok l.
Proof.
  intros Hl Hs. destruct (mapM_timestamp_key l Hl) as (keys & Hk & Hall & Hsnd).
  unfold list_sort. rewrite Hk. cbn [rbind].
  rewrite (sort_keyed_sorted (combine keys l) []); cbn [app rbind].
  - rewrite Hsnd. reflexivity.
  - eapply Forall_impl; [exact Hall|]. intros p (z & Hz & _). exists z. exact Hz.
  - apply keyed_ok_sorted_inv; [exact Hall|]. rewrite Hsnd. exact Hs.
Qed.

Lemma canonical_1_retag d :
  dom d = canonical_keys -> canonical_1 d = <["source" := VStr "format_1"]> d.
Proof.
  intros Hdom.
  assert (Hin : forall k, k ∈ canonical_keys -> is_Some (d !! k)).
  { intros k Hk. apply elem_of_dom. rewrite Hdom. exact Hk. }
  destruct (Hin "timestamp") as [vt Ht]; [set_solver|].
  destruct (Hin "message") as [vm Hm]; [set_solver|].
  destruct (Hin "value") as [vv Hv]; [set_solver|].
  destruct (Hin "metadata") as [vd Hd]; [set_solver|].
  apply map_eq. intros k. unfold canonical_1. rewrite Ht, Hm, Hv, Hd. cbn.
  destruct (decide (k = "source")) as [->|Hs].
  { rewrite lookup_insert_eq, !lookup_insert_ne by discriminate.
    apply lookup_insert_eq. }
  rewrite (lookup_insert_ne d) by congruence.
  destruct (decide (k = "timestamp")) as [->|H1].
  { rewrite lookup_insert_eq. congruence. }
  rewrite lookup_insert_ne by congruence.
  destruct (decide (k = "message")) as [->|H2].
  { rewrite lookup_insert_eq. congruence. }
  rewrite lookup_insert_ne by congruence.
  destruct (decide (k = "value")) as [->|H3].
  { rewrite lookup_insert_eq. congruence. }
  rewrite !lookup_insert_ne by congruence.
  destruct (decide (k = "metadata")) as [->|H4].
  { rewrite lookup_insert_eq. congruence. }
  rewrite lookup_insert_ne, lookup_empty by congruence.
  symmetry. apply not_elem_of_dom. rewrite Hdom. unfold canonical_keys.
  set_solver.
Qed.

Lemma retag_canonical_shaped r : canonical_shaped r -> canonical_shaped (retag r).
Proof.
  intros (d & z & -> & Hdom & Hts). exists (<["source" := VStr "format_1"]> d), z.
  split; [reflexivity|]. split.
  - rewrite dom_insert_L, Hdom. unfold canonical_keys. set_solver.
  - rewrite lookup_insert_ne by discriminate. exact Hts.
Qed.

Lemma retag_int_timestamp r :
  canonical_shaped r -> int_timestamp (retag r) = int_timestamp r.
Proof.
  intros (d & z & -> & _ & Hts). unfold int_timestamp, timestamp_key. cbn.
  rewrite lookup_insert_ne by discriminate. reflexivity.
Qed.

Lemma canonical_shaped_int_timestamp r :
  canonical_shaped r -> has_int_timestamp r.
Proof.
  intros (d & z & -> & _ & Hts). exists z.
  unfold int_timestamp, timestamp_key. cbn. rewrite Hts. reflexivity.
Qed.

Section Idempotence.

Variable fromisoformat : string -> result datetime.
Variable local_to_seconds : Z -> result Z.
Variable stdout_write : line -> result unit.

Local Abbreviation normalize_entry :=
  (normalize_entry fromisoformat local_to_seconds).
Local Abbreviation collected := (collected fromisoformat local_to_seconds).
Local Abbreviation printed := (printed fromisoformat local_to_seconds).
Local Abbreviation unify :=
  (unify fromisoformat local_to_seconds stdout_write).

Lemma normalize_entry_canonical r :
  canonical_shaped r -> normalize_entry r = Ok (retag r).
Proof.
  intros (d & z & -> & Hdom & Hts).
  rewrite normalize_entry_format_1.
  - cbn. rewrite canonical_1_retag by exact Hdom. reflexivity.
  - rewrite detect_data_format_field. unfold timestamp_field. cbn.
    rewrite Hts. reflexivity.
Qed.

Lemma collected_canonical l :
  Forall canonical_shaped l -> collected l = map retag l.
Proof.
  induction 1 as [|r l Hr _ IH]; [reflexivity|].
  rewrite collected_cons, normalize_entry_canonical by exact Hr.
  cbn. rewrite IH. reflexivity.
Qed.

Lemma retag_sorted l :
  Forall canonical_shaped l -> StronglySorted timestamp_le l ->
  StronglySorted timestamp_le (map retag l).
Proof.
  intros Hall Hs. induction Hs as [|r l Hs IH Hle]; [constructor|].
  apply Forall_cons_1 in Hall as [Hr Hall].
  cbn. constructor; [apply IH, Hall|].
  apply Forall_map. rewrite Forall_forall in *.
  intros q Hq. specialize (Hle q Hq). unfold timestamp_le in *. cbn.
  rewrite !retag_int_timestamp by auto. exact Hle.
Qed.

(** Canonical-shaped records all normalize: the handler prints nothing
    for them, whatever the console. *)
Lemma printed_canonical l : Forall canonical_shaped l -> printed l = [].
Proof.
  intros Hall. apply printed_none. eapply Forall_impl; [exact Hall|].
  intros r Hr. cbn. rewrite (normalize_entry_canonical r Hr). reflexivity.
Qed.

Lemma unify_canonical l :
  Forall canonical_shaped l -> StronglySorted timestamp_le l ->
  unify l = Ok (map retag l).
Proof.
  intros Hall Hs.
  rewrite unify_accepted
    by (rewrite printed_canonical by exact Hall; constructor).
  rewrite collected_canonical by exact Hall.
  apply list_sort_sorted; [|apply retag_sorted; assumption].
  apply Forall_map. eapply Forall_impl; [exact Hall|].
  intros r Hr. apply canonical_shaped_int_timestamp, retag_canonical_shaped, Hr.
Qed.

(** C6: on a list of canonical-shaped records in timestamp order (the
    timestamps need not even be distinct) [unify] returns the same list
    with every [source] field re-tagged, and [unify] applied to that result
    returns it unchanged. *)
Theorem unify_idempotent_on_canonical (l : list value) :
  Forall canonical_shaped l ->
  StronglySorted timestamp_le l ->
  unify l = Ok (map retag l)
  /\ unify (map retag l) = Ok (map retag l).
Proof.
  intros Hall Hs. split; [apply unify_canonical; assumption|].
  rewrite unify_canonical.
  - f_equal. rewrite map_map. apply map_ext_in. intros r Hr.
    rewrite Forall_forall in Hall. apply list_elem_of_In in Hr.
    destruct (Hall r Hr) as (d & z & -> & _). cbn. rewrite insert_insert_eq.
    reflexivity.
  - apply Forall_map. eapply Forall_impl; [exact Hall|].
    apply retag_canonical_shaped.
  - apply retag_sorted; assumption.
Qed.

End Idempotence.

(** ** The float computation of [iso_to_milliseconds] stays finite *)

Lemma shr_1_bound mrs :
  0 <= shr_m mrs -> 0 <= shr_m (shr_1 mrs) <= shr_m mrs.
Proof.
  destruct mrs as [m r s]. cbn. intros Hm.
  destruct m as [|p|p]; [cbn; lia| |lia].
  destruct p; cbn; lia.
Qed.

Lemma iter_shr_1_bound p : forall mrs,
  0 <= shr_m mrs -> 0 <= shr_m (SpecFloat.iter_pos shr_1 p mrs) <= shr_m mrs.
Proof.
  induction p as [p IH|p IH|]; intros mrs Hm; cbn [SpecFloat.iter_pos].
  - pose proof (shr_1_bound mrs Hm) as H1.
    pose proof (IH _ (proj1 H1)) as H2.
    pose proof (IH _ (proj1 H2)) as H3. lia.
  - pose proof (IH _ Hm) as H2.
    pose proof (IH _ (proj1 H2)) as H3. lia.
  - apply shr_1_bound, Hm.
Qed.

Lemma digits2_pos_size p : digits2_pos p = Pos.size p.
Proof. induction p; cbn; congruence. Qed.

Lemma Zdigits2_bound m D :
  0 <= m < 2 ^ D -> 0 <= D -> 0 <= Zdigits2 m <= D.
Proof.
  intros [Hm Hlt] HD. destruct m as [|p|p]; cbn; [lia| |lia].
  rewrite digits2_pos_size. split; [lia|].
  pose proof (Pos.size_le p) as Hle.
  assert (H2 : 2 ^ Zpos (Pos.size p) <= 2 * Zpos p).
  { change 2 with (Zpos 2) at 1. rewrite <- Pos2Z.inj_pow. lia. }
  assert (Hpow : 2 ^ Zpos (Pos.size p) < 2 ^ (D + 1)).
  { replace (D + 1) with (Z.succ D) by lia. rewrite Z.pow_succ_r by lia. lia. }
  apply Z.pow_lt_mono_r_iff in Hpow; lia.
Qed.

Lemma shr_fexp_bound m e l D :
  0 <= m < 2 ^ D -> 0 <= D ->
  0 <= shr_m (fst (shr_fexp prec emax m e l)) <= m
  /\ snd (shr_fexp prec emax m e l) <= Z.max (e + D) (-1074).
Proof.
  intros Hm HD. pose proof (Zdigits2_bound m D Hm HD) as Hd.
  unfold shr_fexp, shr, fexp, emin, prec, emax.
  assert (H0 : shr_m (shr_record_of_loc m l) = m)
    by (destruct l as [|[]]; reflexivity).
  destruct (Z.max (Zdigits2 m + e - 53) (3 - 1024 - 53) - e) as [|p|p] eqn:En;
    cbn [fst snd].
  - rewrite H0. lia.
  - pose proof (iter_shr_1_bound p (shr_record_of_loc m l)) as Hi.
    rewrite H0 in Hi. split; [apply Hi; lia|]. lia.
  - rewrite H0. lia.
Qed.

Lemma round_nearest_even_bound m l :
  m <= round_nearest_even m l <= m + 1.
Proof.
  unfold round_nearest_even. destruct l as [|[]]; try lia.
  destruct (Z.even m); lia.
Qed.

Lemma binary_round_aux_finite sx mx ex lx D :
  0 <= mx < 2 ^ D -> 0 <= D <= 1000 -> ex + 2 * D + 1 <= 971 ->
  finite_below (mx + 1) (Z.max (ex + 2 * D + 1) (D - 1073))
    (binary_round_aux prec emax sx mx ex lx).
Proof.
  intros Hm HD He. unfold binary_round_aux.
  pose proof (shr_fexp_bound mx ex lx D Hm (proj1 HD)) as [H1 H1e].
  destruct (shr_fexp prec emax mx ex lx) as [mrs' e']. cbn [fst snd] in *.
  pose proof (round_nearest_even_bound (shr_m mrs') (loc_of_shr_record mrs'))
    as Hr.
  set (m1 := round_nearest_even (shr_m mrs') (loc_of_shr_record mrs')) in *.
  assert (Hm1 : 0 <= m1 < 2 ^ (D + 1)).
  { replace (D + 1) with (Z.succ D) by lia. rewrite Z.pow_succ_r by lia.
    lia. }
  pose proof (shr_fexp_bound m1 e' loc_Exact (D + 1) Hm1 ltac:(lia))
    as [H2 H2e].
  destruct (shr_fexp prec emax m1 e' loc_Exact) as [mrs'' e''].
  cbn [fst snd] in *.
  destruct (shr_m mrs'') as [|m|m] eqn:Em; cbn; [exact I| |lia].
  unfold emax, prec.
  destruct (e'' <=? 1024 - 53) eqn:Ele; cbn; [lia|].
  apply Z.leb_gt in Ele. lia.
Qed.

Lemma finite_below_weaken M E M' E' x :
  finite_below M E x -> M <= M' -> E <= E' -> finite_below M' E' x.
Proof. destruct x; cbn; lia. Qed.

Lemma SFdiv_core_binary_bound p :
  Zpos p < 2 ^ 63 ->
  0 <= fst (fst (SFdiv_core_binary prec emax (Zpos p) 0 1000000 0)) < 2 ^ 135
  /\ snd (fst (SFdiv_core_binary prec emax (Zpos p) 0 1000000 0)) <= 0.
Proof.
  intros Hp. unfold SFdiv_core_binary.
  change (Zdigits2 1000000) with 20.
  pose proof (Zdigits2_bound (Zpos p) 63 ltac:(lia) ltac:(lia)) as Hd.
  assert (Hd1 : 1 <= Zdigits2 (Zpos p)) by (cbn; lia).
  set (d1 := Zdigits2 (Zpos p)) in *.
  unfold fexp, emin, prec, emax.
  replace (Z.min (Z.max (d1 + 0 - (20 + 0) - 53) (3 - 1024 - 53)) (0 - 0))
    with (d1 - 73) by lia.
  replace (0 - 0 - (d1 - 73)) with (73 - d1) by lia.
  destruct (73 - d1) as [|s|s] eqn:Es; try lia.
  rewrite Z.shiftl_mul_pow2 by lia.
  assert (Hpow : 0 < 2 ^ Zpos s <= 2 ^ 72).
  { split; [apply Z.pow_pos_nonneg; lia|apply Z.pow_le_mono_r; lia]. }
  assert (Hm : 0 <= Zpos p * 2 ^ Zpos s < 2 ^ 135).
  { change (2 ^ 135) with (2 ^ 63 * 2 ^ 72). nia. }
  pose proof (Z_div_mod (Zpos p * 2 ^ Zpos s) 1000000 ltac:(lia)) as Hdiv.
  destruct (Z.div_eucl (Zpos p * 2 ^ Zpos s) 1000000) as [q r].
  cbn [fst snd]. split; [|lia]. nia.
Qed.

Lemma int_truediv_finite a :
  - 2 ^ 63 < a < 2 ^ 63 ->
  finite_below (2 ^ 135) 271 (int_truediv a 1000000).
Proof.
  intros Ha. unfold int_truediv.
  assert (Hpos : forall s p, Zpos p < 2 ^ 63 ->
            finite_below (2 ^ 135) 271
              (SFdiv prec emax (S754_finite s p 0) (exact_int 1000000))).
  { intros s p Hp. unfold SFdiv, exact_int.
    pose proof (SFdiv_core_binary_bound p Hp) as [Hq He].
    destruct (SFdiv_core_binary prec emax (Zpos p) 0 1000000 0)
      as [[q e'] l]. cbn [fst snd] in *.
    eapply finite_below_weaken;
      [apply (binary_round_aux_finite _ q e' l 135); lia|lia..]. }
  destruct a as [|p|p]; [exact I|apply Hpos; lia|apply Hpos; lia].
Qed.

Lemma float_of_int_1000 :
  float_of_int 1000 = S754_finite false 8796093022208000 (-43).
Proof. reflexivity. Qed.

Lemma float_mul_1000_finite x :
  finite_below (2 ^ 135) 271 x ->
  finite_below (2 ^ 188) 648 (float_mul x (float_of_int 1000)).
Proof.
  rewrite float_of_int_1000. destruct x as [s| | |s m e]; cbn [finite_below];
    try contradiction.
  - intros _. exact I.
  - intros [Hm He]. unfold float_mul, SFmul. rewrite Pos2Z.inj_mul.
    eapply finite_below_weaken;
      [apply (binary_round_aux_finite _ _ _ _ 188)|..].
    + change (2 ^ 188) with (2 ^ 135 * 2 ^ 53).
      assert (8796093022208000 < 2 ^ 53) by reflexivity. nia.
    + lia.
    + lia.
    + change (2 ^ 188) with (2 ^ 135 * 2 ^ 53).
      assert (8796093022208000 < 2 ^ 53) by reflexivity. nia.
    + lia.
Qed.

Lemma int_of_float_finite M E x :
  finite_below M E x -> exists n, int_of_float x = Ok n.
Proof. destruct x; cbn; try contradiction; eauto. Qed.

Lemma days_in_month_bound y m : 28 <= days_in_month y m <= 31.
Proof.
  unfold days_in_month.
  destruct (m =? 2); [destruct (is_leap y); lia|].
  destruct ((m =? 4) || (m =? 6) || (m =? 9) || (m =? 11)); lia.
Qed.

Lemma days_sum_bound (l : list Z) :
  Forall (fun x => 0 <= x <= 31) l ->
  0 <= fold_right Z.add 0 l <= 31 * Z.of_nat (length l).
Proof. induction 1 as [|x l Hx _ IH]; cbn [fold_right length]; lia. Qed.

Lemma days_before_month_bound y m :
  1 <= m <= 12 -> 0 <= days_before_month y m <= 341.
Proof.
  intros Hm. unfold days_before_month.
  set (l := map (days_in_month y) (map Z.of_nat (seq 1 (Z.to_nat (m - 1))))).
  assert (Hl : Forall (fun x => 0 <= x <= 31) l).
  { apply Forall_map, Forall_forall. intros x _.
    pose proof (days_in_month_bound y x). cbn. lia. }
  assert (Hlen : length l = Z.to_nat (m - 1)).
  { unfold l. rewrite !length_map, length_seq. reflexivity. }
  pose proof (days_sum_bound l Hl). lia.
Qed.

Lemma days_before_year_bound y :
  1 <= y <= 9999 -> 0 <= days_before_year y <= 3652000.
Proof.
  intros Hy. unfold days_before_year. cbv zeta.
  assert (0 <= (y - 1) / 4 <= 2500)
    by (split; [apply Z.div_pos|apply Z.div_le_upper_bound]; lia).
  assert (0 <= (y - 1) / 100 <= (y - 1) / 4).
  { split; [apply Z.div_pos; lia|].
    apply Z.div_le_lower_bound; [lia|].
    pose proof (Z.mul_div_le (y - 1) 100 ltac:(lia)).
    pose proof (Z.div_le_mono (100 * ((y - 1) / 100)) (y - 1) 4
                  ltac:(lia) ltac:(lia)) as Hmono.
    replace (100 * ((y - 1) / 100)) with (25 * ((y - 1) / 100) * 4) in Hmono
      by lia.
    rewrite Z.div_mul in Hmono by lia. lia. }
  assert (0 <= (y - 1) / 400 <= 25)
    by (split; [apply Z.div_pos|apply Z.div_le_upper_bound]; lia).
  lia.
Qed.

Lemma wall_microseconds_bound dt :
  valid_datetime dt = true ->
  - 2 ^ 62 < wall_microseconds dt < 2 ^ 62.
Proof.
  unfold valid_datetime. rewrite !andb_true_iff, !Z.leb_le.
  intros [[[[[[[[[[[[[[Hy1 Hy2] Hm1] Hm2] Hd1] Hd2] Hh1] Hh2] Hmi1] Hmi2]
                    Hs1] Hs2] Hu1] Hu2] _].
  pose proof (days_before_year_bound (year dt) ltac:(lia)).
  pose proof (days_before_month_bound (year dt) (month dt) ltac:(lia)).
  pose proof (days_in_month_bound (year dt) (month dt)).
  unfold wall_microseconds, wall_seconds, ymd2ord.
  change EPOCH_ORDINAL with 719163.
  change (2 ^ 62) with 4611686018427387904. lia.
Qed.

Lemma aware_milliseconds_ok dt utcoffset :
  valid_datetime dt = true -> tzinfo dt = Some utcoffset ->
  exists n, aware_milliseconds dt utcoffset = Ok n.
Proof.
  intros Hv Htz. pose proof (wall_microseconds_bound dt Hv) as Hw.
  assert (Hoff : -86400000000 < utcoffset < 86400000000).
  { unfold valid_datetime in Hv. rewrite Htz in Hv.
    apply andb_true_iff in Hv as [_ Hv].
    apply andb_true_iff in Hv as [H1 H2].
    apply Z.ltb_lt in H1, H2. lia. }
  unfold aware_milliseconds.
  eapply int_of_float_finite, float_mul_1000_finite, int_truediv_finite.
  change (2 ^ 62) with 4611686018427387904 in Hw.
  change (2 ^ 63) with 9223372036854775808. lia.
Qed.

(** ** The concrete parser builds valid instances *)

Lemma digit_bound c d : digit c = Some d -> 0 <= d <= 9.
Proof.
  unfold digit. destruct (_ && _) eqn:E; [|discriminate].
  intros [= <-]. apply andb_true_iff in E as [H1 H2].
  apply Z.leb_le in H1, H2. lia.
Qed.

Lemma digits_bound n : forall acc l v l',
  digits n acc l = Some (v, l') ->
  acc * 10 ^ Z.of_nat n <= v < (acc + 1) * 10 ^ Z.of_nat n.
Proof.
  induction n as [|n IH]; intros acc l v l'.
  - cbn. intros [= <- <-]. lia.
  - destruct l as [|c l]; cbn [digits]; [discriminate|].
    destruct (digit c) as [d|] eqn:Ed; cbn; [|discriminate].
    intros H. apply IH in H. apply digit_bound in Ed.
    rewrite Nat2Z.inj_succ, Z.pow_succ_r by lia. nia.
Qed.

(** Takes the first step of a successful sequence of parsers. *)
Tactic Notation "parse_step" ident(H) "as" simple_intropattern(pat) :=
  apply bind_Some in H as pat; cbv beta iota in H.

Lemma parse_fraction_bound l f : parse_fraction l = Some f -> 0 <= f <= 999999.
Proof.
  unfold parse_fraction. intros H. parse_step H as (k & _ & H).
  destruct (length k) as [|[|[|[|[|[|[|]]]]]]]; try discriminate;
    parse_step H as ([v k'] & E & H); injection H as <-;
    apply digits_bound in E; cbn in E; lia.
Qed.

Lemma parse_hh_mm_ss_ff_bound l hh mm ss ff :
  parse_hh_mm_ss_ff l = Some (hh, mm, ss, ff) ->
  0 <= hh <= 99 /\ 0 <= mm <= 99 /\ 0 <= ss <= 99 /\ 0 <= ff <= 999999.
Proof.
  unfold parse_hh_mm_ss_ff. intros H.
  parse_step H as ([h l1] & Eh & H). apply digits_bound in Eh. cbn in Eh.
  destruct l1 as [|c1 l1]; [injection H as <- <- <- <-; lia|].
  parse_step H as (l2 & _ & H).
  parse_step H as ([m l3] & Em & H). apply digits_bound in Em. cbn in Em.
  destruct l3 as [|c3 l3]; [injection H as <- <- <- <-; lia|].
  parse_step H as (l4 & _ & H).
  parse_step H as ([s l5] & Es & H). apply digits_bound in Es. cbn in Es.
  destruct l5 as [|c5 l5]; [injection H as <- <- <- <-; lia|].
  parse_step H as (f & Ef & H). apply parse_fraction_bound in Ef.
  injection H as <- <- <- <-. lia.
Qed.

Lemma parse_utcoffset_bound sign l off :
  parse_utcoffset sign l = Some off -> -86400000000 < off < 86400000000.
Proof.
  unfold parse_utcoffset. destruct (bool_decide _); [|discriminate].
  intros H. parse_step H as ([[[hh mm] ss] ff] & E & H).
  apply parse_hh_mm_ss_ff_bound in E.
  destruct (_ <? _) eqn:Elt; [|discriminate]. apply Z.ltb_lt in Elt.
  injection H as <-. destruct (Ascii.eqb sign "-"); lia.
Qed.

(** The concrete parser only builds instances the constructor accepts. *)
Lemma fromisoformat_v37_valid s dt :
  fromisoformat_v37 s = Ok dt -> valid_datetime dt = true.
Proof.
  unfold fromisoformat_v37.
  destruct (parse_isoformat _) as [dt'|] eqn:E; [|discriminate].
  intros [= <-]. revert E. unfold parse_isoformat.
  generalize (list_ascii_of_string s) as l. intros l H.
  parse_step H as ([y l1] & Ey & H). apply digits_bound in Ey. cbn in Ey.
  parse_step H as (l2 & _ & H).
  parse_step H as ([m l3] & _ & H).
  parse_step H as (l4 & _ & H).
  parse_step H as ([d l5] & _ & H).
  parse_step H as ([[[[hh mm] ss] ff] tz] & Et & H).
  assert (Hrange : 0 <= hh /\ 0 <= mm /\ 0 <= ss /\ 0 <= ff <= 999999
                   /\ match tz with
                      | Some off => -86400000000 < off < 86400000000
                      | None => True
                      end).
  { destruct l5 as [|c l5]; [injection Et as <- <- <- <- <-; lia|].
    destruct (split_sign l5) as [time zone].
    parse_step Et as ([[[h' m'] s'] f'] & Eh & Et).
    apply parse_hh_mm_ss_ff_bound in Eh.
    destruct zone as [[sign lz]|].
    - parse_step Et as (off & Eo & Et). apply parse_utcoffset_bound in Eo.
      injection Et as <- <- <- <- <-. lia.
    - injection Et as <- <- <- <- <-. lia. }
  destruct (_ && _) eqn:Echk; [|discriminate]. injection H as <-.
  unfold valid_datetime.
  cbn [year month day hour minute second microsecond tzinfo].
  repeat (apply andb_true_iff in Echk as [Echk ?]).
  destruct Hrange as (Hh & Hm & Hs & Hf & Htz).
  repeat (apply andb_true_iff; split);
    try assumption; try (apply Z.leb_le; lia).
  destruct tz; [|reflexivity].
  apply andb_true_iff; split; apply Z.ltb_lt; lia.
Qed.

(** ** Independence of the host's time zone *)

(** An aware instance never consults the host. *)
Lemma iso_to_milliseconds_aware fromisoformat zone s dt utcoffset n :
  fromisoformat (strip_Z s) = Ok dt ->
  tzinfo dt = Some utcoffset ->
  aware_milliseconds dt utcoffset = Ok n ->
  iso_to_milliseconds fromisoformat zone (VStr s) = Ok (VInt n).
Proof.
  intros Hparse Htz Hn. unfold aware_milliseconds in Hn.
  unfold iso_to_milliseconds, timestamp.
  rewrite Hparse; cbn [rbind]. rewrite Htz; cbn [rbind].
  rewrite Hn. reflexivity.
Qed.

(** C7: for a string that parses to an aware instance, one with an
    explicit UTC offset, [iso_to_milliseconds] returns an integer that is a
    function of the parsed fields alone: two runs under hosts with
    different time zones return the same integer. *)
Theorem iso_to_milliseconds_host_independent
    (fromisoformat : string -> result datetime)
    (zone1 zone2 : Z -> result Z)
    (s : string) (dt : datetime) (utcoffset : Z) :
  fromisoformat (strip_Z s) = Ok dt ->
  valid_datetime dt = true ->
  tzinfo dt = Some utcoffset ->
  exists n,
    aware_milliseconds dt utcoffset = Ok n
    /\ iso_to_milliseconds fromisoformat zone1 (VStr s) = Ok (VInt n)
    /\ iso_to_milliseconds fromisoformat zone2 (VStr s) = Ok (VInt n).
Proof.
  intros Hparse Hvalid Htz.
  destruct (aware_milliseconds_ok dt utcoffset Hvalid Htz) as [n Hn].
  exists n. split; [exact Hn|].
  split; eapply iso_to_milliseconds_aware; eassumption.
Qed.

(** With the concrete parser the instance is valid by construction. *)
Lemma iso_v37_host_independent zone1 zone2 s dt utcoffset :
  fromisoformat_v37 (strip_Z s) = Ok dt ->
  tzinfo dt = Some utcoffset ->
  exists n,
    iso_to_milliseconds fromisoformat_v37 zone1 (VStr s) = Ok (VInt n)
    /\ iso_to_milliseconds fromisoformat_v37 zone2 (VStr s) = Ok (VInt n).
Proof.
  intros Hparse Htz.
  destruct (aware_milliseconds_ok dt utcoffset
              (fromisoformat_v37_valid _ _ Hparse) Htz) as [n Hn].
  exists n. split; eapply iso_to_milliseconds_aware; eassumption.
Qed.

(** * Further properties of the code *)

(** ** What the final sort can do *)

(** A comparison of two values raises nothing but [TypeError]. *)
Lemma py_lt_raises : forall a b e, py_lt a b = Raise e -> e = TypeError.
Proof.
  fix IH 1. intros a b e.
  destruct a as [| | | | |l|]; destruct b as [| | | | |k|]; cbn;
    try discriminate; try (intros [= <-]; reflexivity);
    try (destruct f as [| | |]; cbn; try discriminate;
         intros [= <-]; reflexivity);
    try (destruct f as [| | |]; destruct f0 as [| | |]; cbn; discriminate).
  revert k. induction l as [|x l IHl]; intros [|y k]; try discriminate.
  destruct (py_eq x y); [apply IHl|apply IH].
Qed.

Lemma insert_keyed_outcome pivot l :
  match insert_keyed pivot l with
  | Ok r => Permutation (l ++ [pivot]) r
  | Raise e => e = TypeError
  end.
Proof.
  induction l as [|p l IH]; cbn [insert_keyed]; [reflexivity|].
  destruct (py_lt (fst pivot) (fst p)) as [[]|e] eqn:E; cbn [rbind].
  - rewrite <- Permutation_cons_append. reflexivity.
  - destruct (insert_keyed pivot l) as [r|e]; cbn [rbind]; [|exact IH].
    cbn. constructor. exact IH.
  - eapply py_lt_raises, E.
Qed.

Lemma sort_keyed_outcome todo : forall sorted,
  match sort_keyed sorted todo with
  | Ok r => Permutation (sorted ++ todo) r
  | Raise e => e = TypeError
  end.
Proof.
  induction todo as [|pivot todo IH]; intros sorted; cbn [sort_keyed].
  - rewrite app_nil_r. reflexivity.
  - pose proof (insert_keyed_outcome pivot sorted) as Hins.
    destruct (insert_keyed pivot sorted) as [s'|e]; cbn [rbind]; [|exact Hins].
    specialize (IH s'). destruct (sort_keyed s' todo) as [r|e]; [|exact IH].
    rewrite <- IH, <- Hins, <- app_assoc. reflexivity.
Qed.

Lemma mapM_ok {A B} (f : A -> result B) (l : list A) :
  Forall (fun x => is_ok (f x) = true) l ->
  exists ys, mapM f l = Ok ys /\ length ys = length l.
Proof.
  induction 1 as [|x l Hx _ (ys & Hys & Hlen)]; [exists []; auto|].
  destruct (f x) as [y|] eqn:E; [|discriminate].
  exists (y :: ys). cbn [mapM]. rewrite E, Hys. cbn. auto.
Qed.

Lemma map_snd_combine {A B} (xs : list A) (ys : list B) :
  length xs = length ys -> map snd (combine xs ys) = ys.
Proof.
  revert ys. induction xs as [|x xs IH]; intros [|y ys]; cbn;
    try discriminate; [reflexivity|].
  intros [= H]. rewrite IH by exact H. reflexivity.
Qed.

(** Where every element has its key, the sort returns a rearrangement of
    its input or raises [TypeError]. *)
Lemma list_sort_outcome l :
  Forall (fun x => is_ok (timestamp_key x) = true) l ->
  match list_sort timestamp_key l with
  | Ok out => Permutation l out
  | Raise e => e = TypeError
  end.
Proof.
  intros Hl. destruct (mapM_ok timestamp_key l Hl) as (keys & Hk & Hlen).
  unfold list_sort. rewrite Hk. cbn [rbind].
  pose proof (sort_keyed_outcome (combine keys l) []) as Hs.
  destruct (sort_keyed [] (combine keys l)) as [r|e]; cbn [rbind]; [|exact Hs].
  cbn [app] in Hs. rewrite <- Hs, map_snd_combine by exact Hlen. reflexivity.
Qed.

Lemma canonical_1_dom d : dom (canonical_1 d) = canonical_keys.
Proof.
  unfold canonical_1, canonical_keys.
  rewrite !dom_insert_L, dom_empty_L. set_solver.
Qed.

(** ** When the sort returns *)

Lemma insert_keyed_defined pivot l :
  Forall (fun p => is_ok (py_lt (fst pivot) (fst p)) = true) l ->
  exists r, insert_keyed pivot l = Ok r /\ Permutation (l ++ [pivot]) r.
Proof.
  induction 1 as [|p l Hp _ (r & Hr & Hperm)]; cbn [insert_keyed].
  - exists [pivot]. split; reflexivity.
  - destruct (py_lt (fst pivot) (fst p)) as [[]|e]; [| |discriminate];
      cbn [rbind].
    + eexists. split; [reflexivity|].
      rewrite <- Permutation_cons_append. reflexivity.
    + rewrite Hr. cbn [rbind]. eexists. split; [reflexivity|].
      cbn. constructor. exact Hperm.
Qed.

Lemma sort_keyed_defined todo : forall sorted,
  Forall (fun t => Forall (fun p => is_ok (py_lt (fst t) (fst p)) = true)
                     sorted) todo ->
  ForallOrdPairs (fun p t => is_ok (py_lt (fst t) (fst p)) = true) todo ->
  exists r, sort_keyed sorted todo = Ok r /\ Permutation (sorted ++ todo) r.
Proof.
  induction todo as [|pivot todo IH]; intros sorted Hs Hp; cbn [sort_keyed].
  - exists sorted. rewrite app_nil_r. split; reflexivity.
  - apply Forall_cons_1 in Hs as [Hpivot Hs].
    inversion Hp as [|? ? Hlater Hp']; subst.
    destruct (insert_keyed_defined pivot sorted Hpivot) as (s' & Hs' & Hperm).
    rewrite Hs'. cbn [rbind].
    destruct (IH s') as (r & Hr & Hperm').
    + rewrite Forall_forall in Hs, Hlater |- *. intros t Ht.
      eapply Permutation_Forall; [exact Hperm|].
      apply Forall_app. split; [apply Hs, Ht|].
      constructor; [|constructor]. apply Hlater, Ht.
    + exact Hp'.
    + exists r. split; [exact Hr|].
      rewrite <- Hperm', <- Hperm, <- app_assoc. reflexivity.
Qed.

Lemma mapM_keys l : forall keys,
  mapM timestamp_key l = Ok keys ->
  Forall2 (fun k x => timestamp_key x = Ok k) keys l.
Proof.
  induction l as [|x l IH]; intros keys; cbn [mapM].
  - intros [= <-]. constructor.
  - destruct (timestamp_key x) as [k|] eqn:Ek; cbn [rbind]; [|discriminate].
    destruct (mapM timestamp_key l) as [ks|]; cbn [rbind]; [|discriminate].
    intros [= <-]. constructor; [exact Ek|apply IH; reflexivity].
Qed.

Lemma combine_keys_Forall (Q : value -> Prop) (S : value * value -> Prop)
    keys l :
  Forall2 (fun k x => timestamp_key x = Ok k) keys l ->
  Forall Q l ->
  (forall k y, timestamp_key y = Ok k -> Q y -> S (k, y)) ->
  Forall S (combine keys l).
Proof.
  intros H2 HQ HS. induction H2 as [|k x keys l Hk _ IH]; [constructor|].
  apply Forall_cons_1 in HQ as [Hx HQ]. cbn [combine].
  constructor; [apply HS; assumption|apply IH, HQ].
Qed.

Lemma combine_keys_comparable keys l :
  Forall2 (fun k x => timestamp_key x = Ok k) keys l ->
  pairwise_comparable l ->
  ForallOrdPairs (fun p t => is_ok (py_lt (fst t) (fst p)) = true)
    (combine keys l).
Proof.
  intros H2. induction H2 as [|k x keys l Hk H2 IH]; intros Hp; [constructor|].
  destruct Hp as [Hx Hp]. cbn [combine]. constructor; [|apply IH, Hp].
  eapply (combine_keys_Forall _ _ keys l H2 Hx).
  intros k' y Hy [_ (a & b & Ha & Hb & Hab)]. cbn [fst].
  congruence.
Qed.

(** The sort returns when each two records can be compared. *)
Lemma list_sort_comparable l :
  Forall (fun x => is_ok (timestamp_key x) = true) l ->
  pairwise_comparable l ->
  exists out, list_sort timestamp_key l = Ok out /\ Permutation l out.
Proof.
  intros Hl Hp. destruct (mapM_ok timestamp_key l Hl) as (keys & Hk & Hlen).
  pose proof (combine_keys_comparable keys l (mapM_keys l keys Hk) Hp) as Hc.
  destruct (sort_keyed_defined (combine keys l) []) as (r & Hr & Hperm).
  { apply Forall_forall. intros t _. constructor. }
  { exact Hc. }
  exists (map snd r). unfold list_sort. rewrite Hk. cbn [rbind].
  rewrite Hr. cbn [rbind]. split; [reflexivity|].
  cbn [app] in Hperm. rewrite <- Hperm, map_snd_combine by exact Hlen.
  reflexivity.
Qed.

Section Outcome.

Variable fromisoformat : string -> result datetime.
Variable local_to_seconds : Z -> result Z.
Variable stdout_write : line -> result unit.

Local Abbreviation normalize_entry :=
  (normalize_entry fromisoformat local_to_seconds).
Local Abbreviation collected := (collected fromisoformat local_to_seconds).
Local Abbreviation printed := (printed fromisoformat local_to_seconds).
Local Abbreviation accepted := (accepted stdout_write).
Local Abbreviation refused := (refused stdout_write).
Local Abbreviation shown := (shown stdout_write).
Local Abbreviation print_outcome := (print_outcome stdout_write).
Local Abbreviation iso_to_milliseconds :=
  (iso_to_milliseconds fromisoformat local_to_seconds).
Local Abbreviation normalize_data_format_2 :=
  (normalize_data_format_2 fromisoformat local_to_seconds).
Local Abbreviation unify_data_body :=
  (unify_data_body fromisoformat local_to_seconds stdout_write).
Local Abbreviation unify_data :=
  (unify_data fromisoformat local_to_seconds stdout_write).
Local Abbreviation unify :=
  (unify fromisoformat local_to_seconds stdout_write).

Lemma normalize_data_format_2_record d v :
  normalize_data_format_2 (VDict d) = Ok v -> canonical_record v.
Proof.
  unfold normalize_data_format_2. cbn [dict_get rbind].
  destruct (iso_to_milliseconds _) as [ms|e]; cbn; [|discriminate].
  intros [= <-]. eexists. split; [reflexivity|]. split.
  - unfold canonical_keys. rewrite !dom_insert_L, dom_empty_L. set_solver.
  - right. rewrite !lookup_insert_ne by discriminate. apply lookup_insert_eq.
Qed.

Lemma normalize_entry_record r v :
  normalize_entry r = Ok v -> canonical_record v.
Proof.
  destruct r as [| | | | | |d]; try discriminate.
  unfold normalize_entry.
  destruct (detect_data_format (VDict d)) as [tag|]; [|discriminate].
  cbn [rbind]. destruct (String.eqb tag "format_1").
  - intros [= <-]. exists (canonical_1 d). split; [reflexivity|].
    split; [apply canonical_1_dom|]. left. unfold canonical_1.
    rewrite !lookup_insert_ne by discriminate. apply lookup_insert_eq.
  - apply normalize_data_format_2_record.
Qed.

Lemma collected_records input : Forall canonical_record (collected input).
Proof.
  induction input as [|r l IH]; [constructor|].
  rewrite collected_cons. destruct (normalize_entry r) as [v|] eqn:E; [|exact IH].
  constructor; [eapply normalize_entry_record, E|exact IH].
Qed.

Lemma canonical_record_key r :
  canonical_record r -> is_ok (timestamp_key r) = true.
Proof.
  intros (d & -> & Hdom & _). unfold timestamp_key, getitem.
  assert (H : is_Some (d !! "timestamp")).
  { apply elem_of_dom. rewrite Hdom. unfold canonical_keys. set_solver. }
  destruct H as [v ->]. reflexivity.
Qed.

Lemma collected_length_le input :
  (length (collected input) <= length input)%nat.
Proof.
  induction input as [|r l IH]; [reflexivity|].
  rewrite collected_cons. destruct (normalize_entry r); cbn; lia.
Qed.

Lemma collected_keys input :
  Forall (fun x => is_ok (timestamp_key x) = true) (collected input).
Proof.
  eapply Forall_impl; [apply collected_records|]. apply canonical_record_key.
Qed.

Lemma unify_outcome_cases input :
  match unify input with
  | Ok out =>
      refused (printed input) = None /\ Permutation (collected input) out
  | Raise e =>
      refused (printed input) = Some e
      \/ (refused (printed input) = None /\ e = TypeError)
  end.
Proof.
  rewrite unify_eq.
  destruct (refused (printed input)) as [e|]; [left; reflexivity|].
  pose proof (list_sort_outcome (collected input) (collected_keys input)) as H.
  destruct (list_sort timestamp_key (collected input)); [split|right]; auto.
Qed.

(** With a console that accepts the lines of the skipped records, [unify]
    returns whenever each two timestamps that reach the sort can be
    compared. *)
Lemma unify_of_comparable input :
  accepted (printed input) ->
  pairwise_comparable (collected input) ->
  exists out, unify input = Ok out /\ Permutation (collected input) out.
Proof.
  intros Hacc Hp. rewrite unify_accepted by exact Hacc.
  apply list_sort_comparable; [apply collected_keys|exact Hp].
Qed.

(** X1: whatever the records hold, a call of [unify] ends in one of three
    ways.  It returns a rearrangement of the records that normalized, none
    dropped and none added, the console having accepted every line of the
    handler; or it raises [TypeError], the failure of a comparison in the
    final sort; or it raises the exception with which the console refused
    a line of the handler.  No other exception leaves it. *)
Theorem unify_returns_or_type_error (input : list value) :
  (exists out, unify input = Ok out
               /\ accepted (printed input)
               /\ Permutation (collected input) out
               /\ (length out <= length input)%nat)
  \/ (accepted (printed input) /\ unify input = Raise TypeError)
  \/ (exists l e, l ∈ printed input /\ stdout_write l = Raise e
                  /\ unify input = Raise e).
Proof.
  pose proof (unify_outcome_cases input) as H.
  destruct (unify input) as [out|e].
  - left. destruct H as [Hacc H]. exists out. split; [reflexivity|].
    split; [apply refused_accepted, Hacc|]. split; [exact H|].
    rewrite <- (Permutation_length H). apply collected_length_le.
  - right. destruct H as [Href|[Hacc ->]].
    + right. destruct (refused_in _ _ _ Href) as (l & Hin & Hl).
      exists l, e. auto.
    + left. split; [apply refused_accepted, Hacc|reflexivity].
Qed.

(** X2: every record [unify] returns is in the canonical schema: a dict of
    exactly the keys [timestamp], [message], [value], [source] and
    [metadata], with [source] either [format_1] or [format_2]; keys of the
    raw record outside the schema never reach the output. *)
Theorem unify_output_schema (input out : list value) :
  unify input = Ok out -> Forall canonical_record out.
Proof.
  intros Hout. pose proof (unify_outcome_cases input) as H.
  rewrite Hout in H. destruct H as [_ H].
  eapply Permutation_Forall; [exact H|].
  apply collected_records.
Qed.

(** ** What is printed *)

Lemma printed_length input :
  (length (printed input) + 2 * length (collected input)
   = 2 * length input)%nat.
Proof.
  induction input as [|r l IH]; [reflexivity|].
  rewrite collected_cons. unfold printed in *. cbn [flat_map].
  rewrite length_app. destruct (normalize_entry r); cbn; lia.
Qed.

Lemma shown_prefix ls : exists rest, ls = (shown ls ++ rest)%list.
Proof.
  induction ls as [|l ls (rest & IH)]; [exists []; reflexivity|].
  cbn [shown]. destruct (stdout_write l).
  - exists rest. cbn. rewrite <- IH. reflexivity.
  - exists (l :: ls). reflexivity.
Qed.

(** X3: the handler of [unify_data] prints two lines for each record it
    skips, the record and the error, in the order of the input, and
    nothing for a record it keeps.  After a call the console holds, behind
    what it held before, these lines up to the first one it refuses: all
    of them when it accepts them, also when the final sort raises, and
    then the result list holds the records that normalized; when it
    refuses one the call ends with the exception of the console. *)
Theorem unify_data_prints (st : store) :
  stdout (snd (unify_data st))
  = stdout st ++ shown (printed (data_list st))
  /\ (exists rest,
        printed (data_list st) = shown (printed (data_list st)) ++ rest)
  /\ (accepted (printed (data_list st)) ->
      stdout (snd (unify_data st)) = stdout st ++ printed (data_list st)
      /\ Permutation (collected (data_list st))
           (unified_results (snd (unify_data st))))
  /\ (forall e, refused (printed (data_list st)) = Some e ->
        fst (unify_data st) = Raise e)
  /\ (length (printed (data_list st))
      = 2 * (length (data_list st) - length (collected (data_list st))))%nat
  /\ (forall before x after e,
        data_list st = before ++ x :: after ->
        normalize_entry x = Raise e ->
        printed (data_list st)
        = printed before ++ [ErrorProcessing x; Error e] ++ printed after).
Proof.
  destruct (unify_data_run fromisoformat local_to_seconds stdout_write st)
    as (results & Hrun & Hres).
  split; [rewrite Hrun; reflexivity|].
  split; [apply shown_prefix|].
  split.
  { intros Hacc. rewrite Hrun. cbn [snd].
    split; [cbn; rewrite (accepted_shown _ _ Hacc); reflexivity|].
    rewrite (Hres (accepted_refused _ _ Hacc)). cbn.
    pose proof (list_sort_outcome (collected (data_list st))
                  (collected_keys (data_list st))) as Hs.
    destruct (list_sort _ _) as [out|e]; [exact Hs|reflexivity]. }
  split.
  { intros e He. rewrite Hrun. cbn [fst]. rewrite He. reflexivity. }
  split.
  { pose proof (printed_length (data_list st)).
    pose proof (collected_length_le (data_list st)). lia. }
  intros before x after e -> Hx. unfold printed.
  rewrite flat_map_app. cbn [flat_map]. rewrite Hx. reflexivity.
Qed.

(** ** The order of the input *)

Lemma NoDup_map_inj {A B} (f : A -> B) (l : list A) x y :
  NoDup (map f l) -> x ∈ l -> y ∈ l -> f x = f y -> x = y.
Proof.
  induction l as [|a l IH]; cbn; intros Hnd Hx Hy Hf; [inversion Hx|].
  apply NoDup_cons in Hnd as [Ha Hnd].
  apply elem_of_cons in Hx as [->|Hx]; apply elem_of_cons in Hy as [->|Hy];
    auto.
  - exfalso. apply Ha. rewrite Hf. apply (list_elem_of_fmap_2 f). exact Hy.
  - exfalso. apply Ha. rewrite <- Hf. apply (list_elem_of_fmap_2 f). exact Hx.
Qed.

Lemma integer_stamped_Permutation l l' :
  Permutation l l' -> Forall integer_stamped l -> Forall integer_stamped l'.
Proof. intros Hp Hl. eapply Permutation_Forall; eassumption. Qed.

Lemma accepted_Permutation l l' :
  Permutation l l' -> accepted (printed l) -> accepted (printed l').
Proof.
  intros Hp Hl. eapply Permutation_Forall; [|exact Hl].
  unfold printed. apply Permutation_flat_map, Hp.
Qed.

Lemma unify_of_rearranged (l l' : list value) :
  Permutation l l' ->
  accepted (printed l) ->
  Forall integer_stamped l ->
  NoDup (map int_timestamp (collected l)) ->
  exists out, unify l = Ok out /\ unify l' = Ok out.
Proof.
  intros Hperm Hacc Hint Hnd.
  destruct (unify_of_integer_stamped fromisoformat local_to_seconds
              stdout_write l Hacc Hint)
    as (out & Hout & Hp & Hs & _).
  destruct (unify_of_integer_stamped fromisoformat local_to_seconds
              stdout_write l' (accepted_Permutation _ _ Hperm Hacc)
              (integer_stamped_Permutation _ _ Hperm Hint))
    as (out' & Hout' & Hp' & Hs' & _).
  exists out. split; [exact Hout|]. rewrite Hout'. f_equal.
  assert (Hcol : Permutation (collected l) (collected l')).
  { unfold collected. apply omap_Permutation, Hperm. }
  symmetry.
  apply (StronglySorted_unique_strong timestamp_le); [|assumption..|].
  - intros x y Hx Hy Hxy Hyx.
    apply (NoDup_map_inj int_timestamp (collected l)); [exact Hnd|..].
    + rewrite Hp. exact Hx.
    + rewrite Hcol, Hp'. exact Hy.
    + unfold timestamp_le in *.
      destruct (int_timestamp x), (int_timestamp y); try contradiction.
      f_equal. lia.
  - rewrite <- Hp, Hcol. exact Hp'.
Qed.

(** X4: when the console accepts the lines of the skipped records and
    the timestamps that reach the sort are integers, no two of them equal,
    the output of [unify] does not depend on the order of the input: every
    rearrangement of the input gives the same list. *)
Theorem unify_order_independent (l l' : list value) :
  Permutation l l' ->
  accepted (printed l) ->
  Forall integer_stamped l ->
  NoDup (map int_timestamp (collected l)) ->
  exists out, unify l = Ok out /\ unify l' = Ok out.
Proof.
  intros Hperm Hacc Hint Hnd.
  apply unify_of_rearranged; assumption.
Qed.

(** ** Feeding the output back *)

Lemma canonical_record_shaped r :
  canonical_record r -> has_int_timestamp r -> canonical_shaped r.
Proof.
  intros (d & -> & Hdom & _) [z Hz]. exists d, z.
  split; [reflexivity|]. split; [exact Hdom|].
  unfold int_timestamp, timestamp_key, getitem in Hz.
  destruct (d !! "timestamp") as [[]|]; try discriminate. congruence.
Qed.

(** X5: [unify] is idempotent on its own output up to the source tag:
    when the console accepts the lines of the skipped records and the
    timestamps that reach the sort are integers, the list it returns is
    taken again, on any console, comes back in the same order with every
    [source] set to [format_1], and that list is a fixed point. *)
Theorem unify_idempotent_on_output (input : list value) :
  accepted (printed input) ->
  Forall integer_stamped input ->
  exists out,
    unify input = Ok out
    /\ unify out = Ok (map retag out)
    /\ unify (map retag out) = Ok (map retag out).
Proof.
  intros Hacc Hint.
  destruct (unify_of_integer_stamped fromisoformat local_to_seconds
              stdout_write input Hacc Hint)
    as (out & Hout & Hp & Hs & _).
  assert (Hshape : Forall canonical_shaped out).
  { eapply Permutation_Forall; [exact Hp|].
    pose proof (collected_records input) as Hrec.
    pose proof (collected_int fromisoformat local_to_seconds input Hint)
      as Hts.
    rewrite Forall_forall in *. intros r Hr.
    apply canonical_record_shaped; auto. }
  exists out. split; [exact Hout|].
  split; [apply unify_canonical; assumption|].
  rewrite unify_canonical.
  - f_equal. rewrite map_map. apply map_ext_in. intros r Hr.
    rewrite Forall_forall in Hshape. apply list_elem_of_In in Hr.
    destruct (Hshape r Hr) as (d & z & -> & _). cbn.
    rewrite insert_insert_eq. reflexivity.
  - apply Forall_map. eapply Forall_impl; [exact Hshape|].
    apply retag_canonical_shaped.
  - apply retag_sorted; assumption.
Qed.

(** ** Records the loop skips *)

(** C5, amended: when exactly one record has a textual timestamp that
    contains [T] and fails the date-time grammar, every other record
    normalizes, the console accepts the two lines the handler prints for
    the rejected record, and each two timestamps of the other records can
    be compared (so that the final sort returns), [unify] returns and its
    output has one record less than the input. *)
Theorem unify_skips_rejected_record
    (before after : list value) (d : gmap string value) (s : string) :
  timestamp_field d = VStr s ->
  str_in "T" s = true ->
  is_ok (fromisoformat (strip_Z s)) = false ->
  Forall (fun r => is_ok (normalize_entry r) = true) (before ++ after) ->
  accepted (printed [VDict d]) ->
  pairwise_comparable (collected (before ++ after)) ->
  exists out,
    unify (before ++ VDict d :: after) = Ok out
    /\ length out = (length (before ++ VDict d :: after) - 1)%nat
    /\ Permutation (collected (before ++ after)) out.
Proof.
  intros Hf HT Hbad Hok Hacc Hcmp.
  pose proof (normalize_entry_rejected fromisoformat local_to_seconds
                d s Hf HT Hbad) as Hrej.
  assert (Hcol : collected (before ++ VDict d :: after)
                 = collected (before ++ after)).
  { rewrite !collected_app, collected_cons.
    destruct (normalize_entry (VDict d)); [discriminate|reflexivity]. }
  apply Forall_app in Hok as [Hb Ha].
  assert (Hpr : printed (before ++ VDict d :: after) = printed [VDict d]).
  { change (VDict d :: after) with ([VDict d] ++ after)%list.
    rewrite !printed_app, (printed_none _ _ _ Hb), (printed_none _ _ _ Ha).
    rewrite app_nil_r. reflexivity. }
  destruct (unify_of_comparable (before ++ VDict d :: after))
    as (out & Hout & Hperm).
  { rewrite Hpr. exact Hacc. }
  { rewrite Hcol. exact Hcmp. }
  rewrite Hcol in Hperm.
  exists out. split; [exact Hout|]. split; [|exact Hperm].
  rewrite <- (Permutation_length Hperm).
  rewrite (collected_length fromisoformat local_to_seconds (before ++ after))
    by (apply Forall_app; split; assumption).
  rewrite !length_app. cbn. lia.
Qed.

(** C1, amended: a failure of classification or normalization does not
    leave the loop by itself: the handler prints two lines for the record
    and the loop goes on.  The loop, and with it [unify], ends early
    exactly when the console refuses one of these lines, with the
    exception of the console.  On a console that accepts them the record
    that raises is skipped (the output is the one of the input without
    it); when no record normalizes the output is empty; and [unify]
    returns whenever each two timestamps that reach the final sort can be
    compared.  A record whose timestamp is a string without [T] and [Z] is
    classified [format_1] and normalizes, the string as its timestamp,
    without raising: alone it is returned, and in any input it is in
    whatever [unify] returns. *)
Theorem unify_catches_record_failures (input : list value) :
  (forall st,
     fst (for_each input unify_data_body st) = print_outcome (printed input))
  /\ (accepted (printed input) ->
      (forall before x after e,
         input = (before ++ x :: after)%list ->
         normalize_entry x = Raise e ->
         unify input = unify (before ++ after))
      /\ (Forall (fun r => is_ok (normalize_entry r) = false) input ->
          unify input = Ok [])
      /\ (pairwise_comparable (collected input) ->
          exists out, unify input = Ok out
                      /\ Permutation (collected input) out))
  /\ (forall e, refused (printed input) = Some e -> unify input = Raise e)
  /\ (forall d s,
        d !! "timestamp" = Some (VStr s) ->
        str_in "T" s = false -> str_in "Z" s = false ->
        detect_data_format (VDict d) = Ok "format_1"
        /\ canonical_1 d !! "timestamp" = Some (VStr s)
        /\ normalize_entry (VDict d) = Ok (VDict (canonical_1 d))
        /\ unify [VDict d] = Ok [VDict (canonical_1 d)]
        /\ (forall out,
              VDict d ∈ input -> unify input = Ok out ->
              VDict (canonical_1 d) ∈ out)).
Proof.
  split.
  { intros st.
    destruct (for_each_run fromisoformat local_to_seconds stdout_write
                input st) as (results & -> & _).
    reflexivity. }
  split.
  { intros Hacc. split.
    { intros before x after e -> Hx.
      assert (Hacc' : accepted (printed (before ++ after))).
      { change (x :: after) with ([x] ++ after)%list in Hacc.
        rewrite !printed_app in Hacc. rewrite printed_app.
        apply Forall_app in Hacc as [Hb Hacc].
        apply Forall_app in Hacc as [_ Ha]. apply Forall_app. auto. }
      rewrite !unify_accepted by assumption.
      rewrite !collected_app, collected_cons, Hx. reflexivity. }
    split.
    { intros Hall. rewrite unify_accepted by exact Hacc.
      rewrite (collected_all_raise fromisoformat local_to_seconds)
        by exact Hall.
      reflexivity. }
    intros Hcmp. apply unify_of_comparable; assumption. }
  split.
  { intros e He. rewrite unify_eq, He. reflexivity. }
  intros d s Hts HT HZ.
  assert (Hdet : detect_data_format (VDict d) = Ok "format_1").
  { rewrite detect_data_format_field. unfold timestamp_field. cbn.
    rewrite Hts. cbn. rewrite HT, HZ. reflexivity. }
  assert (Hnorm : normalize_entry (VDict d) = Ok (VDict (canonical_1 d)))
    by (apply normalize_entry_format_1, Hdet).
  split; [exact Hdet|].
  split; [rewrite canonical_1_timestamp, Hts; reflexivity|].
  split; [exact Hnorm|].
  split.
  { rewrite unify_accepted
      by (rewrite printed_cons, Hnorm; constructor).
    rewrite collected_cons, Hnorm.
    apply (list_sort_singleton _ (VStr s)).
    unfold timestamp_key, getitem. rewrite canonical_1_timestamp, Hts.
    reflexivity. }
  intros out Hin Hout.
  pose proof (unify_outcome_cases input) as H. rewrite Hout in H.
  destruct H as [_ Hperm]. rewrite <- Hperm.
  unfold collected. apply list_elem_of_omap. exists (VDict d).
  split; [exact Hin|]. rewrite Hnorm. reflexivity.
Qed.

End Outcome.

(** ** How a record is normalized *)

Lemma timestamp_field_get d :
  timestamp_field d
  = default (default (VStr "") (d !! "time")) (d !! "timestamp").
Proof.
  unfold timestamp_field. cbn.
  destruct (d !! "timestamp"); [reflexivity|]. destruct (d !! "time"); reflexivity.
Qed.

Lemma str_app_Z s : endswith (s ++ "Z")%string "Z" = true
                    /\ str_init (s ++ "Z")%string = s.
Proof.
  induction s as [|a s [IH1 IH2]]; [split; reflexivity|].
  change (String a s ++ "Z")%string with (String a (s ++ "Z")%string).
  destruct (s ++ "Z")%string as [|b t] eqn:E; [destruct s; discriminate|].
  split.
  - change (endswith (String a (String b t)) "Z")
      with (endswith (String b t) "Z"). exact IH1.
  - change (str_init (String a (String b t)))
      with (String a (str_init (String b t))). rewrite IH2. reflexivity.
Qed.

Lemma strip_Z_app s : strip_Z (s ++ "Z")%string = s.
Proof. unfold strip_Z. destruct (str_app_Z s) as [-> ->]. reflexivity. Qed.

Section Records.

Variable fromisoformat : string -> result datetime.
Variable local_to_seconds : Z -> result Z.

Local Abbreviation normalize_entry :=
  (normalize_entry fromisoformat local_to_seconds).
Local Abbreviation iso_to_milliseconds :=
  (iso_to_milliseconds fromisoformat local_to_seconds).
Local Abbreviation normalize_data_format_2 :=
  (normalize_data_format_2 fromisoformat local_to_seconds).

Lemma normalize_data_format_2_dict d :
  normalize_data_format_2 (VDict d) =
  (ms <- iso_to_milliseconds (timestamp_field d) ;;
   Ok (VDict (canonical_2 ms d))).
Proof. rewrite timestamp_field_get. reflexivity. Qed.

Lemma normalize_entry_dict d :
  normalize_entry (VDict d) =
  match detect_data_format (VDict d) with
  | Ok tag => if String.eqb tag "format_1"
              then Ok (VDict (canonical_1 d))
              else normalize_data_format_2 (VDict d)
  | Raise e => Raise e
  end.
Proof. reflexivity. Qed.

(** What [iso_to_milliseconds] raises on a string: the [ValueError] it
    builds, or an exception of another class passed on from the library. *)
Lemma iso_to_milliseconds_raises s e :
  iso_to_milliseconds (VStr s) = Raise e ->
  e = ValueError ("Invalid ISO timestamp format: " ++ strip_Z s)%string
  \/ is_ValueError e = false.
Proof.
  cbn. set (body := rbind _ _). destruct body as [v|e0]; cbn; [discriminate|].
  destruct (is_ValueError e0) eqn:E; intros [= <-]; auto.
Qed.

(** X6: an entry is skipped for one of two reasons only.  Either it is not
    a dict, and the classifier raises [AttributeError]; or it is a dict
    whose timestamp field is a string that contains [T] or [Z], and the
    conversion of that string raises: a [ValueError] whose message names
    the string without its final [Z], or an exception of another class
    that the library raised.  A dict with any other timestamp field is
    never skipped. *)
Theorem skipped_entry_reasons (r : value) (e : exn) :
  normalize_entry r = Raise e ->
  ((forall d, r <> VDict d) /\ e = AttributeError)
  \/ exists d s,
       r = VDict d
       /\ timestamp_field d = VStr s
       /\ (str_in "T" s || str_in "Z" s) = true
       /\ (e = ValueError
                 ("Invalid ISO timestamp format: " ++ strip_Z s)%string
           \/ is_ValueError e = false).
Proof.
  destruct r as [| | | | | |d];
    try (intros [= <-]; left; split; [discriminate|reflexivity]).
  intros H. right. exists d.
  rewrite normalize_entry_dict, detect_data_format_field in H. cbv zeta in H.
  rewrite normalize_data_format_2_dict in H.
  destruct (timestamp_field d) as [| | | |s| |]; try discriminate.
  pose proof (iso_to_milliseconds_raises s) as Hr.
  destruct (iso_to_milliseconds (VStr s)) as [ms|e0];
    cbn in H; destruct (str_in "T" s || str_in "Z" s) eqn:Es;
    cbn in H; try discriminate.
  injection H as <-. exists s. auto.
Qed.

(** X7: the final [Z] of a timestamp is cut off, not read as a zone: for a
    string that does not itself end in [Z], the conversion of the string
    followed by [Z] is the conversion of the string, with the same
    dependence on the host. *)
Theorem trailing_Z_is_ignored (s : string) :
  endswith s "Z" = false ->
  iso_to_milliseconds (VStr (s ++ "Z")%string) = iso_to_milliseconds (VStr s).
Proof.
  intros Hs. unfold iso_to_milliseconds.
  rewrite strip_Z_app.
  assert (Hstrip : strip_Z s = s) by (unfold strip_Z; rewrite Hs; reflexivity).
  rewrite Hstrip. reflexivity.
Qed.

Lemma alias_pairs_cases alias key :
  (alias, key) ∈ alias_pairs ->
  (alias = "msg" /\ key = "message")
  \/ (alias = "val" /\ key = "value")
  \/ (alias = "meta" /\ key = "metadata").
Proof.
  unfold alias_pairs. rewrite !elem_of_cons, elem_of_nil.
  intros [[= -> ->]|[[= -> ->]|[[= -> ->]|[]]]]; auto.
Qed.

(** Classification looks at the keys [timestamp] and [time] only. *)
Lemma detect_data_format_frame d d' :
  d !! "timestamp" = d' !! "timestamp" -> d !! "time" = d' !! "time" ->
  detect_data_format (VDict d) = detect_data_format (VDict d').
Proof.
  intros H1 H2. rewrite !detect_data_format_field, !timestamp_field_get.
  rewrite H1, H2. reflexivity.
Qed.

Lemma normalize_entry_frame d d' :
  d !! "timestamp" = d' !! "timestamp" -> d !! "time" = d' !! "time" ->
  (detect_data_format (VDict d') = Ok "format_1" ->
   canonical_1 d = canonical_1 d') ->
  (detect_data_format (VDict d') <> Ok "format_1" ->
   forall ms, canonical_2 ms d = canonical_2 ms d') ->
  normalize_entry (VDict d) = normalize_entry (VDict d').
Proof.
  intros H1 H2 Hc1 Hc2. rewrite !normalize_entry_dict.
  rewrite (detect_data_format_frame d d' H1 H2).
  destruct (detect_data_format (VDict d')) as [tag|e] eqn:Edet; [|reflexivity].
  destruct (String.eqb tag "format_1") eqn:Etag.
  { apply String.eqb_eq in Etag as ->. rewrite Hc1; reflexivity. }
  rewrite !normalize_data_format_2_dict, !timestamp_field_get, H1, H2.
  destruct (iso_to_milliseconds _) as [ms|e]; cbn [rbind]; [|reflexivity].
  rewrite Hc2; [reflexivity|].
  intros [= ->]. cbn in Etag. discriminate.
Qed.

(** X8: the alternative names [msg], [val] and [meta] count only in a
    record classified [format_2] that lacks the field itself.  In a record
    classified [format_1], and in any record that has the field under its
    own name, be it with a null value, the alternative name is ignored:
    the record normalizes as it would without that key. *)
Theorem alias_is_ignored (d : gmap string value) (alias key : string) :
  (alias, key) ∈ alias_pairs ->
  is_Some (d !! key) \/ detect_data_format (VDict d) = Ok "format_1" ->
  normalize_entry (VDict (delete alias d)) = normalize_entry (VDict d).
Proof.
  intros Hin Hcase.
  assert (Hc1 : canonical_1 (delete alias d) = canonical_1 d).
  { unfold canonical_1.
    destruct (alias_pairs_cases _ _ Hin) as [[-> _]|[[-> _]|[-> _]]];
      rewrite !lookup_delete_ne by discriminate; reflexivity. }
  destruct (alias_pairs_cases _ _ Hin) as [[-> ->]|[[-> ->]|[-> ->]]];
    (apply normalize_entry_frame;
     [apply lookup_delete_ne; discriminate
     |apply lookup_delete_ne; discriminate
     |intros _; exact Hc1
     |intros Hnot ms; destruct Hcase as [[v Hv]|Hdet]; [|contradiction];
      unfold canonical_2; rewrite lookup_delete_eq;
      rewrite !lookup_delete_ne by discriminate;
      rewrite Hv; reflexivity]).
Qed.

(** X9: in a record classified [format_2] a field may be given under its
    alternative name: with neither name present before, adding the value
    under [msg], [val] or [meta] normalizes to the same canonical record
    as adding it under [message], [value] or [metadata]. *)
Theorem alias_stands_for_field
    (d : gmap string value) (alias key : string) (v : value) :
  (alias, key) ∈ alias_pairs ->
  d !! alias = None -> d !! key = None ->
  detect_data_format (VDict d) = Ok "format_2" ->
  normalize_entry (VDict (<[alias := v]> d))
  = normalize_entry (VDict (<[key := v]> d))
  /\ forall ms,
       iso_to_milliseconds (timestamp_field d) = Ok ms ->
       exists out,
         normalize_entry (VDict (<[alias := v]> d)) = Ok (VDict out)
         /\ out !! key = Some v.
Proof.
  intros Hin Ha Hk Hdet.
  assert (Hdet' : forall k, k <> "timestamp" -> k <> "time" ->
            detect_data_format (VDict (<[k := v]> d)) = Ok "format_2").
  { intros k H1 H2. rewrite <- Hdet.
    apply detect_data_format_frame; apply lookup_insert_ne; congruence. }
  split.
  - destruct (alias_pairs_cases _ _ Hin) as [[-> ->]|[[-> ->]|[-> ->]]];
      (apply normalize_entry_frame;
       [rewrite !lookup_insert_ne by discriminate; reflexivity
       |rewrite !lookup_insert_ne by discriminate; reflexivity
       |rewrite Hdet' by discriminate; discriminate
       |intros _ ms; unfold canonical_2;
        rewrite !lookup_insert_eq; rewrite !lookup_insert_ne by discriminate;
        rewrite ?Ha, ?Hk; reflexivity]).
  - intros ms Hms. exists (canonical_2 ms (<[alias := v]> d)).
    assert (Hfield : timestamp_field (<[alias := v]> d) = timestamp_field d).
    { rewrite !timestamp_field_get.
      destruct (alias_pairs_cases _ _ Hin) as [[-> _]|[[-> _]|[-> _]]];
        rewrite !lookup_insert_ne by discriminate; reflexivity. }
    split.
    + rewrite normalize_entry_dict.
      destruct (alias_pairs_cases _ _ Hin) as [[-> _]|[[-> _]|[-> _]]];
        rewrite Hdet' by discriminate; cbn [String.eqb Ascii.eqb Bool.eqb];
        rewrite normalize_data_format_2_dict, Hfield, Hms; reflexivity.
    + unfold canonical_2.
      destruct (alias_pairs_cases _ _ Hin) as [[-> ->]|[[-> ->]|[-> ->]]];
        rewrite ?(lookup_insert_ne _ "timestamp"), ?(lookup_insert_ne _ "message"),
          ?(lookup_insert_ne _ "value"), ?(lookup_insert_ne _ "source")
          by discriminate;
        rewrite lookup_insert_eq, lookup_insert_eq;
        rewrite lookup_insert_ne by discriminate; rewrite Hk; reflexivity.
Qed.

(** X10: a record is normalized from eight of its keys only,
    [timestamp], [time], [message], [msg], [value], [val], [metadata] and
    [meta]: two dicts that agree on these normalize alike, so that a
    [source] field, or any other field of the input, is never read. *)
Theorem normalize_reads_eight_keys (d d' : gmap string value) :
  (forall k, k ∈ read_keys -> d !! k = d' !! k) ->
  normalize_entry (VDict d) = normalize_entry (VDict d').
Proof.
  intros Hk.
  assert (H : forall k, k ∈ read_keys -> d !! k = d' !! k) by exact Hk.
  unfold read_keys in H.
  apply normalize_entry_frame.
  - apply H. set_solver.
  - apply H. set_solver.
  - intros _. unfold canonical_1.
    rewrite (H "timestamp"), (H "message"), (H "value"), (H "metadata")
      by set_solver. reflexivity.
  - intros _ ms. unfold canonical_2.
    rewrite (H "message"), (H "msg"), (H "value"), (H "val"),
      (H "metadata"), (H "meta") by set_solver. reflexivity.
Qed.

End Records.

(** ** Loading the two files *)

Section Loader.

Variable fromisoformat : string -> result datetime.
Variable local_to_seconds : Z -> result Z.
Variable stdout_write : line -> result unit.
Variable read_json : string -> read_outcome.
Variable write_json : string -> list value -> result unit.

Local Abbreviation unify :=
  (unify fromisoformat local_to_seconds stdout_write).
Local Abbreviation collected := (collected fromisoformat local_to_seconds).
Local Abbreviation printed := (printed fromisoformat local_to_seconds).
Local Abbreviation accepted := (accepted stdout_write).
Local Abbreviation shown := (shown stdout_write).
Local Abbreviation load_file := (load_file read_json).
Local Abbreviation load_and_unify_from_files :=
  (load_and_unify_from_files fromisoformat local_to_seconds stdout_write
     read_json).
Local Abbreviation save_unified_data := (save_unified_data write_json).
Local Abbreviation main :=
  (main fromisoformat local_to_seconds stdout_write read_json write_json).

Lemma add_console_app ls ks w :
  add_console ks (add_console ls w) = add_console (ls ++ ks) w.
Proof. unfold add_console. cbn. rewrite <- app_assoc. reflexivity. Qed.

Lemma load_file_run path all_data w :
  load_file path all_data w =
  match read_json path with
  | ReadFails e => (Raise e, w)
  | o => (Ok (all_data ++ entries_of o),
          add_console (load_line path o) w)
  end.
Proof.
  unfold load_file, add_console.
  destruct (read_json path) as [data| | |e]; cbn; try reflexivity.
  - destruct data; reflexivity.
  - rewrite app_nil_r. reflexivity.
  - rewrite app_nil_r. reflexivity.
Qed.

Lemma call_unify_data_run slf all_data w :
  call_unify_data fromisoformat local_to_seconds stdout_write slf all_data w =
  (unify all_data, add_console (map Unifier (shown (printed all_data))) w).
Proof.
  unfold call_unify_data, add_console. rewrite unify_eq.
  destruct (unify_data_run fromisoformat local_to_seconds stdout_write
              (call slf all_data)) as (results & -> & _).
  reflexivity.
Qed.

Lemma load_and_unify_run slf file1_path file2_path w :
  readable (read_json file1_path) = true ->
  readable (read_json file2_path) = true ->
  load_and_unify_from_files slf file1_path file2_path w =
  let all_data := entries_of (read_json file1_path)
                  ++ entries_of (read_json file2_path) in
  (unify all_data,
   add_console (load_line file1_path (read_json file1_path)
                ++ load_line file2_path (read_json file2_path)
                ++ map Unifier (shown (printed all_data))) w).
Proof.
  intros H1 H2. unfold load_and_unify_from_files, wbind.
  rewrite load_file_run.
  destruct (read_json file1_path) as [d1| | |e1] eqn:E1; try discriminate;
    cbv beta iota zeta; rewrite load_file_run;
    destruct (read_json file2_path) as [d2| | |e2] eqn:E2; try discriminate;
    cbv beta iota zeta;
    rewrite call_unify_data_run, !add_console_app, ?app_assoc; reflexivity.
Qed.





End Loader.

(** X15: a file that holds one JSON value that is not an array is read as
    one entry: the loader behaves on it, result and printed lines, as on a
    file that holds the array of that one value. *)
Theorem load_object_as_singleton
    (fromisoformat : string -> result datetime)
    (local_to_seconds : Z -> result Z)
    (stdout_write : line -> result unit)
    (read_json read_json' : string -> read_outcome)
    (slf : DataUnifier) (file1_path file2_path : string) (w : world)
    (data : value) :
  (forall entries, data <> VList entries) ->
  read_json file1_path = Content data ->
  read_json' file1_path = Content (VList [data]) ->
  read_json file2_path = read_json' file2_path ->
  load_and_unify_from_files fromisoformat local_to_seconds stdout_write
    read_json slf file1_path file2_path w
  = load_and_unify_from_files fromisoformat local_to_seconds stdout_write
      read_json' slf file1_path file2_path w.
Proof.
  intros Hdata H1 H1' H2.
  unfold load_and_unify_from_files, wbind.
  rewrite !load_file_run, H1, H1'.
  assert (He : entries_of (Content data) = [data]).
  { destruct data; try reflexivity. exfalso. eapply Hdata. reflexivity. }
  assert (Hl : load_line file1_path (Content data)
               = load_line file1_path (Content (VList [data]))).
  { unfold load_line. rewrite He. reflexivity. }
  cbv beta iota zeta. rewrite He, Hl.
  change (entries_of (Content (VList [data]))) with [data].
  rewrite !load_file_run, H2. reflexivity.
Qed.

(** ** The entry point *)

Section Entry.

Variable fromisoformat : string -> result datetime.
Variable local_to_seconds : Z -> result Z.
Variable stdout_write : line -> result unit.
Variable read_json : string -> read_outcome.
Variable write_json : string -> list value -> result unit.

Local Abbreviation unify :=
  (unify fromisoformat local_to_seconds stdout_write).
Local Abbreviation printed := (printed fromisoformat local_to_seconds).
Local Abbreviation accepted := (accepted stdout_write).
Local Abbreviation refused := (refused stdout_write).
Local Abbreviation shown := (shown stdout_write).
Local Abbreviation save_unified_data := (save_unified_data write_json).
Local Abbreviation main :=
  (main fromisoformat local_to_seconds stdout_write read_json write_json).

Lemma save_unified_data_run slf unified_data output_path w :
  save_unified_data slf unified_data output_path w =
  (Ok tt,
   {| console := console w
                 ++ save_report output_path unified_data
                      (write_json output_path unified_data);
      written := written w
                 ++ (if is_ok (write_json output_path unified_data)
                     then [(output_path, unified_data)] else []) |}).
Proof.
  unfold save_unified_data, wbind, record_write, wprint.
  destruct (write_json output_path unified_data); cbn;
    rewrite <- ?app_assoc, ?app_nil_r; reflexivity.
Qed.

Lemma main_run w :
  readable (read_json "data-1.json") = true ->
  readable (read_json "data-2.json") = true ->
  let all_data := entries_of (read_json "data-1.json")
                  ++ entries_of (read_json "data-2.json") in
  let loading := [Starting]
                 ++ load_line "data-1.json" (read_json "data-1.json")
                 ++ load_line "data-2.json" (read_json "data-2.json")
                 ++ map Unifier (shown (printed all_data)) in
  main w =
  match unify all_data with
  | Ok out =>
      (Ok tt,
       {| console := console w ++ loading
                     ++ save_report "data-result.json" out
                          (write_json "data-result.json" out)
                     ++ [Complete] ++ sample_report out;
          written := written w
                     ++ (if is_ok (write_json "data-result.json" out)
                         then [("data-result.json", out)] else []) |})
  | Raise e =>
      (Raise e, {| console := console w ++ loading; written := written w |})
  end.
Proof.
  intros H1 H2 all_data loading.
  unfold main, wbind, wprint.
  rewrite load_and_unify_run by assumption. cbv zeta. fold all_data.
  destruct (unify all_data) as [out|e]; cbv beta iota.
  - rewrite save_unified_data_run. cbv beta iota.
    unfold wret, loading, add_console. destruct out as [|first rest];
      cbn [console written sample_report];
      rewrite <- ?app_assoc, ?app_nil_r; cbn [app]; reflexivity.
  - unfold loading, add_console. cbn [console written].
    rewrite <- ?app_assoc. cbn [app]. reflexivity.
Qed.

(** X16: [main] writes the result file exactly when the unification
    returns, and what it writes to [data-result.json] is the list
    [unify] returned for the entries of [data-1.json] followed by those of
    [data-2.json].  A failing write is reported and does not stop [main],
    which still prints the closing line and the first entry.  When [unify]
    raises, [main] raises, nothing is written and the closing line is not
    printed: the console then ends with the lines of [unify_data], all of
    them when it was the final sort that raised, those before the refused
    one when it was the console. *)
Theorem main_saves_what_unify_returns (w : world) :
  readable (read_json "data-1.json") = true ->
  readable (read_json "data-2.json") = true ->
  let all_data := entries_of (read_json "data-1.json")
                  ++ entries_of (read_json "data-2.json") in
  let loading lines :=
    [Starting]
    ++ load_line "data-1.json" (read_json "data-1.json")
    ++ load_line "data-2.json" (read_json "data-2.json")
    ++ map Unifier lines in
  match unify all_data with
  | Ok out =>
      fst (main w) = Ok tt
      /\ written (snd (main w))
         = written w
           ++ (if is_ok (write_json "data-result.json" out)
               then [("data-result.json", out)] else [])
      /\ console (snd (main w))
         = console w ++ loading (printed all_data)
           ++ save_report "data-result.json" out
                (write_json "data-result.json" out)
           ++ [Complete] ++ sample_report out
  | Raise e =>
      fst (main w) = Raise e
      /\ written (snd (main w)) = written w
      /\ console (snd (main w))
         = console w ++ loading (shown (printed all_data))
      /\ (accepted (printed all_data) ->
          e = TypeError
          /\ console (snd (main w)) = console w ++ loading (printed all_data))
  end.
Proof.
  intros H1 H2 all_data loading.
  rewrite (main_run w H1 H2). cbv zeta. fold all_data.
  pose proof (unify_outcome_cases fromisoformat local_to_seconds
                stdout_write all_data) as Hcases.
  destruct (unify all_data) as [out|e].
  - destruct Hcases as [Href _].
    rewrite (accepted_shown _ _ (refused_accepted _ _ Href)).
    repeat split; reflexivity.
  - split; [reflexivity|]. split; [reflexivity|]. split; [reflexivity|].
    intros Hacc. rewrite (accepted_shown _ _ Hacc).
    split; [|reflexivity].
    destruct Hcases as [Href|[_ He]]; [|exact He].
    rewrite (accepted_refused _ _ Hacc) in Href. discriminate.
Qed.

End Entry.

(** ** Sorting records whose timestamps are numbers *)

Lemma align_scale m e e' c :
  c <= e -> c <= e' -> m * 2 ^ (e - c) = align m e e' * 2 ^ (Z.min e e' - c).
Proof.
  intros H1 H2. unfold align. rewrite <- Z.mul_assoc, <- Z.pow_add_r by lia.
  f_equal. f_equal. lia.
Qed.

Lemma number_ltb_Fin m e m' e' c :
  c <= e -> c <= e' ->
  number_ltb (Fin m e) (Fin m' e') = (m * 2 ^ (e - c) <? m' * 2 ^ (e' - c)).
Proof.
  intros H1 H2. cbn.
  rewrite (align_scale m e e' c), (align_scale m' e' e c) by lia.
  rewrite (Z.min_comm e' e).
  assert (Hpos : 0 < 2 ^ (Z.min e e' - c)) by (apply Z.pow_pos_nonneg; lia).
  destruct (align m e e' <? align m' e' e) eqn:E; symmetry.
  - apply Z.ltb_lt in E. apply Z.ltb_lt. nia.
  - apply Z.ltb_ge in E. apply Z.ltb_ge. nia.
Qed.

(** Rewrites the comparisons of three finite numbers to comparisons of
    integers at a common exponent. *)
Ltac common_exponent e1 e2 e3 :=
  rewrite ?(number_ltb_Fin _ e1 _ e2 (Z.min e1 (Z.min e2 e3))),
    ?(number_ltb_Fin _ e2 _ e1 (Z.min e1 (Z.min e2 e3))),
    ?(number_ltb_Fin _ e1 _ e3 (Z.min e1 (Z.min e2 e3))),
    ?(number_ltb_Fin _ e3 _ e1 (Z.min e1 (Z.min e2 e3))),
    ?(number_ltb_Fin _ e2 _ e3 (Z.min e1 (Z.min e2 e3))),
    ?(number_ltb_Fin _ e3 _ e2 (Z.min e1 (Z.min e2 e3))) in * by lia;
  rewrite ?Z.ltb_lt, ?Z.ltb_ge in *.

Lemma number_ltb_asym a b : number_ltb a b = true -> number_ltb b a = false.
Proof.
  destruct a as [| | |m e], b as [| | |m' e']; cbn; try congruence.
  change (number_ltb (Fin m e) (Fin m' e') = true ->
          number_ltb (Fin m' e') (Fin m e) = false).
  common_exponent e e' e. lia.
Qed.

Lemma number_le_trans a b c :
  b <> NaN -> number_le a b -> number_le b c -> number_le a c.
Proof.
  unfold number_le.
  destruct a as [| | |m1 e1], b as [| | |m2 e2], c as [| | |m3 e3];
    try congruence; try (cbn; congruence).
  intros _. common_exponent e1 e2 e3. lia.
Qed.

Lemma number_lt_le_trans a b c :
  b <> NaN -> c <> NaN ->
  number_ltb a b = true -> number_le b c -> number_ltb a c = true.
Proof.
  unfold number_le.
  destruct a as [| | |m1 e1], b as [| | |m2 e2], c as [| | |m3 e3];
    try congruence; try (cbn; congruence).
  intros _ _. common_exponent e1 e2 e3. lia.
Qed.

Lemma number_le_lt_trans a b c :
  a <> NaN -> b <> NaN ->
  number_le a b -> number_ltb b c = true -> number_ltb a c = true.
Proof.
  unfold number_le.
  destruct a as [| | |m1 e1], b as [| | |m2 e2], c as [| | |m3 e3];
    try congruence; try (cbn; congruence).
  intros _ _. common_exponent e1 e2 e3. lia.
Qed.

Lemma py_lt_number v v' a b :
  as_number v = Some a -> as_number v' = Some b ->
  py_lt v v' = Ok (number_ltb a b).
Proof.
  intros Ha Hb.
  destruct v; try discriminate; destruct v'; try discriminate;
    cbn [py_lt]; rewrite Ha, Hb; reflexivity.
Qed.

Lemma number_key_Some p a :
  number_key p = Some a -> as_number (fst p) = Some a /\ a <> NaN.
Proof.
  unfold number_key. destruct (as_number (fst p)) as [[| | |]|];
    try discriminate; intros [= <-]; split; congruence.
Qed.

Lemma key_le_Some p q a b :
  number_key p = Some a -> number_key q = Some b ->
  key_le p q <-> number_le a b.
Proof. intros Hp Hq. unfold key_le. rewrite Hp, Hq. reflexivity. Qed.

Lemma insert_keyed_number pivot l :
  is_Some (number_key pivot) ->
  Forall (fun p => is_Some (number_key p)) l ->
  StronglySorted key_le l ->
  exists r, insert_keyed pivot l = Ok r
    /\ Permutation (l ++ [pivot]) r
    /\ StronglySorted key_le r
    /\ forall t, t <> NaN ->
         List.filter (key_equals t) r
         = List.filter (key_equals t) (l ++ [pivot]).
Proof.
  intros [a Ha] Hl Hs. destruct (number_key_Some _ _ Ha) as [Hna Hnan].
  induction l as [|p l IH].
  - exists [pivot]. repeat split; auto. repeat constructor.
  - apply Forall_cons_1 in Hl as [[ap Hp] Hl].
    destruct (number_key_Some _ _ Hp) as [Hnp Hnanp].
    apply StronglySorted_inv in Hs as [Hs Hle].
    cbn [insert_keyed]. rewrite (py_lt_number _ _ _ _ Hna Hnp). cbn [rbind].
    destruct (number_ltb a ap) eqn:E.
    + assert (Hbelow : forall q, In q (p :: l) ->
                exists aq, number_key q = Some aq
                           /\ number_ltb a aq = true).
      { intros q [<-|Hq]; [eauto|].
        rewrite Forall_forall in Hl, Hle. apply list_elem_of_In in Hq.
        destruct (Hl q Hq) as [aq Haq]. exists aq. split; [exact Haq|].
        destruct (number_key_Some _ _ Haq) as [_ Hnanq].
        apply (number_lt_le_trans a ap aq); auto.
        apply (key_le_Some p q); auto. }
      exists (pivot :: p :: l). split; [reflexivity|]. split.
      { rewrite <- Permutation_cons_append. reflexivity. }
      split.
      { constructor; [constructor; assumption|].
        apply Forall_forall. intros q Hq. apply list_elem_of_In in Hq.
        destruct (Hbelow q Hq) as (aq & Haq & Hlt).
        apply (key_le_Some pivot q a aq); auto.
        apply number_ltb_asym, Hlt. }
      intros t Ht. rewrite List.filter_app.
      change (List.filter (key_equals t) (pivot :: p :: l))
        with (if key_equals t pivot
              then pivot :: List.filter (key_equals t) (p :: l)
              else List.filter (key_equals t) (p :: l)).
      change (List.filter (key_equals t) [pivot])
        with (if key_equals t pivot then [pivot] else []).
      destruct (key_equals t pivot) eqn:Et; [|rewrite app_nil_r; reflexivity].
      replace (List.filter (key_equals t) (p :: l)) with (@nil (value * value));
        [reflexivity|].
      symmetry. unfold key_equals in Et. rewrite Ha in Et.
      apply andb_true_iff in Et as [Et _]. apply negb_true_iff in Et.
      clear -Hbelow Et Ht Hnan.
      induction (p :: l) as [|q k IHk]; [reflexivity|].
      cbn [List.filter].
      destruct (Hbelow q (or_introl eq_refl)) as (aq & Haq & Hlt).
      assert (Hq : key_equals t q = false).
      { unfold key_equals. rewrite Haq.
        rewrite (number_le_lt_trans t a aq); auto.
        apply andb_false_r. }
      rewrite Hq. apply IHk. intros q' Hq'. apply Hbelow. right. exact Hq'.
    + destruct (IH Hl Hs) as (r & -> & Hperm & Hsort & Hfilt).
      exists (p :: r). split; [reflexivity|]. split.
      { cbn. constructor. exact Hperm. }
      split.
      { constructor; [exact Hsort|].
        eapply Permutation_Forall; [exact Hperm|].
        apply Forall_app. split; [exact Hle|].
        constructor; [|constructor].
        apply (key_le_Some p pivot ap a); auto. }
      intros t Ht. cbn. rewrite Hfilt by exact Ht. reflexivity.
Qed.

Lemma sort_keyed_number todo : forall sorted,
  Forall (fun p => is_Some (number_key p)) sorted ->
  Forall (fun p => is_Some (number_key p)) todo ->
  StronglySorted key_le sorted ->
  exists r, sort_keyed sorted todo = Ok r
    /\ Permutation (sorted ++ todo) r
    /\ StronglySorted key_le r
    /\ forall t, t <> NaN ->
         List.filter (key_equals t) r
         = List.filter (key_equals t) (sorted ++ todo).
Proof.
  induction todo as [|pivot todo IH]; intros sorted Hs Ht Hsort.
  - exists sorted. rewrite app_nil_r. auto.
  - apply Forall_cons_1 in Ht as [Hp Ht].
    destruct (insert_keyed_number pivot sorted Hp Hs Hsort)
      as (s' & Hins & Hperm & Hsort' & Hfilt).
    assert (Hs' : Forall (fun p => is_Some (number_key p)) s').
    { eapply Permutation_Forall; [exact Hperm|].
      apply Forall_app. split; [exact Hs|]. constructor; [exact Hp|constructor]. }
    destruct (IH s' Hs' Ht Hsort') as (r & Hr & Hperm' & Hsort'' & Hfilt').
    exists r. cbn [sort_keyed]. rewrite Hins. cbn [rbind].
    split; [exact Hr|]. split.
    { rewrite <- Hperm', <- Hperm, <- app_assoc. reflexivity. }
    split; [exact Hsort''|].
    intros t Hnan.
    rewrite Hfilt', !List.filter_app, Hfilt, List.filter_app by exact Hnan.
    rewrite <- app_assoc.
    change (pivot :: todo) with ([pivot] ++ todo).
    rewrite List.filter_app. reflexivity.
Qed.

Lemma mapM_number_key l :
  Forall has_number_timestamp l ->
  exists keys, mapM timestamp_key l = Ok keys
    /\ Forall number_keyed (combine keys l)
    /\ map snd (combine keys l) = l.
Proof.
  induction 1 as [|x l [a Hx] _ (keys & Hk & Hall & Hsnd)].
  - exists []. repeat split; constructor.
  - unfold number_timestamp in Hx.
    destruct (timestamp_key x) as [v|] eqn:Ex; [|discriminate].
    exists (v :: keys). cbn [mapM]. rewrite Ex, Hk. cbn.
    split; [reflexivity|]. split; [|rewrite Hsnd; reflexivity].
    constructor; [|exact Hall].
    unfold number_keyed, number_key, number_timestamp. cbn. rewrite Ex.
    split; [|reflexivity]. exists a. exact Hx.
Qed.

Lemma number_keyed_sorted r :
  Forall number_keyed r -> StronglySorted key_le r ->
  StronglySorted timestamp_number_le (map snd r).
Proof.
  intros Hall Hs. induction Hs as [|p r Hs IH Hle]; [constructor|].
  apply Forall_cons_1 in Hall as [[_ Hp] Hall].
  cbn. constructor; [apply IH, Hall|].
  apply Forall_map. rewrite Forall_forall in *.
  intros q Hq. destruct (Hall q Hq) as [_ Hq'].
  specialize (Hle q Hq). unfold key_le, timestamp_number_le in *.
  cbn. rewrite <- Hp, <- Hq'. exact Hle.
Qed.

Lemma number_keyed_filter t r :
  Forall number_keyed r ->
  List.filter (timestamp_equals t) (map snd r)
  = map snd (List.filter (key_equals t) r).
Proof.
  induction 1 as [|p r [_ Hp] _ IH]; [reflexivity|].
  cbn. unfold timestamp_equals at 1, key_equals at 1.
  rewrite <- Hp. destruct (number_key p) as [a|]; [|exact IH].
  destruct (negb _ && negb _); cbn; rewrite IH; reflexivity.
Qed.

(** On records whose timestamps are numbers other than NaN the sort
    returns the stable arrangement in non-decreasing order. *)
Lemma list_sort_number l :
  Forall has_number_timestamp l ->
  exists out, list_sort timestamp_key l = Ok out
    /\ Permutation l out
    /\ StronglySorted timestamp_number_le out
    /\ forall t, t <> NaN ->
         List.filter (timestamp_equals t) out
         = List.filter (timestamp_equals t) l.
Proof.
  intros Hl. destruct (mapM_number_key l Hl) as (keys & Hk & Hall & Hsnd).
  assert (Hkey : Forall (fun p => is_Some (number_key p)) (combine keys l)).
  { eapply Forall_impl; [exact Hall|]. intros p [Hp _]. exact Hp. }
  destruct (sort_keyed_number (combine keys l) [] (List.Forall_nil _) Hkey
              (SSorted_nil _)) as (r & Hr & Hperm & Hsort & Hfilt).
  cbn [app] in Hperm, Hfilt.
  assert (Hall' : Forall number_keyed r)
    by (eapply Permutation_Forall; [exact Hperm|exact Hall]).
  exists (map snd r). unfold list_sort. rewrite Hk. cbn [rbind].
  rewrite Hr. cbn [rbind]. split; [reflexivity|]. split.
  { rewrite <- Hsnd at 1. apply Permutation_map, Hperm. }
  split; [apply number_keyed_sorted; assumption|].
  intros t Ht. rewrite number_keyed_filter by exact Hall'.
  rewrite Hfilt, <- number_keyed_filter by assumption.
  rewrite Hsnd. reflexivity.
Qed.

Lemma has_int_has_number x : has_int_timestamp x -> has_number_timestamp x.
Proof.
  intros [z Hz]. unfold int_timestamp in Hz. exists (Fin z 0).
  unfold number_timestamp.
  destruct (timestamp_key x) as [[]|]; try discriminate.
  injection Hz as ->. reflexivity.
Qed.

(** Numbers can be compared with numbers, NaN included, and strings with
    strings. *)
Lemma pairwise_comparable_numbers l :
  Forall (fun x => exists v n, timestamp_key x = Ok v /\ as_number v = Some n)
    l ->
  pairwise_comparable l.
Proof.
  induction 1 as [|x l (v & n & Hv & Hn) Hl IH]; [exact I|].
  split; [|exact IH].
  eapply Forall_impl; [exact Hl|].
  intros y (v' & n' & Hv' & Hn'). split.
  - exists v, v'. rewrite (py_lt_number _ _ _ _ Hn Hn'). auto.
  - exists v', v. rewrite (py_lt_number _ _ _ _ Hn' Hn). auto.
Qed.

Lemma pairwise_comparable_strings l :
  Forall (fun x => exists s, timestamp_key x = Ok (VStr s)) l ->
  pairwise_comparable l.
Proof.
  induction 1 as [|x l (s & Hs) Hl IH]; [exact I|].
  split; [|exact IH].
  eapply Forall_impl; [exact Hl|].
  intros y (s' & Hs'). split.
  - exists (VStr s), (VStr s'). auto.
  - exists (VStr s'), (VStr s). auto.
Qed.

Section Numbers.

Variable fromisoformat : string -> result datetime.
Variable local_to_seconds : Z -> result Z.
Variable stdout_write : line -> result unit.

Local Abbreviation normalize_entry :=
  (normalize_entry fromisoformat local_to_seconds).
Local Abbreviation collected := (collected fromisoformat local_to_seconds).
Local Abbreviation printed := (printed fromisoformat local_to_seconds).
Local Abbreviation accepted := (accepted stdout_write).
Local Abbreviation unify :=
  (unify fromisoformat local_to_seconds stdout_write).

Lemma normalize_entry_number r v :
  number_stamped r -> normalize_entry r = Ok v -> has_number_timestamp v.
Proof.
  destruct r as [| | | | | |d]; try discriminate.
  intros [(t & n & Ht & Hn & Hnan)|Hdet].
  - assert (Hnum : isinstance_int_float t = true)
      by (destruct t; try discriminate; reflexivity).
    assert (Hdet : detect_data_format (VDict d) = Ok "format_1").
    { rewrite detect_data_format_field. unfold timestamp_field. cbn.
      rewrite Ht, Hnum. reflexivity. }
    rewrite normalize_entry_format_1 by exact Hdet. intros [= <-].
    assert (Hkey : timestamp_key (VDict (canonical_1 d)) = Ok t).
    { unfold timestamp_key, getitem.
      rewrite canonical_1_timestamp, Ht. reflexivity. }
    exists n. unfold number_timestamp. rewrite Hkey, Hn.
    destruct n; congruence.
  - unfold normalize_entry. rewrite Hdet. cbn. intros H.
    eapply has_int_has_number, normalize_data_format_2_int, H.
Qed.

Lemma collected_number input :
  Forall number_stamped input -> Forall has_number_timestamp (collected input).
Proof.
  induction 1 as [|r l Hr _ IH]; [constructor|].
  rewrite collected_cons. destruct (normalize_entry r) as [v|e] eqn:E.
  - constructor; [eapply normalize_entry_number; eassumption|exact IH].
  - exact IH.
Qed.

(** X17: the final sort is also right for timestamps that are not
    integers: when the console accepts the lines of the skipped records
    and every timestamp that reaches the sort is a number, an [int], a
    [bool] or a [float] other than NaN, [unify] returns the normalized
    records in non-decreasing order of the numeric value, integers and
    floats compared exactly, and records of equal value keep their order
    of appearance. *)
Theorem unify_sorts_numbers (input : list value) :
  accepted (printed input) ->
  Forall number_stamped input ->
  exists out,
    unify input = Ok out
    /\ Permutation (collected input) out
    /\ StronglySorted timestamp_number_le out
    /\ forall t, t <> NaN ->
         List.filter (timestamp_equals t) out
         = List.filter (timestamp_equals t) (collected input).
Proof.
  intros Hacc Hin. rewrite unify_accepted by exact Hacc.
  apply list_sort_number, collected_number, Hin.
Qed.

End Numbers.
(** ** The accuracy of the conversion *)

Lemma shr_1_div mrs : 0 <= shr_m mrs -> shr_m (shr_1 mrs) = shr_m mrs / 2.
Proof.
  destruct mrs as [m r s]. cbn. intros Hm.
  destruct m as [|p|p]; [reflexivity| |lia].
  destruct p as [p|p|]; cbn [shr_m].
  - apply (Z.div_unique _ 2 _ 1); lia.
  - apply (Z.div_unique _ 2 _ 0); lia.
  - reflexivity.
Qed.

Lemma iter_shr_1_div p : forall mrs,
  0 <= shr_m mrs ->
  shr_m (SpecFloat.iter_pos shr_1 p mrs) = shr_m mrs / 2 ^ Zpos p.
Proof.
  induction p as [p IH|p IH|]; intros mrs Hm; cbn [SpecFloat.iter_pos].
  - pose proof (shr_1_bound mrs Hm) as [H1 _].
    pose proof (iter_shr_1_bound p _ H1) as [H2 _].
    assert (Hp : 0 < 2 ^ Zpos p) by (apply Z.pow_pos_nonneg; lia).
    rewrite IH, IH, shr_1_div by assumption.
    rewrite !Z.div_div by lia.
    f_equal. rewrite Pos2Z.inj_xI.
    replace (2 * Zpos p + 1) with (1 + Zpos p + Zpos p) by lia.
    rewrite !Z.pow_add_r by lia. change (2 ^ 1) with 2. lia.
  - pose proof (iter_shr_1_bound p _ Hm) as [H2 _].
    assert (Hp : 0 < 2 ^ Zpos p) by (apply Z.pow_pos_nonneg; lia).
    rewrite IH, IH by assumption.
    rewrite Z.div_div by lia.
    f_equal. rewrite <- Z.pow_add_r by lia. f_equal. lia.
  - apply shr_1_div, Hm.
Qed.

Lemma Zdigits2_pos_bounds p :
  2 ^ (Zdigits2 (Zpos p) - 1) <= Zpos p < 2 ^ Zdigits2 (Zpos p).
Proof.
  cbn [Zdigits2]. rewrite digits2_pos_size.
  pose proof (Pos.size_le p) as Hle. pose proof (Pos.size_gt p) as Hgt.
  assert (H2 : 2 ^ Zpos (Pos.size p) <= 2 * Zpos p).
  { change 2 with (Zpos 2) at 1. rewrite <- Pos2Z.inj_pow. lia. }
  assert (H3 : Zpos p < 2 ^ Zpos (Pos.size p)).
  { change 2 with (Zpos 2). rewrite <- Pos2Z.inj_pow. lia. }
  split; [|exact H3].
  replace (Zpos (Pos.size p)) with (Z.succ (Zpos (Pos.size p) - 1)) in H2
    by lia.
  rewrite Z.pow_succ_r in H2 by lia. lia.
Qed.

Lemma Zdigits2_unique m d :
  0 < d -> 2 ^ (d - 1) <= m < 2 ^ d -> Zdigits2 m = d.
Proof.
  intros Hd [Hlo Hhi].
  assert (Hm : 0 < m).
  { pose proof (Z.pow_pos_nonneg 2 (d - 1) ltac:(lia) ltac:(lia)). lia. }
  destruct m as [|p|p]; try lia.
  pose proof (Zdigits2_pos_bounds p) as [Hl Hh].
  set (d' := Zdigits2 (Zpos p)) in *.
  assert (Hd' : 0 < d') by (unfold d'; cbn; lia).
  assert (H1 : 2 ^ (d - 1) < 2 ^ d') by lia.
  assert (H2 : 2 ^ (d' - 1) < 2 ^ d) by lia.
  apply Z.pow_lt_mono_r_iff in H1; [|lia..].
  apply Z.pow_lt_mono_r_iff in H2; lia.
Qed.

(** In the normal range the first step of rounding drops the digits beyond
    the fifty-third. *)
Lemma shr_fexp_normal m e l :
  2 ^ 52 <= m -> -1074 <= e ->
  53 <= Zdigits2 m
  /\ snd (shr_fexp prec emax m e l) = e + (Zdigits2 m - 53)
  /\ shr_m (fst (shr_fexp prec emax m e l)) = m / 2 ^ (Zdigits2 m - 53).
Proof.
  intros Hm He.
  assert (Hd : 53 <= Zdigits2 m).
  { destruct m as [|p|p]; try (cbn in Hm; lia).
    pose proof (Zdigits2_pos_bounds p) as [_ Hh].
    assert (H : 2 ^ 52 < 2 ^ Zdigits2 (Zpos p)) by lia.
    apply Z.pow_lt_mono_r_iff in H; [lia|lia|cbn; lia]. }
  split; [exact Hd|].
  unfold shr_fexp, shr, fexp, emin, prec, emax.
  assert (H0 : shr_m (shr_record_of_loc m l) = m)
    by (destruct l as [|[]]; reflexivity).
  replace (Z.max (Zdigits2 m + e - 53) (3 - 1024 - 53) - e)
    with (Zdigits2 m - 53) by lia.
  destruct (Zdigits2 m - 53) as [|p|p] eqn:En; cbn [fst snd]; try lia.
  - rewrite H0, Z.div_1_r. split; [lia|reflexivity].
  - split; [reflexivity|].
    rewrite iter_shr_1_div, H0 by (rewrite H0; cbn in Hm; lia). reflexivity.
Qed.

(** Rounding a mantissa of at least fifty-three digits: the result
    [m * 2 ^ k] and the mantissa lie in one interval [U, U + W] between two
    neighbouring floats, [W] at most [U / 2 ^ 52]. *)
Lemma binary_round_aux_interval sx mx ex lx :
  2 ^ 52 <= mx -> -1074 <= ex -> ex + Zdigits2 mx <= 1000 ->
  exists m k W,
    binary_round_aux prec emax sx mx ex lx = S754_finite sx m (ex + k)
    /\ 0 <= k <= Zdigits2 mx - 52 /\ 0 < W
    /\ 2 ^ 52 * W <= mx / W * W
    /\ mx / W * W <= Zpos m * 2 ^ k <= mx / W * W + W
    /\ 2 ^ 52 <= Zpos m < 2 ^ 53.
Proof.
  intros Hmx Hex Hov. unfold binary_round_aux.
  pose proof (shr_fexp_normal mx ex lx Hmx Hex) as (Hd & He' & Hm').
  destruct (shr_fexp prec emax mx ex lx) as [mrs' e']. cbn [fst snd] in *.
  set (n := Zdigits2 mx - 53) in *.
  assert (Hn : 0 <= n) by lia.
  assert (HW : 0 < 2 ^ n) by (apply Z.pow_pos_nonneg; lia).
  assert (Hdig : 2 ^ n * 2 ^ 52 <= mx < 2 ^ n * 2 ^ 53).
  { destruct mx as [|p|p]; try (cbn in Hmx; lia).
    pose proof (Zdigits2_pos_bounds p) as Hb.
    rewrite <- !Z.pow_add_r by lia.
    replace (n + 52) with (Zdigits2 (Zpos p) - 1) by lia.
    replace (n + 53) with (Zdigits2 (Zpos p)) by lia. exact Hb. }
  assert (Hq : 2 ^ 52 <= mx / 2 ^ n < 2 ^ 53).
  { split; [apply Z.div_le_lower_bound|apply Z.div_lt_upper_bound]; lia. }
  pose proof (round_nearest_even_bound (shr_m mrs') (loc_of_shr_record mrs'))
    as Hr.
  set (m1 := round_nearest_even (shr_m mrs') (loc_of_shr_record mrs')) in *.
  rewrite Hm' in Hr.
  pose proof (shr_fexp_normal m1 e' loc_Exact ltac:(lia) ltac:(lia))
    as (Hd1 & He'' & Hm'').
  destruct (shr_fexp prec emax m1 e' loc_Exact) as [mrs'' e''].
  cbn [fst snd] in *.
  assert (Hcase : (Zdigits2 m1 = 53 /\ shr_m mrs'' = m1 /\ m1 < 2 ^ 53)
                  \/ (Zdigits2 m1 = 54 /\ shr_m mrs'' = 2 ^ 52
                      /\ m1 = 2 ^ 53)).
  { destruct (Z.lt_ge_cases m1 (2 ^ 53)) as [Hlt|Hge].
    - left. assert (E : Zdigits2 m1 = 53)
        by (apply Zdigits2_unique; [lia|change (53 - 1) with 52; lia]).
      rewrite E, Z.sub_diag in Hm''. rewrite Z.div_1_r in Hm''. tauto.
    - right. assert (E : m1 = 2 ^ 53) by lia.
      rewrite E in Hm'' |- *. split; [reflexivity|].
      split; [exact Hm''|reflexivity]. }
  destruct Hcase as [(Hd53 & Hms & Hlt)|(Hd54 & Hms & Heq)].
  - rewrite Hms. destruct m1 as [|m|m] eqn:Em1; try lia.
    exists m, n, (2 ^ n).
    replace (e'' <=? emax - prec) with true
      by (symmetry; apply Z.leb_le; unfold emax, prec; lia).
    split; [f_equal; lia|].
    split; [lia|]. split; [exact HW|].
    split; [nia|]. split; [nia|lia].
  - rewrite Hms. change (2 ^ 52) with (Zpos 4503599627370496).
    exists 4503599627370496%positive, (n + 1), (2 ^ n).
    replace (e'' <=? emax - prec) with true
      by (symmetry; apply Z.leb_le; unfold emax, prec; lia).
    split; [f_equal; lia|].
    split; [lia|]. split; [exact HW|].
    rewrite Z.pow_add_r by lia. change (2 ^ 1) with 2.
    change (Zpos 4503599627370496) with (2 ^ 52) in *.
    split; [nia|]. split; [|lia].
    assert (Em : mx / 2 ^ n = 2 ^ 53 - 1) by lia.
    rewrite Em. change (2 ^ 53) with 9007199254740992.
    change (2 ^ 52) with 4503599627370496. lia.
Qed.

(** The quotient the division hands to the rounding, for a dividend of
    microseconds: at least fifty-three digits of [p / 1000000]. *)
Lemma SFdiv_core_binary_quotient p :
  Zpos p < 2 ^ 63 ->
  exists q s r,
    SFdiv_core_binary prec emax (Zpos p) 0 1000000 0
    = (q, - s, new_location 1000000 r)
    /\ 0 < s <= 72 /\ 2 ^ 52 <= q < 2 ^ 54
    /\ Zpos p * 2 ^ s = 1000000 * q + r /\ 0 <= r < 1000000.
Proof.
  intros Hp. unfold SFdiv_core_binary.
  change (Zdigits2 1000000) with 20.
  pose proof (Zdigits2_bound (Zpos p) 63 ltac:(lia) ltac:(lia)) as Hd.
  assert (Hd1 : 1 <= Zdigits2 (Zpos p)) by (cbn; lia).
  pose proof (Zdigits2_pos_bounds p) as Hb.
  set (d1 := Zdigits2 (Zpos p)) in *.
  unfold fexp, emin, prec, emax.
  replace (Z.min (Z.max (d1 + 0 - (20 + 0) - 53) (3 - 1024 - 53)) (0 - 0))
    with (d1 - 73) by lia.
  replace (0 - 0 - (d1 - 73)) with (73 - d1) by lia.
  destruct (73 - d1) as [|s|s] eqn:Es; try lia.
  rewrite Z.shiftl_mul_pow2 by lia.
  assert (Hpow : 0 < 2 ^ Zpos s) by (apply Z.pow_pos_nonneg; lia).
  assert (Hm : 2 ^ 72 <= Zpos p * 2 ^ Zpos s < 2 ^ 73).
  { assert (E72 : 2 ^ 72 = 2 ^ (d1 - 1) * 2 ^ Zpos s)
      by (rewrite <- Z.pow_add_r by lia; f_equal; lia).
    assert (E73 : 2 ^ 73 = 2 ^ d1 * 2 ^ Zpos s)
      by (rewrite <- Z.pow_add_r by lia; f_equal; lia).
    rewrite E72, E73. nia. }
  pose proof (Z_div_mod (Zpos p * 2 ^ Zpos s) 1000000 ltac:(lia)) as Hdiv.
  destruct (Z.div_eucl (Zpos p * 2 ^ Zpos s) 1000000) as [q r].
  exists q, (Zpos s), r.
  split; [f_equal; f_equal; lia|]. split; [lia|].
  change (2 ^ 72) with 4722366482869645213696 in Hm.
  change (2 ^ 73) with 9444732965739290427392 in Hm.
  change (2 ^ 52) with 4503599627370496.
  change (2 ^ 54) with 18014398509481984. lia.
Qed.

(** The quotient of a count of microseconds by a million, as [float]: the
    relative error is at most [2 ^ -52]. *)
Lemma int_truediv_accurate sx p :
  Zpos p < 2 ^ 63 ->
  exists m s k,
    SFdiv prec emax (S754_finite sx p 0) (exact_int 1000000)
    = S754_finite sx m (k - s)
    /\ 0 < s <= 72 /\ 0 <= k <= 2 /\ 2 ^ 52 <= Zpos m < 2 ^ 53
    /\ 2 ^ 52 * (1000000 * (Zpos m * 2 ^ k) - Zpos p * 2 ^ s)
       <= Zpos p * 2 ^ s
    /\ 2 ^ 52 * (Zpos p * 2 ^ s - 1000000 * (Zpos m * 2 ^ k))
       <= Zpos p * 2 ^ s.
Proof.
  intros Hp. unfold SFdiv, exact_int.
  destruct (SFdiv_core_binary_quotient p Hp)
    as (q & s & r & E & Hs & Hq & Hdiv & Hr).
  rewrite E. set (l := new_location 1000000 r).
  assert (Hdq : 0 <= Zdigits2 q <= 54)
    by (apply Zdigits2_bound; lia).
  destruct (binary_round_aux_interval (xorb sx false) q (- s) l
              ltac:(lia) ltac:(lia) ltac:(lia))
    as (m & k & W & Er & Hk & HW & HU & HM & Hm).
  exists m, s, k. rewrite Er, xorb_false_r.
  split; [f_equal; lia|]. split; [exact Hs|]. split; [lia|].
  split; [exact Hm|].
  pose proof (Z.mul_div_le q W HW) as Hlo.
  pose proof (Z.mul_succ_div_gt q W HW) as Hhi.
  set (U := q / W * W) in *.
  replace (W * (q / W)) with U in Hlo by (unfold U; lia).
  replace (W * Z.succ (q / W)) with (U + W) in Hhi by (unfold U; lia).
  set (M := Zpos m * 2 ^ k) in *. set (T := Zpos p * 2 ^ s) in *.
  change (2 ^ 52) with 4503599627370496 in *. lia.
Qed.

(** The product by [1000.0]: again a relative error of at most
    [2 ^ -52]. *)
Lemma float_mul_1000_accurate sx m e :
  2 ^ 52 <= Zpos m < 2 ^ 53 -> -1000 <= e <= 800 ->
  exists m2 k2,
    float_mul (S754_finite sx m e) (float_of_int 1000)
    = S754_finite sx m2 (e - 43 + k2)
    /\ 0 <= k2
    /\ 2 ^ 52 * (Zpos m2 * 2 ^ k2 - Zpos m * 8796093022208000)
       <= Zpos m * 8796093022208000
    /\ 2 ^ 52 * (Zpos m * 8796093022208000 - Zpos m2 * 2 ^ k2)
       <= Zpos m * 8796093022208000.
Proof.
  intros Hm He. rewrite float_of_int_1000. unfold float_mul, SFmul.
  rewrite Pos2Z.inj_mul.
  set (P := Zpos m * 8796093022208000).
  assert (HP : 2 ^ 52 <= P < 2 ^ 106).
  { unfold P. change (2 ^ 106) with (2 ^ 53 * 2 ^ 53).
    assert (8796093022208000 < 2 ^ 53) by reflexivity.
    change (2 ^ 52) with 4503599627370496 in *. nia. }
  assert (Hd : 0 <= Zdigits2 P <= 106) by (apply Zdigits2_bound; lia).
  destruct (binary_round_aux_interval (xorb sx false) P (e + -43) loc_Exact
              ltac:(lia) ltac:(lia) ltac:(lia))
    as (m2 & k2 & W & Er & Hk & HW & HU & HM & _).
  exists m2, k2. rewrite Er, xorb_false_r.
  split; [f_equal; lia|]. split; [lia|].
  pose proof (Z.mul_div_le P W HW) as Hlo.
  pose proof (Z.mul_succ_div_gt P W HW) as Hhi.
  set (U := P / W * W) in *.
  replace (W * (P / W)) with U in Hlo by (unfold U; lia).
  replace (W * Z.succ (P / W)) with (U + W) in Hhi by (unfold U; lia).
  set (M := Zpos m2 * 2 ^ k2) in *.
  change (2 ^ 52) with 4503599627370496 in *. lia.
Qed.

(** [int] of a positive float [m * 2 ^ (b - a)] is its floor. *)
Lemma shiftl_floor m a b :
  0 <= m -> 0 <= a -> 0 <= b ->
  Z.shiftl m (b - a) * 2 ^ a <= m * 2 ^ b
  < (Z.shiftl m (b - a) + 1) * 2 ^ a.
Proof.
  intros Hm Ha Hb.
  assert (HA : 0 < 2 ^ a) by (apply Z.pow_pos_nonneg; lia).
  assert (HB : 0 < 2 ^ b) by (apply Z.pow_pos_nonneg; lia).
  destruct (Z.le_gt_cases a b) as [Hle|Hgt].
  - rewrite Z.shiftl_mul_pow2 by lia.
    assert (E : 2 ^ b = 2 ^ (b - a) * 2 ^ a)
      by (rewrite <- Z.pow_add_r by lia; f_equal; lia).
    rewrite E. lia.
  - rewrite Z.shiftl_div_pow2 by lia.
    replace (- (b - a)) with (a - b) by lia.
    assert (HD : 0 < 2 ^ (a - b)) by (apply Z.pow_pos_nonneg; lia).
    assert (E : 2 ^ a = 2 ^ (a - b) * 2 ^ b)
      by (rewrite <- Z.pow_add_r by lia; f_equal; lia).
    rewrite E.
    pose proof (Z.mul_div_le m _ HD) as Hlo.
    pose proof (Z.mul_succ_div_gt m _ HD) as Hhi.
    set (D := 2 ^ (a - b)) in *. set (q := m / D) in *. nia.
Qed.

(** The whole conversion of a positive count [p] of microseconds: the
    result [n] is the floor of a float within [p / 2 ^ 50] microseconds of
    [p / 1000] milliseconds. *)
Lemma milliseconds_accurate sx p :
  Zpos p < 2 ^ 63 ->
  exists n,
    int_of_float
      (float_mul (SFdiv prec emax (S754_finite sx p 0) (exact_int 1000000))
         (float_of_int 1000))
    = Ok (cond_Zopp sx n)
    /\ 0 <= n
    /\ 2 ^ 50 * (1000 * n - Zpos p) <= Zpos p
    /\ 2 ^ 50 * (Zpos p - 1000 * (n + 1)) < Zpos p.
Proof.
  intros Hp.
  destruct (int_truediv_accurate sx p Hp)
    as (m & s & k & Ediv & Hs & Hk & Hm & D1 & D2).
  destruct (float_mul_1000_accurate sx m (k - s) Hm ltac:(lia))
    as (m2 & k2 & Emul & Hk2 & P1 & P2).
  rewrite Ediv, Emul. cbn [int_of_float].
  replace (k - s - 43 + k2) with ((k + k2) - (s + 43)) by lia.
  pose proof (shiftl_floor (Zpos m2) (s + 43) (k + k2)
                ltac:(lia) ltac:(lia) ltac:(lia)) as Hfl.
  set (n := Z.shiftl (Zpos m2) (k + k2 - (s + 43))) in *.
  exists n. split; [reflexivity|].
  assert (HS : 0 < 2 ^ s) by (apply Z.pow_pos_nonneg; lia).
  assert (HK : 0 < 2 ^ k) by (apply Z.pow_pos_nonneg; lia).
  assert (HK2 : 0 < 2 ^ k2) by (apply Z.pow_pos_nonneg; lia).
  rewrite !Z.pow_add_r in Hfl by lia.
  change (2 ^ 43) with 8796093022208 in Hfl.
  set (Sa := 2 ^ s) in *. set (K := 2 ^ k) in *. set (K2 := 2 ^ k2) in *.
  assert (Q1 : 2 ^ 52 * (Zpos m2 * K2 * K - Zpos m * K * 8796093022208000)
               <= Zpos m * K * 8796093022208000).
  { pose proof (Z.mul_le_mono_nonneg_r _ _ K ltac:(lia) P1) as H.
    replace (2 ^ 52 * (Zpos m2 * K2 - Zpos m * 8796093022208000) * K)
      with (2 ^ 52 * (Zpos m2 * K2 * K - Zpos m * K * 8796093022208000))
      in H by ring.
    replace (Zpos m * 8796093022208000 * K)
      with (Zpos m * K * 8796093022208000) in H by ring. exact H. }
  assert (Q2 : 2 ^ 52 * (Zpos m * K * 8796093022208000 - Zpos m2 * K2 * K)
               <= Zpos m * K * 8796093022208000).
  { pose proof (Z.mul_le_mono_nonneg_r _ _ K ltac:(lia) P2) as H.
    replace (2 ^ 52 * (Zpos m * 8796093022208000 - Zpos m2 * K2) * K)
      with (2 ^ 52 * (Zpos m * K * 8796093022208000 - Zpos m2 * K2 * K))
      in H by ring.
    replace (Zpos m * 8796093022208000 * K)
      with (Zpos m * K * 8796093022208000) in H by ring. exact H. }
  replace (Zpos m2 * (K * K2)) with (Zpos m2 * K2 * K) in Hfl by ring.
  replace (n * (Sa * 8796093022208)) with (n * Sa * 8796093022208) in Hfl
    by ring.
  replace ((n + 1) * (Sa * 8796093022208))
    with ((n * Sa + Sa) * 8796093022208) in Hfl by ring.
  assert (Hn : 0 <= n) by (apply Z.shiftl_nonneg; lia).
  assert (HnS : 0 <= n * Sa) by nia.
  set (y := Zpos m2 * K2 * K) in *. set (x := Zpos m * K) in *.
  set (t := Zpos p * Sa) in *. set (nS := n * Sa) in *.
  split; [exact Hn|].
  change (2 ^ 52) with 4503599627370496 in *.
  change (2 ^ 50) with 1125899906842624.
  split.
  - apply (Z.mul_le_mono_pos_r _ _ Sa HS).
    replace (1125899906842624 * (1000 * n - Zpos p) * Sa)
      with (1125899906842624 * (1000 * nS - t)) by (unfold nS, t; ring).
    fold t. lia.
  - apply (Z.mul_lt_mono_pos_r Sa _ _ HS).
    replace (1125899906842624 * (Zpos p - 1000 * (n + 1)) * Sa)
      with (1125899906842624 * (t - 1000 * (nS + Sa))) by (unfold nS, t; ring).
    fold t. lia.
Qed.

Lemma aware_microseconds_bound dt utcoffset :
  valid_datetime dt = true -> tzinfo dt = Some utcoffset ->
  - 2 ^ 58 < wall_microseconds dt - utcoffset < 2 ^ 58.
Proof.
  intros Hv Htz.
  assert (Hoff : -86400000000 < utcoffset < 86400000000).
  { unfold valid_datetime in Hv. rewrite Htz in Hv.
    apply andb_true_iff in Hv as [_ Hv].
    apply andb_true_iff in Hv as [H1 H2].
    apply Z.ltb_lt in H1, H2. lia. }
  revert Hv. unfold valid_datetime. rewrite !andb_true_iff, !Z.leb_le.
  intros [[[[[[[[[[[[[[Hy1 Hy2] Hm1] Hm2] Hd1] Hd2] Hh1] Hh2] Hmi1] Hmi2]
                    Hs1] Hs2] Hu1] Hu2] _].
  pose proof (days_before_year_bound (year dt) ltac:(lia)).
  pose proof (days_before_month_bound (year dt) (month dt) ltac:(lia)).
  pose proof (days_in_month_bound (year dt) (month dt)).
  unfold wall_microseconds, wall_seconds, ymd2ord.
  change EPOCH_ORDINAL with 719163.
  change (2 ^ 58) with 288230376151711744. lia.
Qed.

(** From the relative bound to milliseconds, for a count below
    [2 ^ 58]. *)
Lemma truncated_within_one p n :
  0 < p < 2 ^ 58 -> 0 <= n ->
  2 ^ 50 * (1000 * n - p) <= p ->
  2 ^ 50 * (p - 1000 * (n + 1)) < p ->
  p / 1000 - 1 <= n <= p / 1000 + 1
  /\ (p mod 1000 = 0 -> n <= p / 1000).
Proof.
  intros Hp Hn H1 H2.
  pose proof (Z.div_mod p 1000 ltac:(lia)) as E.
  pose proof (Z.mod_pos_bound p 1000 ltac:(lia)) as Hr.
  change (2 ^ 58) with 288230376151711744 in Hp.
  change (2 ^ 50) with 1125899906842624 in H1, H2.
  set (F := p / 1000) in *. set (r := p mod 1000) in *.
  split; [lia|]. intros Hr0. lia.
Qed.


(** ** Whole seconds convert exactly *)

Lemma shr_1_double X :
  0 <= X ->
  shr_1 {| shr_m := 2 * X; shr_r := false; shr_s := false |}
  = {| shr_m := X; shr_r := false; shr_s := false |}.
Proof. destruct X as [|q|q]; [reflexivity|reflexivity|lia]. Qed.

Lemma iter_shr_1_exact p : forall c,
  0 <= c ->
  SpecFloat.iter_pos shr_1 p
    {| shr_m := 2 ^ Zpos p * c; shr_r := false; shr_s := false |}
  = {| shr_m := c; shr_r := false; shr_s := false |}.
Proof.
  induction p as [p IH|p IH|]; intros c Hc; cbn [SpecFloat.iter_pos].
  - assert (Hp : 0 < 2 ^ Zpos p) by (apply Z.pow_pos_nonneg; lia).
    assert (E : 2 ^ Zpos p~1 = 2 * (2 ^ Zpos p * 2 ^ Zpos p)).
    { rewrite <- Z.pow_add_r, <- Z.pow_succ_r by lia. f_equal. lia. }
    rewrite E.
    replace (2 * (2 ^ Zpos p * 2 ^ Zpos p) * c)
      with (2 * (2 ^ Zpos p * (2 ^ Zpos p * c))) by ring.
    rewrite shr_1_double, IH, IH by nia. reflexivity.
  - assert (Hp : 0 < 2 ^ Zpos p) by (apply Z.pow_pos_nonneg; lia).
    assert (E : 2 ^ Zpos p~0 = 2 ^ Zpos p * 2 ^ Zpos p).
    { rewrite <- Z.pow_add_r by lia. f_equal. lia. }
    rewrite E.
    replace (2 ^ Zpos p * 2 ^ Zpos p * c)
      with (2 ^ Zpos p * (2 ^ Zpos p * c)) by ring.
    rewrite IH, IH by nia. reflexivity.
  - change (2 ^ 1) with 2. apply shr_1_double, Hc.
Qed.

(** A mantissa [v * 2 ^ j] with [v] of at most fifty-three digits is
    rounded to itself. *)
Lemma binary_round_aux_exact sx v j ex :
  0 < v < 2 ^ 53 -> 0 <= j -> 2 ^ 52 <= v * 2 ^ j ->
  -1074 <= ex -> ex + j <= 900 ->
  exists c n,
    binary_round_aux prec emax sx (v * 2 ^ j) ex loc_Exact
    = S754_finite sx c (ex + n)
    /\ 0 <= n <= j /\ Zpos c * 2 ^ n = v * 2 ^ j
    /\ 2 ^ 52 <= Zpos c < 2 ^ 53.
Proof.
  intros Hv Hj Hmx Hex Hov.
  assert (HJ : 0 < 2 ^ j) by (apply Z.pow_pos_nonneg; lia).
  set (mx := v * 2 ^ j) in *.
  assert (Hhi : mx < 2 ^ (53 + j)).
  { rewrite Z.pow_add_r by lia. unfold mx. nia. }
  pose proof (Zdigits2_bound mx (53 + j) ltac:(lia) ltac:(lia)) as Hd.
  pose proof (shr_fexp_normal mx ex loc_Exact Hmx Hex) as (Hd53 & _ & _).
  set (n := Zdigits2 mx - 53) in *.
  assert (Hn : 0 <= n <= j) by lia.
  assert (HN : 0 < 2 ^ n) by (apply Z.pow_pos_nonneg; lia).
  assert (HJN : 0 < 2 ^ (j - n)) by (apply Z.pow_pos_nonneg; lia).
  set (c := v * 2 ^ (j - n)).
  assert (Ec : mx = 2 ^ n * c).
  { unfold mx, c. replace j with (n + (j - n)) at 1 by lia.
    rewrite Z.pow_add_r by lia. ring. }
  assert (Hc : 2 ^ 52 <= c < 2 ^ 53).
  { assert (Hdig : 2 ^ n * 2 ^ 52 <= mx < 2 ^ n * 2 ^ 53).
    { destruct mx as [|p|p] eqn:Emx; try (cbn in Hmx; lia).
      pose proof (Zdigits2_pos_bounds p) as Hb.
      rewrite <- !Z.pow_add_r by lia.
      replace (n + 52) with (Zdigits2 (Zpos p) - 1) by lia.
      replace (n + 53) with (Zdigits2 (Zpos p)) by lia. exact Hb. }
    rewrite Ec in Hdig. nia. }
  assert (E1 : shr_fexp prec emax mx ex loc_Exact
               = ({| shr_m := c; shr_r := false; shr_s := false |}, ex + n)).
  { unfold shr_fexp, shr, fexp, emin, prec, emax. cbn [shr_record_of_loc].
    replace (Z.max (Zdigits2 mx + ex - 53) (3 - 1024 - 53) - ex)
      with n by lia.
    destruct n as [|p|p] eqn:En; try lia.
    - rewrite Ec. change (2 ^ 0) with 1. rewrite Z.mul_1_l, Z.add_0_r.
      reflexivity.
    - rewrite Ec, iter_shr_1_exact by lia. reflexivity. }
  assert (E2 : shr_fexp prec emax c (ex + n) loc_Exact
               = ({| shr_m := c; shr_r := false; shr_s := false |}, ex + n)).
  { unfold shr_fexp, shr, fexp, emin, prec, emax. cbn [shr_record_of_loc].
    rewrite (Zdigits2_unique c 53) by (change (53 - 1) with 52; lia).
    replace (Z.max (53 + (ex + n) - 53) (3 - 1024 - 53) - (ex + n))
      with 0 by lia.
    reflexivity. }
  unfold binary_round_aux. rewrite E1.
  cbn [shr_m loc_of_shr_record round_nearest_even]. rewrite E2. cbn [shr_m].
  destruct c as [|c'|c'] eqn:Ecc; try (cbn in Hc; lia).
  exists c', n.
  replace (ex + n <=? emax - prec) with true
    by (symmetry; apply Z.leb_le; unfold emax, prec; lia).
  split; [reflexivity|]. split; [exact Hn|]. split; [lia|exact Hc].
Qed.

(** The product by [1000.0] and the truncation, for a float that holds
    the integer [V]. *)
Lemma times_1000_exact sx c n j V :
  0 <= n <= j -> j <= 1000 -> Zpos c * 2 ^ n = V * 2 ^ j ->
  0 < V -> 1000 * V < 2 ^ 53 ->
  int_of_float
    (float_mul (S754_finite sx c (n - j)) (float_of_int 1000))
  = Ok (cond_Zopp sx (1000 * V)).
Proof.
  intros Hn Hj Hc HV Hlt.
  rewrite float_of_int_1000. unfold float_mul, SFmul.
  rewrite Pos2Z.inj_mul.
  assert (HN : 0 < 2 ^ n) by (apply Z.pow_pos_nonneg; lia).
  assert (EP : Zpos c * 8796093022208000 = (1000 * V) * 2 ^ (j - n + 43)).
  { rewrite Z.pow_add_r by lia. change (2 ^ 43) with 8796093022208.
    assert (Es : 2 ^ j = 2 ^ n * 2 ^ (j - n))
      by (rewrite <- Z.pow_add_r by lia; f_equal; lia).
    rewrite Es in Hc.
    assert (Hc' : Zpos c = V * 2 ^ (j - n)) by nia.
    rewrite Hc'. ring. }
  rewrite EP.
  assert (HP : 2 ^ 52 <= 1000 * V * 2 ^ (j - n + 43)).
  { rewrite <- EP. change (2 ^ 52) with 4503599627370496. lia. }
  destruct (binary_round_aux_exact (xorb sx false) (1000 * V)
              (j - n + 43) (n - j + -43))
    as (c2 & n2 & E2 & Hn2 & Hc2 & _); try lia.
  rewrite E2, xorb_false_r. cbn [int_of_float]. do 2 f_equal.
  rewrite Z.shiftl_div_pow2 by lia.
  replace (- (n - j + -43 + n2)) with (j - n + 43 - n2) by lia.
  assert (Ej : 2 ^ (j - n + 43) = 2 ^ n2 * 2 ^ (j - n + 43 - n2))
    by (rewrite <- Z.pow_add_r by lia; f_equal; lia).
  assert (HN2 : 0 < 2 ^ n2) by (apply Z.pow_pos_nonneg; lia).
  assert (HD : 0 < 2 ^ (j - n + 43 - n2)) by (apply Z.pow_pos_nonneg; lia).
  rewrite Ej in Hc2.
  assert (Hc' : Zpos c2 = 1000 * V * 2 ^ (j - n + 43 - n2)) by nia.
  rewrite Hc'. apply Z.div_mul. lia.
Qed.

(** The conversion of a whole number [k] of seconds given in
    microseconds. *)
Lemma milliseconds_exact sx k :
  0 < k < 2 ^ 43 ->
  int_of_float
    (float_mul
       (SFdiv prec emax (exact_int (cond_Zopp sx (1000000 * k)))
          (exact_int 1000000))
       (float_of_int 1000))
  = Ok (cond_Zopp sx (1000 * k)).
Proof.
  intros Hk.
  change (2 ^ 43) with 8796093022208 in Hk.
  destruct (1000000 * k) as [|p|p] eqn:Ep; try lia.
  assert (Ex : exact_int (cond_Zopp sx (Zpos p)) = S754_finite sx p 0)
    by (destruct sx; reflexivity).
  rewrite Ex. unfold SFdiv, exact_int.
  destruct (SFdiv_core_binary_quotient p)
    as (q & s & r & E & Hs & Hq & Hdiv & Hr).
  { change (2 ^ 63) with 9223372036854775808. lia. }
  assert (HS : 0 < 2 ^ s) by (apply Z.pow_pos_nonneg; lia).
  rewrite <- Ep in Hdiv.
  assert (Eq : q = k * 2 ^ s /\ r = 0).
  { set (X := k * 2 ^ s) in *.
    replace (1000000 * k * 2 ^ s) with (1000000 * X) in Hdiv
      by (unfold X; ring).
    lia. }
  destruct Eq as [-> ->]. rewrite E.
  change (new_location 1000000 0) with loc_Exact.
  destruct (binary_round_aux_exact (xorb sx false) k s (- s))
    as (c1 & n1 & E1 & Hn1 & Hc1 & _); try lia.
  rewrite E1, xorb_false_r.
  replace (- s + n1) with (n1 - s) by lia.
  apply times_1000_exact; lia.
Qed.

Lemma iter_xO_pow m d : Zpos (Pos.iter xO m d) = Zpos m * 2 ^ Zpos d.
Proof.
  induction d as [|d IH] using Pos.peano_ind.
  - cbn [Pos.iter]. rewrite (Pos2Z.inj_xO m). change (2 ^ 1) with 2. lia.
  - rewrite Pos.iter_succ, (Pos2Z.inj_xO (Pos.iter xO m d)), IH.
    rewrite Pos2Z.inj_succ, Z.pow_succ_r by lia. ring.
Qed.

(** [float] of an integer of at most fifty-three digits holds it: the
    mantissa is the integer shifted to fifty-three digits. *)
Lemma float_of_int_exact sx m :
  Zpos m < 2 ^ 53 ->
  exists c j,
    float_of_int (cond_Zopp sx (Zpos m)) = S754_finite sx c (- j)
    /\ 0 <= j <= 52 /\ Zpos c = Zpos m * 2 ^ j
    /\ 2 ^ 52 <= Zpos c < 2 ^ 53.
Proof.
  intros Hm.
  assert (E : float_of_int (cond_Zopp sx (Zpos m))
              = binary_round prec emax sx m 0) by (destruct sx; reflexivity).
  rewrite E. unfold binary_round, shl_align.
  pose proof (Zdigits2_pos_bounds m) as Hb. cbn [Zdigits2] in Hb.
  pose proof (Zdigits2_bound (Zpos m) 53 ltac:(lia) ltac:(lia)) as Hd.
  cbn [Zdigits2] in Hd.
  set (d := Zpos (digits2_pos m)) in *.
  assert (Ef : fexp prec emax (d + 0) = d - 53)
    by (unfold fexp, emin, prec, emax; lia).
  rewrite Ef. replace (d - 53 - 0) with (d - 53) by lia.
  assert (Hexact : forall j, 0 <= j <= 52 -> j = 53 - d ->
            exists c,
              binary_round_aux prec emax sx (Zpos m * 2 ^ j) (- j) loc_Exact
              = S754_finite sx c (- j)
              /\ Zpos c = Zpos m * 2 ^ j /\ 2 ^ 52 <= Zpos c < 2 ^ 53).
  { intros j Hj Ej.
    assert (HJ : 0 < 2 ^ j) by (apply Z.pow_pos_nonneg; lia).
    assert (E52 : 2 ^ 52 = 2 ^ (d - 1) * 2 ^ j)
      by (rewrite <- Z.pow_add_r by lia; f_equal; lia).
    assert (E53 : 2 ^ 53 = 2 ^ d * 2 ^ j)
      by (rewrite <- Z.pow_add_r by lia; f_equal; lia).
    assert (Hv : 2 ^ 52 <= Zpos m * 2 ^ j < 2 ^ 53)
      by (rewrite E52, E53; nia).
    destruct (binary_round_aux_exact sx (Zpos m) j (- j))
      as (c & n & Er & Hn & Hc & Hnorm); try lia.
    assert (HN : 0 < 2 ^ n) by (apply Z.pow_pos_nonneg; lia).
    assert (En : n = 0).
    { destruct (Z.eq_dec n 0) as [|Hne]; [assumption|exfalso].
      assert (H2 : 2 ^ 1 <= 2 ^ n) by (apply Z.pow_le_mono_r; lia).
      change (2 ^ 1) with 2 in H2. nia. }
    subst n. change (2 ^ 0) with 1 in Hc. rewrite Z.mul_1_r in Hc.
    rewrite Z.add_0_r in Er. exists c. tauto. }
  destruct (d - 53) as [|dd|dd] eqn:Edd; try lia; cbv beta iota zeta.
  - destruct (Hexact 0 ltac:(lia) ltac:(lia)) as (c & Er & Hc & Hnorm).
    change (2 ^ 0) with 1 in Er, Hc. rewrite Z.mul_1_r in Er, Hc.
    exists c, 0. change (- 0) with 0 in *. rewrite Er.
    change (2 ^ 0) with 1. rewrite Z.mul_1_r. tauto || (repeat split; lia).
  - rewrite iter_xO_pow.
    destruct (Hexact (Zpos dd) ltac:(lia) ltac:(lia)) as (c & Er & Hc & Hnorm).
    exists c, (Zpos dd). change (- Zpos dd) with (Zneg dd) in *. rewrite Er.
    repeat split; lia.
Qed.

(** ** The accuracy of the conversion without offset *)

Lemma float_of_int_1000000 :
  float_of_int 1000000 = S754_finite false 8589934592000000 (-33).
Proof. reflexivity. Qed.

(** The fraction of a second, [microsecond / 1e6]. *)
Lemma micro_fraction_accurate u :
  0 < u < 1000000 ->
  exists mF E,
    float_div (float_of_int u) (float_of_int 1000000)
    = S754_finite false mF (- E)
    /\ 53 <= E <= 72 /\ 2 ^ 52 <= Zpos mF < 2 ^ 53
    /\ 2 ^ 52 * (1000000 * Zpos mF - u * 2 ^ E) <= u * 2 ^ E
    /\ 2 ^ 52 * (u * 2 ^ E - 1000000 * Zpos mF) <= u * 2 ^ E.
Proof.
  intros Hu. destruct u as [|pu|pu]; try lia.
  destruct (float_of_int_exact false pu) as (cu & ju & Eu & Hju & Hcu & Hnu).
  { change (2 ^ 53) with 9007199254740992. lia. }
  cbn [cond_Zopp] in Eu. rewrite Eu, float_of_int_1000000.
  assert (HJ : 0 < 2 ^ ju) by (apply Z.pow_pos_nonneg; lia).
  assert (Hju33 : 33 <= ju).
  { assert (H : 2 ^ 32 < 2 ^ ju).
    { change (2 ^ 32) with 4294967296.
      change (2 ^ 52) with 4503599627370496 in Hnu. nia. }
    apply Z.pow_lt_mono_r_iff in H; lia. }
  unfold float_div, SFdiv, SFdiv_core_binary.
  rewrite (Zdigits2_unique (Zpos cu) 53) by (change (53 - 1) with 52; lia).
  change (Zdigits2 8589934592000000) with 53.
  assert (Ee : Z.min (fexp prec emax (53 + - ju - (53 + -33))) (- ju - -33)
               = - ju - 20) by (unfold fexp, emin, prec, emax; lia).
  rewrite Ee. replace (- ju - -33 - (- ju - 20)) with 53 by lia.
  rewrite Z.shiftl_mul_pow2 by lia.
  pose proof (Z_div_mod (Zpos cu * 2 ^ 53) 8589934592000000 ltac:(lia))
    as Hdiv.
  destruct (Z.div_eucl (Zpos cu * 2 ^ 53) 8589934592000000) as [q r].
  destruct Hdiv as [Hdiv Hr].
  change (2 ^ 53) with 9007199254740992 in Hdiv, Hnu.
  change (2 ^ 52) with 4503599627370496 in Hnu.
  assert (Hq : 2 ^ 52 <= q < 2 ^ 54).
  { change (2 ^ 52) with 4503599627370496.
    change (2 ^ 54) with 18014398509481984. lia. }
  assert (Hdq : 0 <= Zdigits2 q <= 54) by (apply Zdigits2_bound; lia).
  destruct (binary_round_aux_interval (xorb false false) q (- ju - 20)
              (new_location 8589934592000000 r)
              ltac:(lia) ltac:(lia) ltac:(lia))
    as (m & k & W & Er & Hk & HW & HU & HM & Hm).
  rewrite Er. cbn [xorb].
  assert (HK : 0 < 2 ^ k) by (apply Z.pow_pos_nonneg; lia).
  set (E := ju + 20 - k).
  assert (HE0 : 0 <= E) by (unfold E; lia).
  assert (HE' : 0 < 2 ^ E) by (apply Z.pow_pos_nonneg; lia).
  (* the two bounds at the scale of the quotient *)
  pose proof (Z.mul_div_le q W HW) as Hlo.
  pose proof (Z.mul_succ_div_gt q W HW) as Hhi.
  set (U := q / W * W) in *.
  replace (W * (q / W)) with U in Hlo by (unfold U; lia).
  replace (W * Z.succ (q / W)) with (U + W) in Hhi by (unfold U; lia).
  set (M := Zpos m * 2 ^ k) in *.
  assert (Escale : Zpos cu * 9007199254740992
                   = Zpos pu * 2 ^ E * (8589934592 * 2 ^ k)).
  { rewrite Hcu. unfold E.
    replace ju with (ju + 20 - k + k - 20) at 1 by lia.
    assert (E20 : 2 ^ (ju + 20 - k + k - 20) * 2 ^ 20
                  = 2 ^ (ju + 20 - k) * 2 ^ k).
    { rewrite <- !Z.pow_add_r by lia. f_equal. lia. }
    change (2 ^ 20) with 1048576 in E20. nia. }
  assert (B1 : 2 ^ 52 * (1000000 * M * 8589934592 - Zpos pu * 2 ^ E
                                                   * (8589934592 * 2 ^ k))
               <= Zpos pu * 2 ^ E * (8589934592 * 2 ^ k)).
  { rewrite <- Escale. change (2 ^ 52) with 4503599627370496 in *. lia. }
  assert (B2 : 2 ^ 52 * (Zpos pu * 2 ^ E * (8589934592 * 2 ^ k)
                         - 1000000 * M * 8589934592)
               <= Zpos pu * 2 ^ E * (8589934592 * 2 ^ k)).
  { rewrite <- Escale. change (2 ^ 52) with 4503599627370496 in *. lia. }
  assert (C1 : 2 ^ 52 * (1000000 * Zpos m - Zpos pu * 2 ^ E)
               <= Zpos pu * 2 ^ E).
  { apply (Z.mul_le_mono_pos_r _ _ (8589934592 * 2 ^ k) ltac:(lia)).
    unfold M in B1.
    replace (2 ^ 52 * (1000000 * Zpos m - Zpos pu * 2 ^ E)
             * (8589934592 * 2 ^ k))
      with (2 ^ 52 * (1000000 * (Zpos m * 2 ^ k) * 8589934592
                      - Zpos pu * 2 ^ E * (8589934592 * 2 ^ k))) by ring.
    exact B1. }
  assert (C2 : 2 ^ 52 * (Zpos pu * 2 ^ E - 1000000 * Zpos m)
               <= Zpos pu * 2 ^ E).
  { apply (Z.mul_le_mono_pos_r _ _ (8589934592 * 2 ^ k) ltac:(lia)).
    unfold M in B2.
    replace (2 ^ 52 * (Zpos pu * 2 ^ E - 1000000 * Zpos m)
             * (8589934592 * 2 ^ k))
      with (2 ^ 52 * (Zpos pu * 2 ^ E * (8589934592 * 2 ^ k)
                      - 1000000 * (Zpos m * 2 ^ k) * 8589934592)) by ring.
    exact B2. }
  assert (HE53 : 53 <= E).
  { assert (H : 2 ^ 52 < 2 ^ E).
    { change (2 ^ 52) with 4503599627370496 in *. nia. }
    apply Z.pow_lt_mono_r_iff in H; lia. }
  exists m, E. split; [f_equal; unfold E; lia|].
  split; [unfold E; lia|]. split; [exact Hm|]. split; assumption.
Qed.

(** Rounding an integer mantissa of any length: the relative error is at
    most [2 ^ -52]. *)
Lemma binary_round_accurate sx p e :
  -1000 <= e <= 0 -> Zpos p < 2 ^ 200 ->
  exists m n j,
    binary_round prec emax sx p e = S754_finite sx m (e + n - j)
    /\ 0 <= n <= 150 /\ 0 <= j <= 52 /\ 2 ^ 52 <= Zpos m < 2 ^ 53
    /\ 2 ^ 52 * (Zpos m * 2 ^ n - Zpos p * 2 ^ j) <= Zpos p * 2 ^ j
    /\ 2 ^ 52 * (Zpos p * 2 ^ j - Zpos m * 2 ^ n) <= Zpos p * 2 ^ j.
Proof.
  intros He Hp. unfold binary_round, shl_align.
  pose proof (Zdigits2_pos_bounds p) as Hb. cbn [Zdigits2] in Hb.
  pose proof (Zdigits2_bound (Zpos p) 200 ltac:(lia) ltac:(lia)) as Hd.
  cbn [Zdigits2] in Hd.
  set (d := Zpos (digits2_pos p)) in *.
  assert (Ef : fexp prec emax (d + e) = d + e - 53)
    by (unfold fexp, emin, prec, emax; lia).
  rewrite Ef. replace (d + e - 53 - e) with (d - 53) by lia.
  assert (Hnormal : 53 <= d ->
            exists m n j,
              binary_round_aux prec emax sx (Zpos p) e loc_Exact
              = S754_finite sx m (e + n - j)
              /\ 0 <= n <= 150 /\ 0 <= j <= 52 /\ 2 ^ 52 <= Zpos m < 2 ^ 53
              /\ 2 ^ 52 * (Zpos m * 2 ^ n - Zpos p * 2 ^ j) <= Zpos p * 2 ^ j
              /\ 2 ^ 52 * (Zpos p * 2 ^ j - Zpos m * 2 ^ n)
                 <= Zpos p * 2 ^ j).
  { intros Hd53.
    assert (Hp52 : 2 ^ 52 <= Zpos p).
    { assert (H : 2 ^ 52 <= 2 ^ (d - 1)) by (apply Z.pow_le_mono_r; lia).
      lia. }
    destruct (binary_round_aux_interval sx (Zpos p) e loc_Exact
                Hp52 ltac:(lia) ltac:(cbn [Zdigits2]; fold d; lia))
      as (m & k & W & Er & Hk & HW & HU & HM & Hm).
    cbn [Zdigits2] in Hk. fold d in Hk.
    exists m, k, 0. rewrite Er. change (2 ^ 0) with 1. rewrite !Z.mul_1_r.
    split; [f_equal; lia|]. split; [lia|]. split; [lia|].
    split; [exact Hm|].
    pose proof (Z.mul_div_le (Zpos p) W HW) as Hlo.
    pose proof (Z.mul_succ_div_gt (Zpos p) W HW) as Hhi.
    set (U := Zpos p / W * W) in *.
    replace (W * (Zpos p / W)) with U in Hlo by (unfold U; lia).
    replace (W * Z.succ (Zpos p / W)) with (U + W) in Hhi by (unfold U; lia).
    set (M := Zpos m * 2 ^ k) in *.
    change (2 ^ 52) with 4503599627370496 in *. lia. }
  destruct (d - 53) as [|dd|dd] eqn:Edd; cbv beta iota zeta.
  - apply Hnormal. lia.
  - apply Hnormal. lia.
  - rewrite iter_xO_pow.
    assert (HJ : 0 < 2 ^ Zpos dd) by (apply Z.pow_pos_nonneg; lia).
    assert (E52 : 2 ^ 52 = 2 ^ (d - 1) * 2 ^ Zpos dd)
      by (rewrite <- Z.pow_add_r by lia; f_equal; lia).
    assert (Hp53 : Zpos p < 2 ^ 53).
    { assert (H : 2 ^ d <= 2 ^ 53) by (apply Z.pow_le_mono_r; lia). lia. }
    assert (Hlo : 2 ^ 52 <= Zpos p * 2 ^ Zpos dd) by (rewrite E52; nia).
    destruct (binary_round_aux_exact sx (Zpos p) (Zpos dd) (d + e - 53))
      as (c & n & Er & Hn & Hc & Hnorm); try lia.
    exists c, n, (Zpos dd). rewrite Er.
    split; [f_equal; lia|]. split; [lia|]. split; [lia|].
    split; [exact Hnorm|]. rewrite Hc. lia.
Qed.

(** The errors of the three roundings add up to less than a
    millisecond.  [A] is the exact count of microseconds, [P] the sum
    before rounding, [Mt] and [My] the rounded sum and product, each at its
    scale. *)
Lemma conversion_chain A u D P Mt J My n :
  0 < D -> 0 < J -> 0 < P -> 0 <= n ->
  0 <= A < 2 ^ 59 -> 0 <= u < 1000000 ->
  2 ^ 52 * (1000000 * P - A * D) <= u * D ->
  2 ^ 52 * (A * D - 1000000 * P) <= u * D ->
  2 ^ 52 * (Mt - P * J) <= P * J ->
  2 ^ 52 * (P * J - Mt) <= P * J ->
  2 ^ 52 * (My - Mt * 8796093022208000) <= Mt * 8796093022208000 ->
  2 ^ 52 * (Mt * 8796093022208000 - My) <= Mt * 8796093022208000 ->
  n * (D * J * 8796093022208) <= My < (n + 1) * (D * J * 8796093022208) ->
  1000 * n < A + 1000 /\ A < 1000 * (n + 1) + 1000.
Proof.
  intros HD HJ HP Hn HA Hu C1a C1b C2a C2b C3a C3b Hfl.
  assert (HDJ : 0 < D * J) by nia.
  assert (C1a' : 2 ^ 52 * (1000000 * (P * J) - A * (D * J)) <= u * (D * J)).
  { pose proof (Z.mul_le_mono_nonneg_r _ _ J ltac:(lia) C1a) as H.
    replace (2 ^ 52 * (1000000 * P - A * D) * J)
      with (2 ^ 52 * (1000000 * (P * J) - A * (D * J))) in H by ring.
    replace (u * D * J) with (u * (D * J)) in H by ring. exact H. }
  assert (C1b' : 2 ^ 52 * (A * (D * J) - 1000000 * (P * J)) <= u * (D * J)).
  { pose proof (Z.mul_le_mono_nonneg_r _ _ J ltac:(lia) C1b) as H.
    replace (2 ^ 52 * (A * D - 1000000 * P) * J)
      with (2 ^ 52 * (A * (D * J) - 1000000 * (P * J))) in H by ring.
    replace (u * D * J) with (u * (D * J)) in H by ring. exact H. }
  replace (n * (D * J * 8796093022208)) with (n * (D * J) * 8796093022208)
    in Hfl by ring.
  replace ((n + 1) * (D * J * 8796093022208))
    with ((n * (D * J) + D * J) * 8796093022208) in Hfl by ring.
  assert (HADJ : 0 <= A * (D * J) < 2 ^ 59 * (D * J)) by nia.
  assert (HuDJ : 0 <= u * (D * J) < 1000000 * (D * J)) by nia.
  assert (HnDJ : 0 <= n * (D * J)) by nia.
  assert (HPJ : 0 < P * J) by nia.
  set (DJ := D * J) in *. set (PJ := P * J) in *.
  set (ADJ := A * DJ) in *. set (uDJ := u * DJ) in *.
  set (nDJ := n * DJ) in *.
  change (2 ^ 52) with 4503599627370496 in *.
  change (2 ^ 59) with 576460752303423488 in *.
  split.
  - apply (Z.mul_lt_mono_pos_r DJ _ _ HDJ).
    replace (1000 * n * DJ) with (1000 * nDJ) by (unfold nDJ; ring).
    replace ((A + 1000) * DJ) with (ADJ + 1000 * DJ) by (unfold ADJ; ring).
    lia.
  - apply (Z.mul_lt_mono_pos_r DJ _ _ HDJ).
    replace ((1000 * (n + 1) + 1000) * DJ)
      with (1000 * nDJ + 2000 * DJ) by (unfold nDJ; ring).
    fold ADJ. lia.
Qed.

(** The product by [1000.0] and the truncation of a float [mt * 2 ^ e],
    brought to the scale of the chain. *)
Lemma times_1000_floor sx mt e a nt :
  2 ^ 52 <= Zpos mt < 2 ^ 53 -> 0 <= nt -> 0 <= a -> e = nt - a ->
  a <= 900 -> nt <= 800 ->
  exists n My,
    int_of_float (float_mul (S754_finite sx mt e) (float_of_int 1000))
    = Ok (cond_Zopp sx n)
    /\ 0 <= n
    /\ 2 ^ 52 * (My - Zpos mt * 2 ^ nt * 8796093022208000)
       <= Zpos mt * 2 ^ nt * 8796093022208000
    /\ 2 ^ 52 * (Zpos mt * 2 ^ nt * 8796093022208000 - My)
       <= Zpos mt * 2 ^ nt * 8796093022208000
    /\ n * (2 ^ a * 8796093022208) <= My < (n + 1) * (2 ^ a * 8796093022208).
Proof.
  intros Hm Hnt Ha He Ha900 Hnt900.
  destruct (float_mul_1000_accurate sx mt e Hm ltac:(lia))
    as (my & ky & Emul & Hky & P1 & P2).
  rewrite Emul. cbn [int_of_float].
  replace (e - 43 + ky) with ((nt + ky) - (a + 43)) by lia.
  pose proof (shiftl_floor (Zpos my) (a + 43) (nt + ky)
                ltac:(lia) ltac:(lia) ltac:(lia)) as Hfl.
  set (n := Z.shiftl (Zpos my) (nt + ky - (a + 43))) in *.
  assert (HN : 0 < 2 ^ nt) by (apply Z.pow_pos_nonneg; lia).
  exists n, (Zpos my * 2 ^ ky * 2 ^ nt).
  split; [reflexivity|].
  split; [apply Z.shiftl_nonneg; lia|].
  split.
  { pose proof (Z.mul_le_mono_nonneg_r _ _ (2 ^ nt) ltac:(lia) P1) as H.
    replace (2 ^ 52 * (Zpos my * 2 ^ ky - Zpos mt * 8796093022208000)
             * 2 ^ nt)
      with (2 ^ 52 * (Zpos my * 2 ^ ky * 2 ^ nt
                      - Zpos mt * 2 ^ nt * 8796093022208000)) in H by ring.
    replace (Zpos mt * 8796093022208000 * 2 ^ nt)
      with (Zpos mt * 2 ^ nt * 8796093022208000) in H by ring. exact H. }
  split.
  { pose proof (Z.mul_le_mono_nonneg_r _ _ (2 ^ nt) ltac:(lia) P2) as H.
    replace (2 ^ 52 * (Zpos mt * 8796093022208000 - Zpos my * 2 ^ ky)
             * 2 ^ nt)
      with (2 ^ 52 * (Zpos mt * 2 ^ nt * 8796093022208000
                      - Zpos my * 2 ^ ky * 2 ^ nt)) in H by ring.
    replace (Zpos mt * 8796093022208000 * 2 ^ nt)
      with (Zpos mt * 2 ^ nt * 8796093022208000) in H by ring. exact H. }
  rewrite !Z.pow_add_r in Hfl by lia.
  change (2 ^ 43) with 8796093022208 in Hfl.
  replace (Zpos my * 2 ^ ky * 2 ^ nt) with (Zpos my * (2 ^ nt * 2 ^ ky))
    by ring.
  exact Hfl.
Qed.

(** The conversion of [k] seconds and [u] microseconds without offset,
    [k] not zero: the sum [k + u / 1e6], the product by [1000.0] and the
    truncation. *)
Lemma naive_milliseconds_accurate sx pk u :
  Zpos pk < 2 ^ 39 -> 0 < u < 1000000 ->
  exists n,
    int_of_float
      (float_mul
         (float_add (float_of_int (cond_Zopp sx (Zpos pk)))
            (float_div (float_of_int u) (float_of_int 1000000)))
         (float_of_int 1000))
    = Ok (cond_Zopp sx n)
    /\ 0 <= n
    /\ 1000 * n < 1000000 * Zpos pk + cond_Zopp sx u + 1000
    /\ 1000000 * Zpos pk + cond_Zopp sx u < 1000 * (n + 1) + 1000.
Proof.
  intros Hk Hu. change (2 ^ 39) with 549755813888 in Hk.
  destruct (float_of_int_exact sx pk) as (cS & jS & ES & HjS & HcS & HnS).
  { change (2 ^ 53) with 9007199254740992. lia. }
  destruct (micro_fraction_accurate u Hu)
    as (mF & E & EF & HE & HmF & F1 & F2).
  rewrite ES, EF.
  assert (HD : 0 < 2 ^ E) by (apply Z.pow_pos_nonneg; lia).
  assert (HJS : 0 < 2 ^ jS) by (apply Z.pow_pos_nonneg; lia).
  assert (HDl : 0 < 2 ^ (E - jS)) by (apply Z.pow_pos_nonneg; lia).
  assert (ED : 2 ^ E = 2 ^ jS * 2 ^ (E - jS))
    by (rewrite <- Z.pow_add_r by lia; f_equal; lia).
  assert (HmFD : Zpos mF < 2 ^ E).
  { assert (H : 2 ^ 53 <= 2 ^ E) by (apply Z.pow_le_mono_r; lia). lia. }
  assert (HE72 : 2 ^ E <= 2 ^ 72) by (apply Z.pow_le_mono_r; lia).
  (* the sum before rounding *)
  assert (Esum : float_add (S754_finite sx cS (- jS))
                   (S754_finite false mF (- E))
                 = binary_normalize prec emax
                     (cond_Zopp sx (Zpos pk * 2 ^ E) + Zpos mF) (- E) false).
  { unfold float_add, SFadd.
    replace (Z.min (- jS) (- E)) with (- E) by lia.
    unfold shl_align. replace (- E - - E) with 0 by lia.
    destruct (- E - - jS) as [|dd|dd] eqn:Edd; try lia.
    cbn [fst cond_Zopp]. rewrite iter_xO_pow.
    replace (Zpos dd) with (E - jS) by lia.
    do 3 f_equal. rewrite HcS, ED. ring. }
  rewrite Esum.
  set (P := Zpos pk * 2 ^ E + cond_Zopp sx (Zpos mF)).
  assert (HP : 0 < P < 2 ^ 200).
  { unfold P. change (2 ^ 200) with (2 ^ 128 * 2 ^ 72).
    assert (0 < 2 ^ 128) by reflexivity.
    assert (Zpos pk < 2 ^ 100) by (change (2 ^ 100) with
      1267650600228229401496703205376; lia).
    destruct sx; cbn [cond_Zopp]; nia. }
  assert (Enorm : binary_normalize prec emax
                    (cond_Zopp sx (Zpos pk * 2 ^ E) + Zpos mF) (- E) false
                  = binary_round prec emax sx (Z.to_pos P) (- E)).
  { unfold binary_normalize, P.
    destruct sx; cbn [cond_Zopp] in *.
    - destruct (- (Zpos pk * 2 ^ E) + Zpos mF) as [|p|p] eqn:Ep; try lia.
      replace (Zpos pk * 2 ^ E + - Zpos mF) with (Zpos p) by lia.
      reflexivity.
    - destruct (Zpos pk * 2 ^ E + Zpos mF) as [|p|p] eqn:Ep; try lia.
      reflexivity. }
  rewrite Enorm.
  destruct (binary_round_accurate sx (Z.to_pos P) (- E) ltac:(lia))
    as (mt & nt & jt & Et & Hnt & Hjt & Hmt & T1 & T2).
  { rewrite Z2Pos.id by lia. lia. }
  rewrite Z2Pos.id in T1, T2 by lia. rewrite Et.
  destruct (times_1000_floor sx mt (- E + nt - jt) (E + jt) nt Hmt
              ltac:(lia) ltac:(lia) ltac:(lia) ltac:(lia) ltac:(lia))
    as (n & My & En & Hn & Y1 & Y2 & Hfl).
  exists n. split; [exact En|]. split; [exact Hn|].
  rewrite Z.pow_add_r in Hfl by lia.
  assert (HJ : 0 < 2 ^ jt) by (apply Z.pow_pos_nonneg; lia).
  apply (conversion_chain
           (1000000 * Zpos pk + cond_Zopp sx u) u (2 ^ E) P
           (Zpos mt * 2 ^ nt) (2 ^ jt) My n); try assumption.
  - lia.
  - change (2 ^ 59) with 576460752303423488.
    destruct sx; cbn [cond_Zopp]; lia.
  - lia.
  - unfold P. destruct sx; cbn [cond_Zopp].
    + replace (1000000 * (Zpos pk * 2 ^ E + - Zpos mF)
               - (1000000 * Zpos pk + - u) * 2 ^ E)
        with (u * 2 ^ E - 1000000 * Zpos mF) by ring.
      exact F2.
    + replace (1000000 * (Zpos pk * 2 ^ E + Zpos mF)
               - (1000000 * Zpos pk + u) * 2 ^ E)
        with (1000000 * Zpos mF - u * 2 ^ E) by ring.
      exact F1.
  - unfold P. destruct sx; cbn [cond_Zopp].
    + replace ((1000000 * Zpos pk + - u) * 2 ^ E
               - 1000000 * (Zpos pk * 2 ^ E + - Zpos mF))
        with (1000000 * Zpos mF - u * 2 ^ E) by ring.
      exact F1.
    + replace ((1000000 * Zpos pk + u) * 2 ^ E
               - 1000000 * (Zpos pk * 2 ^ E + Zpos mF))
        with (u * 2 ^ E - 1000000 * Zpos mF) by ring.
      exact F2.
Qed.

(** The same at the epoch second itself, where the sum is the
    fraction. *)
Lemma fraction_milliseconds_accurate u :
  0 < u < 1000000 ->
  exists n,
    int_of_float
      (float_mul
         (float_add (float_of_int 0)
            (float_div (float_of_int u) (float_of_int 1000000)))
         (float_of_int 1000))
    = Ok n
    /\ 0 <= n /\ 1000 * n < u + 1000 /\ u < 1000 * (n + 1) + 1000.
Proof.
  intros Hu.
  destruct (micro_fraction_accurate u Hu)
    as (mF & E & EF & HE & HmF & F1 & F2).
  rewrite EF.
  change (float_add (float_of_int 0) (S754_finite false mF (- E)))
    with (S754_finite false mF (- E)).
  destruct (times_1000_floor false mF (- E) E 0 HmF
              ltac:(lia) ltac:(lia) ltac:(lia) ltac:(lia) ltac:(lia))
    as (n & My & En & Hn & Y1 & Y2 & Hfl).
  exists n. split; [exact En|]. split; [exact Hn|].
  assert (HD : 0 < 2 ^ E) by (apply Z.pow_pos_nonneg; lia).
  change (2 ^ 0) with 1 in Y1, Y2. rewrite Z.mul_1_r in Y1, Y2.
  apply (conversion_chain u u (2 ^ E) (Zpos mF) (Zpos mF) 1 My n);
    try assumption; lia.
Qed.

(** Whole seconds without offset. *)
Lemma whole_seconds_exact k :
  Z.abs k < 2 ^ 43 ->
  int_of_float
    (float_mul
       (float_add (float_of_int k)
          (float_div (float_of_int 0) (float_of_int 1000000)))
       (float_of_int 1000))
  = Ok (1000 * k).
Proof.
  intros Hrange. change (2 ^ 43) with 8796093022208 in Hrange.
  change (float_div (float_of_int 0) (float_of_int 1000000))
    with (S754_zero false).
  assert (Hfin : forall sx m, Zpos m < 8796093022208 ->
            int_of_float
              (float_mul
                 (float_add (float_of_int (cond_Zopp sx (Zpos m)))
                    (S754_zero false))
                 (float_of_int 1000))
            = Ok (cond_Zopp sx (1000 * Zpos m))).
  { intros sx m Hm.
    destruct (float_of_int_exact sx m) as (c & j & E & Hj & Hc & _).
    { change (2 ^ 53) with 9007199254740992. lia. }
    rewrite E. change (float_add (S754_finite sx c (- j)) (S754_zero false))
      with (S754_finite sx c (- j)).
    replace (- j) with (0 - j) by lia.
    apply times_1000_exact; lia. }
  destruct k as [|m|m].
  - reflexivity.
  - exact (Hfin false m ltac:(lia)).
  - exact (Hfin true m ltac:(lia)).
Qed.

Lemma valid_datetime_microsecond dt :
  valid_datetime dt = true -> 0 <= microsecond dt <= 999999.
Proof.
  unfold valid_datetime. rewrite !andb_true_iff, !Z.leb_le.
  intros [[[[[[[[[[[[[[Hy1 Hy2] Hm1] Hm2] Hd1] Hd2] Hh1] Hh2] Hmi1] Hmi2]
                    Hs1] Hs2] Hu1] Hu2] _].
  lia.
Qed.

(** From the two bounds to the truncated quotient. *)
Lemma within_one_millisecond A n :
  0 <= A -> 0 <= n -> 1000 * n < A + 1000 -> A < 1000 * (n + 1) + 1000 ->
  A / 1000 - 1 <= n <= A / 1000 + 1 /\ (A mod 1000 = 0 -> n <= A / 1000).
Proof.
  intros HA Hn H1 H2.
  pose proof (Z.div_mod A 1000 ltac:(lia)) as E.
  pose proof (Z.mod_pos_bound A 1000 ltac:(lia)) as Hr.
  set (F := A / 1000) in *. set (r := A mod 1000) in *.
  split; [lia|]. intros Hr0. lia.
Qed.
Section Accuracy.

Variable fromisoformat : string -> result datetime.
Variable local_to_seconds : Z -> result Z.

Local Abbreviation iso_to_milliseconds :=
  (iso_to_milliseconds fromisoformat local_to_seconds).

(** X18: for a timestamp with an explicit UTC offset the conversion is
    accurate to one millisecond and no better.  With [us] the exact count
    of microseconds since the epoch, the result is within one of [us]
    divided by a thousand and truncated toward zero; when [us] is a whole
    number of milliseconds the result is that number or the one next to
    it toward zero, never one beyond it.  The result has the sign of
    [us], and its distance from [us / 1000] is bounded in proportion:
    the float that is truncated lies within [|us| / 2 ^ 50] microseconds
    of the exact value. *)
Theorem aware_conversion_within_one_millisecond
    (s : string) (dt : datetime) (utcoffset : Z) :
  fromisoformat (strip_Z s) = Ok dt ->
  valid_datetime dt = true ->
  tzinfo dt = Some utcoffset ->
  let us := wall_microseconds dt - utcoffset in
  exists n,
    iso_to_milliseconds (VStr s) = Ok (VInt n)
    /\ Z.abs (n - Z.quot us 1000) <= 1
    /\ (Z.rem us 1000 = 0 -> Z.abs n <= Z.abs (Z.quot us 1000))
    /\ 0 <= n * us
    /\ 2 ^ 50 * (1000 * Z.abs n - Z.abs us) <= Z.abs us
    /\ 2 ^ 50 * (Z.abs us - 1000 * (Z.abs n + 1)) < Z.abs us + 1.
Proof.
  intros Hparse Hv Htz. cbv zeta.
  pose proof (aware_microseconds_bound dt utcoffset Hv Htz) as Hus.
  remember (wall_microseconds dt - utcoffset) as us eqn:Eus.
  assert (Hpos : forall sx p, Zpos p < 2 ^ 58 ->
            exists n,
              int_of_float
                (float_mul
                   (SFdiv prec emax (S754_finite sx p 0) (exact_int 1000000))
                   (float_of_int 1000))
              = Ok (cond_Zopp sx n)
              /\ 0 <= n
              /\ Zpos p / 1000 - 1 <= n <= Zpos p / 1000 + 1
              /\ (Zpos p mod 1000 = 0 -> n <= Zpos p / 1000)
              /\ 2 ^ 50 * (1000 * n - Zpos p) <= Zpos p
              /\ 2 ^ 50 * (Zpos p - 1000 * (n + 1)) < Zpos p).
  { intros sx p Hp.
    destruct (milliseconds_accurate sx p) as (n & En & Hn & H1 & H2).
    { change (2 ^ 58) with 288230376151711744 in Hp.
      change (2 ^ 63) with 9223372036854775808. lia. }
    destruct (truncated_within_one (Zpos p) n ltac:(lia) Hn H1 H2)
      as [Hq Hw].
    exists n. repeat split; try assumption; lia. }
  assert (Hdiv : forall p, 0 <= Zpos p / 1000)
    by (intros p; apply Z.div_pos; lia).
  destruct us as [|p|p].
  - exists 0.
    change (Z.quot 0 1000) with 0. change (Z.rem 0 1000) with 0.
    split; [|lia].
    apply (iso_to_milliseconds_aware _ _ _ dt utcoffset);
      [assumption..|].
    unfold aware_milliseconds. rewrite <- Eus. reflexivity.
  - destruct (Hpos false p ltac:(lia)) as (n & En & Hn & Hq & Hw & H1 & H2).
    exists n. split.
    { apply (iso_to_milliseconds_aware _ _ _ dt utcoffset);
        [assumption..|].
      unfold aware_milliseconds. rewrite <- Eus. exact En. }
    rewrite Z.quot_div_nonneg, Z.rem_mod_nonneg by lia.
    specialize (Hdiv p).
    rewrite (Z.abs_eq n), (Z.abs_eq (Zpos p)), (Z.abs_eq (_ / _)) by lia.
    split; [lia|]. split; [exact Hw|]. split; [lia|]. split; lia.
  - destruct (Hpos true p ltac:(lia)) as (n & En & Hn & Hq & Hw & H1 & H2).
    exists (- n). split.
    { apply (iso_to_milliseconds_aware _ _ _ dt utcoffset);
        [assumption..|].
      unfold aware_milliseconds. rewrite <- Eus. exact En. }
    change (Zneg p) with (- Zpos p).
    rewrite Z.quot_opp_l, Z.rem_opp_l by lia.
    rewrite Z.quot_div_nonneg, Z.rem_mod_nonneg by lia.
    specialize (Hdiv p).
    rewrite !Z.abs_opp.
    rewrite (Z.abs_eq n), (Z.abs_eq (Zpos p)), (Z.abs_eq (_ / _)) by lia.
    split; [lia|]. split; [intros H0; apply Hw; lia|].
    split; [nia|]. split; lia.
Qed.

(** X19: a timestamp with an explicit UTC offset that names a whole number
    of seconds since the epoch converts exactly: the result is that number
    times a thousand, without any rounding. *)
Theorem aware_whole_seconds_convert_exactly
    (s : string) (dt : datetime) (utcoffset k : Z) :
  fromisoformat (strip_Z s) = Ok dt ->
  valid_datetime dt = true ->
  tzinfo dt = Some utcoffset ->
  wall_microseconds dt - utcoffset = 1000000 * k ->
  iso_to_milliseconds (VStr s) = Ok (VInt (1000 * k)).
Proof.
  intros Hparse Hv Htz Hk.
  pose proof (aware_microseconds_bound dt utcoffset Hv Htz) as Hus.
  rewrite Hk in Hus. change (2 ^ 58) with 288230376151711744 in Hus.
  apply (iso_to_milliseconds_aware _ _ _ dt utcoffset); [assumption..|].
  unfold aware_milliseconds, int_truediv. rewrite Hk.
  destruct (Z.lt_trichotomy k 0) as [Hneg|[->|Hpos]].
  - replace (1000000 * k) with (cond_Zopp true (1000000 * (- k)))
      by (cbn [cond_Zopp]; lia).
    rewrite (milliseconds_exact true (- k))
      by (change (2 ^ 43) with 8796093022208; lia).
    cbn [cond_Zopp]. do 2 f_equal. lia.
  - reflexivity.
  - apply (milliseconds_exact false k).
    change (2 ^ 43) with 8796093022208. lia.
Qed.

(** Without offset the conversion consults the host for the seconds and
    adds the fraction. *)
Lemma iso_to_milliseconds_naive s dt k n :
  fromisoformat (strip_Z s) = Ok dt ->
  tzinfo dt = None ->
  local_to_seconds (wall_seconds dt) = Ok k ->
  int_of_float
    (float_mul
       (float_add (float_of_int k)
          (float_div (float_of_int (microsecond dt)) (float_of_int 1000000)))
       (float_of_int 1000))
  = Ok n ->
  iso_to_milliseconds (VStr s) = Ok (VInt n).
Proof.
  intros Hparse Htz Hk Hn.
  unfold iso_to_milliseconds, timestamp.
  rewrite Hparse; cbn [rbind]. rewrite Htz, Hk; cbn [rbind].
  rewrite Hn. reflexivity.
Qed.

(** X20: so does a timestamp without offset and without fractional
    second, the form that is left of a timestamp ending in [Z]: when the
    host places its wall clock [k] seconds from the epoch the result is
    [1000 * k]. *)
Theorem naive_whole_seconds_convert_exactly
    (s : string) (dt : datetime) (k : Z) :
  fromisoformat (strip_Z s) = Ok dt ->
  tzinfo dt = None ->
  microsecond dt = 0 ->
  local_to_seconds (wall_seconds dt) = Ok k ->
  Z.abs k < 2 ^ 43 ->
  iso_to_milliseconds (VStr s) = Ok (VInt (1000 * k)).
Proof.
  intros Hparse Htz Hus Hk Hrange.
  apply (iso_to_milliseconds_naive s dt k); [assumption..|].
  rewrite Hus. apply whole_seconds_exact, Hrange.
Qed.

(** X21: without offset, too, the conversion is accurate to one
    millisecond and no better.  With the host placing the wall clock [k]
    seconds from the epoch and [us] the exact count of microseconds, [k]
    million and the microsecond field, the result is within one of [us]
    divided by a thousand and truncated toward zero; when [us] is a whole
    number of milliseconds the result is that number or the one next to
    it toward zero.  The result never has the sign opposite to [us]. *)
Theorem naive_conversion_within_one_millisecond
    (s : string) (dt : datetime) (k : Z) :
  fromisoformat (strip_Z s) = Ok dt ->
  valid_datetime dt = true ->
  tzinfo dt = None ->
  local_to_seconds (wall_seconds dt) = Ok k ->
  Z.abs k < 2 ^ 39 ->
  let us := 1000000 * k + microsecond dt in
  exists n,
    iso_to_milliseconds (VStr s) = Ok (VInt n)
    /\ Z.abs (n - Z.quot us 1000) <= 1
    /\ (Z.rem us 1000 = 0 -> Z.abs n <= Z.abs (Z.quot us 1000))
    /\ 0 <= n * us.
Proof.
  intros Hparse Hv Htz Hk Hrange. cbv zeta.
  pose proof (valid_datetime_microsecond dt Hv) as Hu.
  change (2 ^ 39) with 549755813888 in Hrange.
  set (u := microsecond dt) in *.
  assert (Hsame : forall A n, 0 <= A -> 0 <= n ->
            1000 * n < A + 1000 -> A < 1000 * (n + 1) + 1000 ->
            Z.abs (n - Z.quot A 1000) <= 1
            /\ (Z.rem A 1000 = 0 -> Z.abs n <= Z.abs (Z.quot A 1000))
            /\ Z.abs (- n - Z.quot (- A) 1000) <= 1
            /\ (Z.rem (- A) 1000 = 0 ->
                Z.abs (- n) <= Z.abs (Z.quot (- A) 1000))).
  { intros A n HA Hn H1 H2.
    destruct (within_one_millisecond A n HA Hn H1 H2) as [Hq Hw].
    pose proof (Z.div_pos A 1000 HA ltac:(lia)) as Hdiv.
    rewrite Z.quot_opp_l, Z.rem_opp_l by lia.
    rewrite Z.quot_div_nonneg, Z.rem_mod_nonneg by lia.
    rewrite !Z.abs_opp, (Z.abs_eq n), (Z.abs_eq (_ / _)) by lia.
    split; [lia|]. split; [exact Hw|]. split; [lia|].
    intros H0. apply Hw. lia. }
  destruct (Z.eq_dec u 0) as [Hu0|Hu0].
  - exists (1000 * k). split.
    { apply (iso_to_milliseconds_naive s dt k); [assumption..|].
      fold u. rewrite Hu0. apply whole_seconds_exact.
      change (2 ^ 43) with 8796093022208. lia. }
    rewrite Hu0, Z.add_0_r.
    replace (1000000 * k) with (1000 * k * 1000) by ring.
    rewrite Z.quot_mul, Z.sub_diag by lia.
    split; [cbn; lia|]. split; [lia|nia].
  - destruct k as [|pk|pk].
    + destruct (fraction_milliseconds_accurate u ltac:(lia))
        as (n & En & Hn & H1 & H2).
      exists n. split.
      { apply (iso_to_milliseconds_naive s dt 0); assumption. }
      change (1000000 * 0 + u) with u.
      destruct (Hsame u n ltac:(lia) Hn H1 H2) as (Hq & Hw & _).
      split; [exact Hq|]. split; [exact Hw|nia].
    + destruct (naive_milliseconds_accurate false pk u)
        as (n & En & Hn & H1 & H2); try lia.
      cbn [cond_Zopp] in En, H1, H2.
      exists n. split.
      { apply (iso_to_milliseconds_naive s dt (Zpos pk)); assumption. }
      destruct (Hsame (1000000 * Zpos pk + u) n ltac:(lia) Hn H1 H2)
        as (Hq & Hw & _).
      split; [exact Hq|]. split; [exact Hw|nia].
    + destruct (naive_milliseconds_accurate true pk u)
        as (n & En & Hn & H1 & H2); try lia.
      cbn [cond_Zopp] in En, H1, H2.
      change (- Zpos pk) with (Zneg pk) in En.
      exists (- n). split.
      { apply (iso_to_milliseconds_naive s dt (Zneg pk)); assumption. }
      destruct (Hsame (1000000 * Zpos pk + - u) n ltac:(lia) Hn H1 H2)
        as (_ & _ & Hq & Hw).
      replace (1000000 * Zneg pk + u) with (- (1000000 * Zpos pk + - u))
        by lia.
      split; [exact Hq|]. split; [exact Hw|nia].
Qed.

End Accuracy.
(** * Concrete runs *)

Module Run.

Import Sample.

Example unify_example :
  unify_utc [textual; numeric] =
  Ok [VDict (<["timestamp" := VInt 500]>
            (<["message" := VStr "a"]>
            (<["value" := VInt 1]>
            (<["source" := VStr "format_1"]>
            (<["metadata" := VDict ∅]> ∅)))));
      VDict (<["timestamp" := VInt 1697380245123]>
            (<["message" := VStr "b"]>
            (<["value" := VInt 2]>
            (<["source" := VStr "format_2"]>
            (<["metadata" := VDict ∅]> ∅)))))].
Proof. vm_compute. reflexivity. Qed.

(** Without an offset the result follows the host's zone. *)
Example naive_depends_on_host :
  iso utc_zone (VStr "2023-10-15T14:30:45.123Z") = Ok (VInt 1697380245123)
  /\ iso (fixed_zone 19800) (VStr "2023-10-15T14:30:45.123Z")
     = Ok (VInt 1697360445123).
Proof. split; vm_compute; reflexivity. Qed.

Example iso_rejects_bad_grammar :
  iso utc_zone (VStr "2023-10-15Tbad")
  = Raise (ValueError "Invalid ISO timestamp format: 2023-10-15Tbad").
Proof. vm_compute. reflexivity. Qed.

(** Splits a [Forall] over an explicit list into one goal per element. *)
Ltac each_element :=
  repeat first [apply List.Forall_nil | apply List.Forall_cons].

Lemma integer_stamped_numeric : integer_stamped numeric.
Proof. left. exists 500. reflexivity. Defined.

Lemma integer_stamped_textual : integer_stamped textual.
Proof. right. reflexivity. Defined.

Lemma terminal_accepts ls : accepted terminal ls.
Proof. apply Forall_forall. intros l _. reflexivity. Defined.

(** Replaces the list [t] of the goal by its value. *)
Ltac evaluate t :=
  let v := eval vm_compute in t in
  let H := fresh in
  assert (H : t = v) by (vm_compute; reflexivity);
  rewrite H; clear H.

(** Proves [accepted], [refused] and [pairwise_comparable] of numbers on
    explicit records by running the definitions: the lines or the records
    are computed first, then each one is checked. *)
Ltac by_evaluation :=
  lazymatch goal with
  | |- accepted _ ?ls =>
      unfold accepted; evaluate ls; each_element; reflexivity
  | |- pairwise_comparable ?l =>
      apply pairwise_comparable_numbers; evaluate l; each_element;
      do 2 eexists; split; reflexivity
  | |- _ = _ => vm_compute; reflexivity
  end.

(** *** C1 *)

(** A record that is passed through with a string as its timestamp makes
    the sort compare a string with an integer: [unify] raises. *)
Lemma unify_raises_on_mixed_timestamps :
  is_ok (normalize_utc (VDict not_a_date)) = true
  /\ is_ok (normalize_utc numeric) = true
  /\ unify_utc [VDict not_a_date; numeric] = Raise TypeError.
Proof. repeat split; vm_compute; reflexivity. Qed.

(** On a terminal in ASCII the line of a rejected record with an accented
    letter is refused: the exception of [print] leaves [unify], which
    returns on a terminal that shows the line. *)
Example unify_raises_on_refused_line :
  integer_stamped accented
  /\ unify fromisoformat_v37 utc_zone ascii_terminal [accented; numeric]
     = Raise (ValueError "'ascii' codec can't encode character")
  /\ unify_utc [accented; numeric] = unify_utc [numeric].
Proof. split; [right; reflexivity|]. split; vm_compute; reflexivity. Qed.

Lemma unify_catches_record_failures_witness :
  (not_a_date !! "timestamp" = Some (VStr "not-a-date")
   /\ str_in "T" "not-a-date" = false
   /\ str_in "Z" "not-a-date" = false
   /\ unify_utc [VDict not_a_date] = Ok [VDict (canonical_1 not_a_date)])
  /\ (accepted ascii_terminal
        (printed fromisoformat_v37 utc_zone [numeric; VInt 3; textual])
      /\ normalize_utc (VInt 3) = Raise AttributeError
      /\ unify fromisoformat_v37 utc_zone ascii_terminal
           [numeric; VInt 3; textual]
         = unify fromisoformat_v37 utc_zone ascii_terminal
             [numeric; textual])
  /\ (pairwise_comparable
        (collected fromisoformat_v37 utc_zone [numeric; VInt 3; textual])
      /\ exists out,
           unify fromisoformat_v37 utc_zone ascii_terminal
             [numeric; VInt 3; textual] = Ok out
           /\ Permutation
                (collected fromisoformat_v37 utc_zone
                   [numeric; VInt 3; textual]) out)
  /\ (accepted terminal
        (printed fromisoformat_v37 utc_zone [VInt 3; VNone])
      /\ Forall (fun r => is_ok (normalize_utc r) = false) [VInt 3; VNone]
      /\ unify_utc [VInt 3; VNone] = Ok [])
  /\ (refused ascii_terminal
        (printed fromisoformat_v37 utc_zone [accented; numeric])
      = Some (ValueError "'ascii' codec can't encode character")
      /\ unify fromisoformat_v37 utc_zone ascii_terminal [accented; numeric]
         = Raise (ValueError "'ascii' codec can't encode character")).
Proof.
  assert (H1 : not_a_date !! "timestamp" = Some (VStr "not-a-date"))
    by reflexivity.
  assert (H2 : normalize_utc (VInt 3) = Raise AttributeError) by reflexivity.
  assert (H3 : accepted ascii_terminal
                 (printed fromisoformat_v37 utc_zone
                    [numeric; VInt 3; textual])) by by_evaluation.
  assert (H4 : Forall (fun r => is_ok (normalize_utc r) = false)
                 [VInt 3; VNone]) by (each_element; reflexivity).
  assert (H5 : pairwise_comparable
                 (collected fromisoformat_v37 utc_zone
                    [numeric; VInt 3; textual])) by by_evaluation.
  assert (H6 : refused ascii_terminal
                 (printed fromisoformat_v37 utc_zone [accented; numeric])
               = Some (ValueError "'ascii' codec can't encode character"))
    by by_evaluation.
  destruct (unify_catches_record_failures fromisoformat_v37 utc_zone
              ascii_terminal [numeric; VInt 3; textual])
    as (_ & Hacc & _ & Hpass).
  destruct (Hacc H3) as (Hskip & _ & Hcmp).
  destruct (unify_catches_record_failures fromisoformat_v37 utc_zone
              terminal [VInt 3; VNone]) as (_ & Hacc' & _).
  destruct (Hacc' (terminal_accepts _)) as (_ & Hnone & _).
  destruct (unify_catches_record_failures fromisoformat_v37 utc_zone
              ascii_terminal [accented; numeric]) as (_ & _ & Href & _).
  destruct (unify_catches_record_failures fromisoformat_v37 utc_zone
              terminal [VDict not_a_date]) as (_ & _ & _ & Hpass').
  split.
  { split; [exact H1|]. split; [reflexivity|]. split; [reflexivity|].
    apply (Hpass' not_a_date "not-a-date" H1); reflexivity. }
  split.
  { split; [exact H3|]. split; [exact H2|].
    exact (Hskip [numeric] (VInt 3) [textual] AttributeError eq_refl H2). }
  split.
  { split; [exact H5|exact (Hcmp H5)]. }
  split.
  { split; [apply terminal_accepts|]. split; [exact H4|exact (Hnone H4)]. }
  split; [exact H6|exact (Href _ H6)].
Defined.

(** Records whose timestamps are all strings are sorted by the text. *)
Example unify_sorts_strings :
  pairwise_comparable
    (collected fromisoformat_v37 utc_zone
       [VDict not_a_date; VDict {[ "timestamp" := VStr "later" ]};
        VDict {[ "timestamp" := VStr "earlier" ]}])
  /\ unify_utc [VDict not_a_date; VDict {[ "timestamp" := VStr "later" ]};
                VDict {[ "timestamp" := VStr "earlier" ]}]
     = Ok [VDict (canonical_1 {[ "timestamp" := VStr "earlier" ]});
           VDict (canonical_1 {[ "timestamp" := VStr "later" ]});
           VDict (canonical_1 not_a_date)].
Proof.
  split; [|vm_compute; reflexivity].
  apply pairwise_comparable_strings. each_element; eexists; reflexivity.
Qed.

(** *** C2 *)

(** A record without a timestamp comes out with a null one. *)
Lemma unify_outputs_null_timestamp :
  unify_utc [VDict {[ "message" := VStr "x" ]}]
  = Ok [VDict (canonical_1 {[ "message" := VStr "x" ]})]
  /\ timestamp_key (VDict (canonical_1 {[ "message" := VStr "x" ]}))
     = Ok VNone.
Proof. split; vm_compute; reflexivity. Qed.

Lemma unify_sorted_stable_witness :
  accepted ascii_terminal
    (printed fromisoformat_v37 utc_zone [textual; VInt 3; numeric; numeric])
  /\ Forall integer_stamped [textual; VInt 3; numeric; numeric]
  /\ exists out,
       unify fromisoformat_v37 utc_zone ascii_terminal
         [textual; VInt 3; numeric; numeric] = Ok out
       /\ Forall has_int_timestamp out
       /\ StronglySorted timestamp_le out
       /\ Permutation
            (collected fromisoformat_v37 utc_zone
               [textual; VInt 3; numeric; numeric])
            out
       /\ forall t, List.filter (timestamp_is t) out
                    = List.filter (timestamp_is t)
                        (collected fromisoformat_v37 utc_zone
                           [textual; VInt 3; numeric; numeric]).
Proof.
  assert (H0 : accepted ascii_terminal
                 (printed fromisoformat_v37 utc_zone
                    [textual; VInt 3; numeric; numeric])) by by_evaluation.
  assert (H : Forall integer_stamped [textual; VInt 3; numeric; numeric]).
  { each_element;
      [exact integer_stamped_textual|exact I
      |exact integer_stamped_numeric..]. }
  split; [exact H0|]. split; [exact H|].
  exact (unify_sorted_stable fromisoformat_v37 utc_zone ascii_terminal
           _ H0 H).
Defined.

(** *** C3 *)

Lemma iso_to_milliseconds_rejects_number :
  isinstance_int_float (VInt 1000) = true
  /\ iso utc_zone (VInt 1000) = Raise AttributeError
  /\ isinstance_int_float (VFloat (float_of_int 1000)) = true
  /\ iso utc_zone (VFloat (float_of_int 1000)) = Raise AttributeError.
Proof. repeat split. Qed.

Lemma numeric_timestamp_unchanged_witness :
  ({[ "timestamp" := VInt 1000 ]} : gmap string value) !! "timestamp"
  = Some (VInt 1000)
  /\ isinstance_int_float (VInt 1000) = true
  /\ iso utc_zone (VInt 1000) = Raise AttributeError
  /\ detect_data_format (VDict {[ "timestamp" := VInt 1000 ]})
     = Ok "format_1"
  /\ normalize_utc (VDict {[ "timestamp" := VInt 1000 ]})
     = normalize_data_format_1 (VDict {[ "timestamp" := VInt 1000 ]})
  /\ exists out,
       normalize_data_format_1 (VDict {[ "timestamp" := VInt 1000 ]})
       = Ok (VDict out)
       /\ out !! "timestamp" = Some (VInt 1000).
Proof.
  split; [reflexivity|]. split; [reflexivity|].
  exact (numeric_timestamp_unchanged fromisoformat_v37 utc_zone
           {[ "timestamp" := VInt 1000 ]} (VInt 1000) eq_refl eq_refl).
Defined.

(** *** C4 *)

Lemma detect_data_format_total_witness :
  exists tag,
    detect_data_format (VDict bad_grammar) = Ok tag
    /\ (tag = "format_1" \/ tag = "format_2")
    /\ (isinstance_int_float (timestamp_field bad_grammar) = true
        -> tag = "format_1")
    /\ (tag = "format_2" <->
        exists s, timestamp_field bad_grammar = VStr s
                  /\ (has_char "T" s \/ has_char "Z" s)).
Proof. exact (detect_data_format_total bad_grammar). Defined.

(** *** C5 *)

(** Beside the rejected record two records without a timestamp normalize,
    and the sort of their null timestamps raises: there is no output. *)
Lemma unify_raises_beside_rejected_record :
  timestamp_field bad_grammar = VStr "2023-10-15Tbad"
  /\ str_in "T" "2023-10-15Tbad" = true
  /\ is_ok (fromisoformat_v37 (strip_Z "2023-10-15Tbad")) = false
  /\ Forall (fun r => is_ok (normalize_utc r) = true) [VDict ∅; VDict ∅]
  /\ unify_utc [VDict bad_grammar; VDict ∅; VDict ∅] = Raise TypeError.
Proof. repeat split; each_element; reflexivity. Qed.

Lemma unify_skips_rejected_record_witness :
  timestamp_field bad_grammar = VStr "2023-10-15Tbad"
  /\ str_in "T" "2023-10-15Tbad" = true
  /\ is_ok (fromisoformat_v37 (strip_Z "2023-10-15Tbad")) = false
  /\ Forall (fun r => is_ok (normalize_utc r) = true)
       ([numeric] ++ [stamped half; stamped (VBool true)])
  /\ accepted ascii_terminal
       (printed fromisoformat_v37 utc_zone [VDict bad_grammar])
  /\ pairwise_comparable
       (collected fromisoformat_v37 utc_zone
          ([numeric] ++ [stamped half; stamped (VBool true)]))
  /\ exists out,
       unify fromisoformat_v37 utc_zone ascii_terminal
         ([numeric] ++ VDict bad_grammar
                       :: [stamped half; stamped (VBool true)]) = Ok out
       /\ length out
          = (length ([numeric] ++ VDict bad_grammar
                                 :: [stamped half; stamped (VBool true)])
             - 1)%nat
       /\ Permutation
            (collected fromisoformat_v37 utc_zone
               ([numeric] ++ [stamped half; stamped (VBool true)]))
            out.
Proof.
  assert (H1 : timestamp_field bad_grammar = VStr "2023-10-15Tbad")
    by reflexivity.
  assert (H2 : str_in "T" "2023-10-15Tbad" = true) by reflexivity.
  assert (H3 : is_ok (fromisoformat_v37 (strip_Z "2023-10-15Tbad")) = false)
    by reflexivity.
  assert (H4 : Forall (fun r => is_ok (normalize_utc r) = true)
                 ([numeric] ++ [stamped half; stamped (VBool true)])).
  { cbn [app]. each_element; vm_compute; reflexivity. }
  assert (H5 : accepted ascii_terminal
                 (printed fromisoformat_v37 utc_zone [VDict bad_grammar]))
    by by_evaluation.
  assert (H6 : pairwise_comparable
                 (collected fromisoformat_v37 utc_zone
                    ([numeric] ++ [stamped half; stamped (VBool true)])))
    by by_evaluation.
  repeat (split; [assumption|]).
  exact (unify_skips_rejected_record fromisoformat_v37 utc_zone
           ascii_terminal [numeric] [stamped half; stamped (VBool true)]
           bad_grammar "2023-10-15Tbad" H1 H2 H3 H4 H5 H6).
Defined.

(** *** C6 *)

Lemma canonical_is_canonical_shaped t msg : canonical_shaped (VDict (canonical t msg)).
Proof.
  exists (canonical t msg), t. split; [reflexivity|]. split; [|reflexivity].
  unfold canonical, canonical_keys. rewrite !dom_insert_L, dom_empty_L.
  set_solver.
Defined.

Lemma unify_idempotent_on_canonical_witness :
  Forall canonical_shaped
    [VDict (canonical 100 "a"); VDict (canonical 200 "b")]
  /\ StronglySorted timestamp_le
       [VDict (canonical 100 "a"); VDict (canonical 200 "b")]
  /\ unify_utc [VDict (canonical 100 "a"); VDict (canonical 200 "b")]
     = Ok (map retag [VDict (canonical 100 "a"); VDict (canonical 200 "b")])
  /\ unify_utc
       (map retag [VDict (canonical 100 "a"); VDict (canonical 200 "b")])
     = Ok (map retag [VDict (canonical 100 "a"); VDict (canonical 200 "b")]).
Proof.
  assert (H1 : Forall canonical_shaped
                 [VDict (canonical 100 "a"); VDict (canonical 200 "b")])
    by (each_element; apply canonical_is_canonical_shaped).
  assert (H2 : StronglySorted timestamp_le
                 [VDict (canonical 100 "a"); VDict (canonical 200 "b")]).
  { apply SSorted_cons; [apply SSorted_cons; [apply SSorted_nil|]|];
      each_element. vm_compute. discriminate. }
  split; [exact H1|]. split; [exact H2|].
  exact (unify_idempotent_on_canonical fromisoformat_v37 utc_zone terminal
           _ H1 H2).
Defined.

(** *** C7 *)

Lemma iso_to_milliseconds_host_independent_witness :
  fromisoformat_v37 (strip_Z "2023-10-15T14:30:45.123+02:00") = Ok with_offset
  /\ valid_datetime with_offset = true
  /\ tzinfo with_offset = Some 7200000000
  /\ exists n,
       aware_milliseconds with_offset 7200000000 = Ok n
       /\ iso utc_zone (VStr "2023-10-15T14:30:45.123+02:00") = Ok (VInt n)
       /\ iso (fixed_zone 19800) (VStr "2023-10-15T14:30:45.123+02:00")
          = Ok (VInt n).
Proof.
  assert (H1 : fromisoformat_v37 (strip_Z "2023-10-15T14:30:45.123+02:00")
               = Ok with_offset) by (vm_compute; reflexivity).
  split; [exact H1|]. split; [reflexivity|]. split; [reflexivity|].
  exact (iso_to_milliseconds_host_independent fromisoformat_v37
           utc_zone (fixed_zone 19800) _ _ _ H1 eq_refl eq_refl).
Defined.

Example aware_example :
  iso utc_zone (VStr "2023-10-15T14:30:45.123+02:00") = Ok (VInt 1697373045123).
Proof. vm_compute. reflexivity. Qed.

(** *** C8 *)

Lemma unify_data_frame_witness :
  data_list later = data_list (call __init__ [textual; VInt 3; numeric])
  /\ self (snd (unify_data fromisoformat_v37 utc_zone terminal
                  (call __init__ [textual; VInt 3; numeric])))
     = __init__
  /\ data_list (snd (unify_data fromisoformat_v37 utc_zone terminal
                       (call __init__ [textual; VInt 3; numeric])))
     = [textual; VInt 3; numeric]
  /\ fst (unify_data fromisoformat_v37 utc_zone terminal later)
     = fst (unify_data fromisoformat_v37 utc_zone terminal
              (call __init__ [textual; VInt 3; numeric])).
Proof.
  destruct (unify_data_frame fromisoformat_v37 utc_zone terminal
              (call __init__ [textual; VInt 3; numeric]))
    as (Hself & Hlist & _ & Hsame).
  split; [reflexivity|]. split; [exact Hself|]. split; [exact Hlist|].
  exact (Hsame later eq_refl).
Defined.

(** *** C9 *)

Lemma time_only_record_loses_timestamp_witness :
  ({[ "time" := VInt 1000 ]} : gmap string value) !! "timestamp" = None
  /\ ({[ "time" := VInt 1000 ]} : gmap string value) !! "time"
     = Some (VInt 1000)
  /\ isinstance_int_float (VInt 1000) = true
  /\ detect_data_format (VDict {[ "time" := VInt 1000 ]}) = Ok "format_1"
  /\ normalize_utc (VDict {[ "time" := VInt 1000 ]})
     = Ok (VDict (canonical_1 {[ "time" := VInt 1000 ]}))
  /\ canonical_1 {[ "time" := VInt 1000 ]} !! "timestamp" = Some VNone
  /\ canonical_1 {[ "time" := VInt 1000 ]} !! "time" = None
  /\ normalize_data_format_1 (VDict (delete "time" {[ "time" := VInt 1000 ]}))
     = normalize_data_format_1 (VDict {[ "time" := VInt 1000 ]}).
Proof.
  split; [reflexivity|]. split; [reflexivity|]. split; [reflexivity|].
  exact (time_only_record_loses_timestamp fromisoformat_v37 utc_zone
           {[ "time" := VInt 1000 ]} (VInt 1000) eq_refl eq_refl eq_refl).
Defined.

(** *** C10 *)

Lemma boolean_timestamp_passes_through_witness :
  ({[ "timestamp" := VBool true ]} : gmap string value) !! "timestamp"
  = Some (VBool true)
  /\ isinstance_int_float (VBool true) = true
  /\ detect_data_format (VDict {[ "timestamp" := VBool true ]})
     = Ok "format_1"
  /\ normalize_utc (VDict {[ "timestamp" := VBool true ]})
     = Ok (VDict (canonical_1 {[ "timestamp" := VBool true ]}))
  /\ canonical_1 {[ "timestamp" := VBool true ]} !! "timestamp"
     = Some (VBool true).
Proof.
  split; [reflexivity|].
  exact (boolean_timestamp_passes_through fromisoformat_v37 utc_zone
           {[ "timestamp" := VBool true ]} true eq_refl).
Defined.

(** Numbers of the three numeric types are ordered by value. *)
Example unify_mixed_numbers :
  unify_utc [VDict {[ "timestamp" := VBool true ]};
             VDict {[ "timestamp" := VFloat (int_truediv 1 2) ]};
             VDict {[ "timestamp" := VInt 0 ]}]
  = Ok [VDict (canonical_1 {[ "timestamp" := VInt 0 ]});
        VDict (canonical_1 {[ "timestamp" := VFloat (int_truediv 1 2) ]});
        VDict (canonical_1 {[ "timestamp" := VBool true ]})].
Proof. vm_compute. reflexivity. Qed.

Example unify_boolean_timestamp :
  unify_utc [VDict {[ "timestamp" := VBool true ]}]
  = Ok [VDict (canonical_1 {[ "timestamp" := VBool true ]})].
Proof. vm_compute. reflexivity. Qed.

(** *** Further properties *)

Definition load_sample : string -> string -> W (list value) :=
  load_and_unify_from_files fromisoformat_v37 utc_zone terminal files
    __init__.

Ltac by_computation := vm_compute; reflexivity.

Ltac distinct :=
  vm_compute;
  repeat (apply NoDup_cons_2;
          [rewrite ?elem_of_cons, elem_of_nil; intuition congruence|]);
  apply NoDup_nil_2.

Lemma unify_output_schema_witness :
  unify_utc [textual; VInt 3; numeric]
  = Ok (omap (fun x => match normalize_utc x with
                       | Ok v => Some v
                       | Raise _ => None
                       end) [numeric; textual])
  /\ Forall canonical_record
       (omap (fun x => match normalize_utc x with
                       | Ok v => Some v
                       | Raise _ => None
                       end) [numeric; textual]).
Proof.
  assert (H : unify_utc [textual; VInt 3; numeric]
              = Ok (omap (fun x => match normalize_utc x with
                                   | Ok v => Some v
                                   | Raise _ => None
                                   end) [numeric; textual]))
    by by_computation.
  split; [exact H|].
  exact (unify_output_schema fromisoformat_v37 utc_zone terminal _ _ H).
Defined.

Lemma unify_data_prints_witness :
  data_list later = [textual] ++ VInt 3 :: [numeric]
  /\ normalize_utc (VInt 3) = Raise AttributeError
  /\ accepted ascii_terminal
       (printed fromisoformat_v37 utc_zone (data_list later))
  /\ stdout (snd (unify_data fromisoformat_v37 utc_zone ascii_terminal later))
     = [Error KeyError; ErrorProcessing (VInt 3); Error AttributeError]
  /\ printed fromisoformat_v37 utc_zone (data_list later)
     = printed fromisoformat_v37 utc_zone [textual]
       ++ [ErrorProcessing (VInt 3); Error AttributeError]
       ++ printed fromisoformat_v37 utc_zone [numeric]
  /\ refused ascii_terminal
       (printed fromisoformat_v37 utc_zone
          (data_list (call __init__ [VInt 3; accented; numeric])))
     = Some (ValueError "'ascii' codec can't encode character")
  /\ fst (unify_data fromisoformat_v37 utc_zone ascii_terminal
            (call __init__ [VInt 3; accented; numeric]))
     = Raise (ValueError "'ascii' codec can't encode character")
  /\ stdout (snd (unify_data fromisoformat_v37 utc_zone ascii_terminal
                    (call __init__ [VInt 3; accented; numeric])))
     = [ErrorProcessing (VInt 3); Error AttributeError].
Proof.
  assert (H1 : accepted ascii_terminal
                 (printed fromisoformat_v37 utc_zone (data_list later)))
    by by_evaluation.
  assert (H2 : refused ascii_terminal
                 (printed fromisoformat_v37 utc_zone
                    (data_list (call __init__ [VInt 3; accented; numeric])))
               = Some (ValueError "'ascii' codec can't encode character"))
    by by_evaluation.
  destruct (unify_data_prints fromisoformat_v37 utc_zone ascii_terminal later)
    as (_ & _ & Hacc & _ & _ & Hline).
  destruct (Hacc H1) as [Hout _].
  destruct (unify_data_prints fromisoformat_v37 utc_zone ascii_terminal
              (call __init__ [VInt 3; accented; numeric]))
    as (Hshown & _ & _ & Href & _).
  split; [reflexivity|]. split; [reflexivity|]. split; [exact H1|]. split.
  { rewrite Hout. by_computation. }
  split.
  { exact (Hline [textual] (VInt 3) [numeric] AttributeError
             eq_refl eq_refl). }
  split; [exact H2|]. split; [exact (Href _ H2)|].
  rewrite Hshown. by_computation.
Defined.

Lemma unify_order_independent_witness :
  Permutation [VInt 3; textual; numeric] [VInt 3; numeric; textual]
  /\ accepted ascii_terminal
       (printed fromisoformat_v37 utc_zone [VInt 3; textual; numeric])
  /\ Forall integer_stamped [VInt 3; textual; numeric]
  /\ NoDup (map int_timestamp
              (collected fromisoformat_v37 utc_zone
                 [VInt 3; textual; numeric]))
  /\ exists out,
       unify fromisoformat_v37 utc_zone ascii_terminal
         [VInt 3; textual; numeric] = Ok out
       /\ unify fromisoformat_v37 utc_zone ascii_terminal
            [VInt 3; numeric; textual] = Ok out.
Proof.
  assert (H1 : Permutation [VInt 3; textual; numeric]
                 [VInt 3; numeric; textual])
    by apply perm_skip, perm_swap.
  assert (H0 : accepted ascii_terminal
                 (printed fromisoformat_v37 utc_zone
                    [VInt 3; textual; numeric])) by by_evaluation.
  assert (H2 : Forall integer_stamped [VInt 3; textual; numeric]).
  { each_element;
      [exact I|exact integer_stamped_textual|exact integer_stamped_numeric]. }
  assert (H3 : NoDup (map int_timestamp
                        (collected fromisoformat_v37 utc_zone
                           [VInt 3; textual; numeric]))).
  { distinct. }
  split; [exact H1|]. split; [exact H0|]. split; [exact H2|].
  split; [exact H3|].
  exact (unify_order_independent fromisoformat_v37 utc_zone ascii_terminal
           _ _ H1 H0 H2 H3).
Defined.

Lemma unify_idempotent_on_output_witness :
  accepted ascii_terminal
    (printed fromisoformat_v37 utc_zone [textual; VInt 3; numeric])
  /\ Forall integer_stamped [textual; VInt 3; numeric]
  /\ exists out,
       unify fromisoformat_v37 utc_zone ascii_terminal
         [textual; VInt 3; numeric] = Ok out
       /\ unify fromisoformat_v37 utc_zone ascii_terminal out
          = Ok (map retag out)
       /\ unify fromisoformat_v37 utc_zone ascii_terminal (map retag out)
          = Ok (map retag out).
Proof.
  assert (H0 : accepted ascii_terminal
                 (printed fromisoformat_v37 utc_zone
                    [textual; VInt 3; numeric])) by by_evaluation.
  assert (H : Forall integer_stamped [textual; VInt 3; numeric]).
  { each_element;
      [exact integer_stamped_textual|exact I|exact integer_stamped_numeric]. }
  split; [exact H0|]. split; [exact H|].
  exact (unify_idempotent_on_output fromisoformat_v37 utc_zone ascii_terminal
           _ H0 H).
Defined.

Lemma skipped_entry_reasons_witness :
  normalize_utc (VDict bad_grammar)
  = Raise (ValueError "Invalid ISO timestamp format: 2023-10-15Tbad")
  /\ (((forall d, VDict bad_grammar <> VDict d)
       /\ ValueError "Invalid ISO timestamp format: 2023-10-15Tbad"
          = AttributeError)
      \/ exists d s,
           VDict bad_grammar = VDict d
           /\ timestamp_field d = VStr s
           /\ (str_in "T" s || str_in "Z" s) = true
           /\ (ValueError "Invalid ISO timestamp format: 2023-10-15Tbad"
               = ValueError
                   ("Invalid ISO timestamp format: " ++ strip_Z s)%string
               \/ is_ValueError
                    (ValueError
                       "Invalid ISO timestamp format: 2023-10-15Tbad")
                  = false)).
Proof.
  assert (H : normalize_utc (VDict bad_grammar)
              = Raise (ValueError
                         "Invalid ISO timestamp format: 2023-10-15Tbad"))
    by by_computation.
  split; [exact H|].
  exact (skipped_entry_reasons fromisoformat_v37 utc_zone _ _ H).
Defined.

Lemma trailing_Z_is_ignored_witness :
  endswith "2023-10-15T14:30:45.123" "Z" = false
  /\ iso (fixed_zone 19800) (VStr ("2023-10-15T14:30:45.123" ++ "Z")%string)
     = iso (fixed_zone 19800) (VStr "2023-10-15T14:30:45.123").
Proof.
  split; [reflexivity|].
  exact (trailing_Z_is_ignored fromisoformat_v37 (fixed_zone 19800)
           "2023-10-15T14:30:45.123" eq_refl).
Defined.

Lemma alias_is_ignored_witness :
  ("msg", "message") ∈ alias_pairs
  /\ detect_data_format (VDict numeric_alias) = Ok "format_1"
  /\ normalize_utc (VDict (delete "msg" numeric_alias))
     = normalize_utc (VDict numeric_alias).
Proof.
  assert (H1 : ("msg", "message") ∈ alias_pairs) by (left).
  assert (H2 : detect_data_format (VDict numeric_alias) = Ok "format_1")
    by reflexivity.
  split; [exact H1|]. split; [exact H2|].
  exact (alias_is_ignored fromisoformat_v37 utc_zone numeric_alias
           "msg" "message" H1 (or_intror H2)).
Defined.

Lemma alias_stands_for_field_witness :
  ("val", "value") ∈ alias_pairs
  /\ textual_bare !! "val" = None
  /\ textual_bare !! "value" = None
  /\ detect_data_format (VDict textual_bare) = Ok "format_2"
  /\ normalize_utc (VDict (<["val" := VInt 2]> textual_bare))
     = normalize_utc (VDict (<["value" := VInt 2]> textual_bare)).
Proof.
  assert (H1 : ("val", "value") ∈ alias_pairs) by (right; left).
  split; [exact H1|]. split; [reflexivity|]. split; [reflexivity|].
  split; [reflexivity|].
  exact (proj1 (alias_stands_for_field fromisoformat_v37 utc_zone
                  textual_bare "val" "value" (VInt 2)
                  H1 eq_refl eq_refl eq_refl)).
Defined.

Lemma normalize_reads_eight_keys_witness :
  (forall k, k ∈ read_keys ->
     (<["source" := VStr "sensor"]> numeric_alias) !! k = numeric_alias !! k)
  /\ normalize_utc (VDict (<["source" := VStr "sensor"]> numeric_alias))
     = normalize_utc (VDict numeric_alias).
Proof.
  assert (H : forall k, k ∈ read_keys ->
            (<["source" := VStr "sensor"]> numeric_alias) !! k
            = numeric_alias !! k).
  { intros k Hk. apply lookup_insert_ne. intros <-.
    unfold read_keys in Hk. rewrite !elem_of_cons, elem_of_nil in Hk.
    intuition discriminate. }
  split; [exact H|].
  exact (normalize_reads_eight_keys fromisoformat_v37 utc_zone _ _ H).
Defined.






Lemma load_object_as_singleton_witness :
  (forall entries, textual <> VList entries)
  /\ files "data-2.json" = Content textual
  /\ files_array "data-2.json" = Content (VList [textual])
  /\ files "data-1.json" = files_array "data-1.json"
  /\ load_sample "data-2.json" "data-1.json" blank
     = load_and_unify_from_files fromisoformat_v37 utc_zone terminal
         files_array __init__ "data-2.json" "data-1.json" blank.
Proof.
  assert (H : forall entries, textual <> VList entries)
    by (intros entries; discriminate).
  split; [exact H|]. split; [reflexivity|]. split; [reflexivity|].
  split; [reflexivity|].
  exact (load_object_as_singleton fromisoformat_v37 utc_zone terminal files
           files_array __init__ "data-2.json" "data-1.json" blank textual
           H eq_refl eq_refl eq_refl).
Defined.

Lemma main_saves_what_unify_returns_witness :
  readable (files "data-1.json") = true
  /\ readable (files "data-2.json") = true
  /\ fst (main fromisoformat_v37 utc_zone terminal files disk blank) = Ok tt
  /\ written (snd (main fromisoformat_v37 utc_zone terminal files disk blank))
     = [("data-result.json",
         omap (fun x => match normalize_utc x with
                        | Ok v => Some v
                        | Raise _ => None
                        end) [numeric; textual])]
  /\ written
       (snd (main fromisoformat_v37 utc_zone terminal files disk_full blank))
     = [].
Proof.
  split; [reflexivity|]. split; [reflexivity|].
  pose proof (main_saves_what_unify_returns fromisoformat_v37 utc_zone
                terminal files disk blank eq_refl eq_refl) as Hdisk.
  pose proof (main_saves_what_unify_returns fromisoformat_v37 utc_zone
                terminal files disk_full blank eq_refl eq_refl) as Hfull.
  cbv zeta in Hdisk, Hfull.
  change (entries_of (files "data-1.json") ++ entries_of (files "data-2.json"))
    with [numeric; VInt 3; textual] in Hdisk, Hfull.
  assert (Hout : unify fromisoformat_v37 utc_zone terminal
                   [numeric; VInt 3; textual]
                 = Ok (omap (fun x => match normalize_utc x with
                                      | Ok v => Some v
                                      | Raise _ => None
                                      end) [numeric; textual]))
    by by_computation.
  rewrite Hout in Hdisk, Hfull.
  destruct Hdisk as (Hres & Hwr & _). destruct Hfull as (_ & Hwr' & _).
  split; [exact Hres|]. split; [exact Hwr|exact Hwr'].
Defined.

Lemma unify_sorts_numbers_witness :
  accepted ascii_terminal
    (printed fromisoformat_v37 utc_zone
       [stamped (VInt 2); VNone; stamped (VBool true); stamped half;
        stamped (VInt 1)])
  /\ Forall number_stamped
       [stamped (VInt 2); VNone; stamped (VBool true); stamped half;
        stamped (VInt 1)]
  /\ unify fromisoformat_v37 utc_zone ascii_terminal
       [stamped (VInt 2); VNone; stamped (VBool true); stamped half;
        stamped (VInt 1)]
     = Ok (omap (fun x => match normalize_utc x with
                          | Ok v => Some v
                          | Raise _ => None
                          end)
             [stamped half; stamped (VBool true); stamped (VInt 1);
              stamped (VInt 2)])
  /\ exists out,
       unify fromisoformat_v37 utc_zone ascii_terminal
         [stamped (VInt 2); VNone; stamped (VBool true); stamped half;
          stamped (VInt 1)] = Ok out
       /\ StronglySorted timestamp_number_le out.
Proof.
  assert (H0 : accepted ascii_terminal
                 (printed fromisoformat_v37 utc_zone
                    [stamped (VInt 2); VNone; stamped (VBool true);
                     stamped half; stamped (VInt 1)])) by by_evaluation.
  assert (H : Forall number_stamped
                [stamped (VInt 2); VNone; stamped (VBool true); stamped half;
                 stamped (VInt 1)]).
  { each_element;
      first [exact I
            |left; eexists _, _;
             split; [vm_compute; reflexivity|];
             split; [vm_compute; reflexivity|discriminate]]. }
  split; [exact H0|]. split; [exact H|]. split; [by_computation|].
  destruct (unify_sorts_numbers fromisoformat_v37 utc_zone ascii_terminal
              _ H0 H)
    as (out & Hout & _ & Hs & _).
  exists out. split; [exact Hout|exact Hs].
Defined.

Lemma aware_conversion_within_one_millisecond_witness :
  fromisoformat_v37 (strip_Z "1970-01-01T00:00:01.001+00:00")
  = Ok second_and_a_millisecond
  /\ valid_datetime second_and_a_millisecond = true
  /\ tzinfo second_and_a_millisecond = Some 0
  /\ wall_microseconds second_and_a_millisecond - 0 = 1001000
  /\ iso utc_zone (VStr "1970-01-01T00:00:01.001+00:00") = Ok (VInt 1000)
  /\ exists n,
       iso utc_zone (VStr "1970-01-01T00:00:01.001+00:00") = Ok (VInt n)
       /\ Z.abs (n - Z.quot 1001000 1000) <= 1
       /\ Z.abs n <= Z.abs (Z.quot 1001000 1000).
Proof.
  assert (H1 : fromisoformat_v37 (strip_Z "1970-01-01T00:00:01.001+00:00")
               = Ok second_and_a_millisecond) by by_computation.
  pose proof (aware_conversion_within_one_millisecond fromisoformat_v37
                utc_zone "1970-01-01T00:00:01.001+00:00"
                second_and_a_millisecond 0 H1 eq_refl eq_refl) as H.
  cbv zeta in H.
  change (wall_microseconds second_and_a_millisecond - 0) with 1001000 in H.
  destruct H as (n & Hn & Hq & Hw & _).
  split; [exact H1|]. split; [reflexivity|]. split; [reflexivity|].
  split; [reflexivity|]. split; [by_computation|].
  exists n. split; [exact Hn|]. split; [exact Hq|]. apply Hw. reflexivity.
Defined.

Lemma aware_whole_seconds_convert_exactly_witness :
  fromisoformat_v37 (strip_Z "2023-10-15T14:30:45+05:30")
  = Ok afternoon_in_india
  /\ valid_datetime afternoon_in_india = true
  /\ tzinfo afternoon_in_india = Some 19800000000
  /\ wall_microseconds afternoon_in_india - 19800000000
     = 1000000 * 1697360445
  /\ iso (fixed_zone 3600) (VStr "2023-10-15T14:30:45+05:30")
     = Ok (VInt (1000 * 1697360445)).
Proof.
  assert (H1 : fromisoformat_v37 (strip_Z "2023-10-15T14:30:45+05:30")
               = Ok afternoon_in_india) by by_computation.
  split; [exact H1|]. split; [reflexivity|]. split; [reflexivity|].
  split; [reflexivity|].
  exact (aware_whole_seconds_convert_exactly fromisoformat_v37
           (fixed_zone 3600) "2023-10-15T14:30:45+05:30" afternoon_in_india
           19800000000 1697360445 H1 eq_refl eq_refl eq_refl).
Defined.

Lemma naive_whole_seconds_convert_exactly_witness :
  fromisoformat_v37 (strip_Z "2023-10-15T14:30:45Z") = Ok afternoon
  /\ tzinfo afternoon = None
  /\ microsecond afternoon = 0
  /\ fixed_zone 19800 (wall_seconds afternoon) = Ok 1697360445
  /\ Z.abs 1697360445 < 2 ^ 43
  /\ iso (fixed_zone 19800) (VStr "2023-10-15T14:30:45Z")
     = Ok (VInt (1000 * 1697360445)).
Proof.
  assert (H1 : fromisoformat_v37 (strip_Z "2023-10-15T14:30:45Z")
               = Ok afternoon) by by_computation.
  assert (H2 : Z.abs 1697360445 < 2 ^ 43) by reflexivity.
  split; [exact H1|]. split; [reflexivity|]. split; [reflexivity|].
  split; [reflexivity|]. split; [exact H2|].
  exact (naive_whole_seconds_convert_exactly fromisoformat_v37
           (fixed_zone 19800) "2023-10-15T14:30:45Z" afternoon 1697360445
           H1 eq_refl eq_refl eq_refl H2).
Defined.

Lemma naive_conversion_within_one_millisecond_witness :
  fromisoformat_v37 (strip_Z "1970-01-01T00:00:01.001Z")
  = Ok second_and_a_millisecond_local
  /\ valid_datetime second_and_a_millisecond_local = true
  /\ tzinfo second_and_a_millisecond_local = None
  /\ utc_zone (wall_seconds second_and_a_millisecond_local) = Ok 1
  /\ Z.abs 1 < 2 ^ 39
  /\ iso utc_zone (VStr "1970-01-01T00:00:01.001Z") = Ok (VInt 1000)
  /\ exists n,
       iso utc_zone (VStr "1970-01-01T00:00:01.001Z") = Ok (VInt n)
       /\ Z.abs (n - Z.quot 1001000 1000) <= 1
       /\ Z.abs n <= Z.abs (Z.quot 1001000 1000).
Proof.
  assert (H1 : fromisoformat_v37 (strip_Z "1970-01-01T00:00:01.001Z")
               = Ok second_and_a_millisecond_local) by by_computation.
  assert (H2 : Z.abs 1 < 2 ^ 39) by reflexivity.
  pose proof (naive_conversion_within_one_millisecond fromisoformat_v37
                utc_zone "1970-01-01T00:00:01.001Z"
                second_and_a_millisecond_local 1 H1 eq_refl eq_refl eq_refl
                H2) as H.
  cbv zeta in H.
  change (1000000 * 1 + microsecond second_and_a_millisecond_local)
    with 1001000 in H.
  destruct H as (n & Hn & Hq & Hw & _).
  split; [exact H1|]. split; [reflexivity|]. split; [reflexivity|].
  split; [reflexivity|]. split; [exact H2|]. split; [by_computation|].
  exists n. split; [exact Hn|]. split; [exact Hq|]. apply Hw. reflexivity.
Defined.

End Run.
